(** * The metrics collector manager of the Hawkular OpenShift Agent

    A shallow embedding of [collector/manager/metrics_collector_manager.go]:
    the per-endpoint scheduler started by [StartCollecting], one scrape cycle
    of its loop (matching, id expansion, label splitting, definition
    declaration) and [createMetricDefinition].

    Go maps are finite maps ([gmap]); where the source ranges over a map and
    the visiting order can be observed, the order is made explicit.  Go
    strings are byte strings, as [string] is.  Channels are the list of the
    batches sent so far, oldest first. *)

From Stdlib Require Import ZArith Ascii String List.
From stdpp Require Import base option list gmap sets strings pretty sorting.

Open Scope string_scope.
Open Scope Z_scope.

(* ===================================================================== *)
(** ** Go standard library: [strings], [sort], [os] *)
(* ===================================================================== *)

Module strings.

(** [strings.Contains(s, substr)] *)
Fixpoint Contains (s substr : string) : bool :=
  String.prefix substr s ||
  match s with
  | EmptyString => false
  | String _ s' => Contains s' substr
  end.

End strings.

Module sort.

(** [sort.Strings(a)]: [a] in increasing byte-wise lexicographic order.
    The order is total and antisymmetric, so the sorted list is determined
    by the elements alone, whatever the algorithm. *)
Definition Strings (a : list string) : list string :=
  merge_sort String.le a.

End sort.

Module os.

Definition isShellSpecialVar (c : ascii) : bool :=
  existsb (Ascii.eqb c)
    ["*"; "#"; "$"; "@"; "!"; "?"; "-";
     "0"; "1"; "2"; "3"; "4"; "5"; "6"; "7"; "8"; "9"]%char.

Definition isAlphaNum (c : ascii) : bool :=
  let n := N_of_ascii c in
  (Ascii.eqb c "_"
   || (48 <=? n)%N && (n <=? 57)%N
   || (97 <=? n)%N && (n <=? 122)%N
   || (65 <=? n)%N && (n <=? 90)%N)%bool.

(** The text before the first closing brace, if there is one. *)
Fixpoint until_brace (s : string) : option string :=
  match s with
  | EmptyString => None
  | String c s' =>
      if Ascii.eqb c "}" then Some EmptyString
      else String c <$> until_brace s'
  end.

Fixpoint scan_alnum (s : string) : string :=
  match s with
  | EmptyString => EmptyString
  | String c s' => if isAlphaNum c then String c (scan_alnum s') else EmptyString
  end.

(** [len(s) > 2 && isShellSpecialVar(s[1]) && s[2] == '}'], on [s[1:]] *)
Definition special_in_braces (rest : string) : bool :=
  match rest with
  | String c (String "}" _) => isShellSpecialVar c
  | _ => false
  end.

(** [getShellName(s)]: the name that begins the string and the number of
    bytes consumed to extract it.  The caller passes a non-empty [s]. *)
Definition getShellName (s : string) : string * nat :=
  match s with
  | EmptyString => (EmptyString, 0%nat)
  | String "{" rest =>
      if special_in_braces rest then (String.substring 0 1 rest, 3%nat)
      else
        (* scan to the closing brace *)
        match until_brace rest with
        | Some EmptyString => (EmptyString, 2%nat)   (* bad syntax; eat "${}" *)
        | Some name => (name, (String.length name + 2)%nat)
        | None => (EmptyString, 1%nat)               (* bad syntax; eat "${" *)
        end
  | String c rest =>
      if isShellSpecialVar c then (String c EmptyString, 1%nat)
      else let name := scan_alnum s in (name, String.length name)
  end.

(** The loop of [os.Expand]: [skip] bytes of a token just read are still
    to be passed over. *)
Fixpoint expand_from (mapping : string → string) (skip : nat) (s : string) : string :=
  match s with
  | EmptyString => EmptyString
  | String c rest =>
      match skip with
      | S k => expand_from mapping k rest
      | O =>
          if (Ascii.eqb c "$" && negb (String.eqb rest EmptyString))%bool then
            let '(name, w) := getShellName rest in
            (if (String.eqb name EmptyString && (0 <? w)%nat)%bool then EmptyString
             else if String.eqb name EmptyString then String c EmptyString
             else mapping name)
            +:+ expand_from mapping w rest
          else String c (expand_from mapping O rest)
      end
  end.

(** [os.Expand(s, mapping)] replaces [${var}] or [$var] in the string
    based on the mapping function.  This is the function of the current
    standard library; older releases differ on malformed tokens only (they
    pass the empty name to [mapping] where this one leaves the dollar sign
    or drops the token). *)
Definition Expand (s : string) (mapping : string → string) : string :=
  expand_from mapping O s.

End os.

(* ===================================================================== *)
(** ** Data model: [hmetrics], [collector], [config] *)
(* ===================================================================== *)

(** [time.Duration]: a count of nanoseconds. *)
Definition Duration := Z.
Definition Minute : Duration := 60 * 1000000000.

(** [hmetrics.MetricType] is a string type. *)
Definition MetricType := string.
Definition Gauge : MetricType := "gauge".

Module Datapoint.
(** The agent never inspects [Value]; it is carried as an opaque number. *)
Record t := mk {
  Timestamp : Z;
  Value : Z;
  Tags : gmap string string
}.
End Datapoint.

Module MetricHeader.
Record t := mk {
  Tenant : string;
  Type_ : MetricType;
  ID : string;
  Data : list Datapoint.t
}.
(** [collectedMetrics[i].ID = id] *)
Definition set_ID (id : string) (m : t) : t :=
  mk (Tenant m) (Type_ m) id (Data m).
End MetricHeader.

Module MetricDefinition.
Record t := mk {
  Tenant : string;
  Type_ : MetricType;
  ID : string;
  Tags : gmap string string
}.
End MetricDefinition.

Module MonitoredMetric.
Record t := mk {
  ID : string;
  Name : string;
  Type_ : MetricType;
  Units : string;
  Description : string;
  Tags : gmap string string
}.
End MonitoredMetric.

Module MetricDetails.
Record t := mk {
  Name : string;
  MetricType_ : MetricType;
  Description : string
}.
(** the zero value of the struct *)
Definition zero : t := mk "" "" "".
End MetricDetails.

Module Endpoint.
Record t := mk {
  IsEnabled : bool;
  Tenant : string;
  Collection_Interval : string;
  Tags : gmap string string;
  Metrics : list MonitoredMetric.t
}.
End Endpoint.

(** The part of [collector.MetricsCollector] that is fixed for a collector.
    What [CollectMetrics] and [CollectMetricDetails] answer is an input of
    each scrape cycle, see [Scrape]. *)
Record MetricsCollector := {
  GetId : string;
  GetEndpoint : Endpoint.t;
  GetAdditionalEnvironment : gmap string string
}.

Record Collector_Config := {
  Minimum_Collection_Interval : string;
  Default_Collection_Interval : string;
  Metric_ID_Prefix : string;
  Tags : gmap string string
}.

Record Config := { Collector : Collector_Config }.

(* ===================================================================== *)
(** ** [util/expand] and [config/tags] *)
(* ===================================================================== *)

Module expand.

Record MappingFuncConfig := {
  Env : gmap string string;
  UseOSEnv : bool;
  DoNotExpandIfNotFound : bool
}.

(** Modelled from the spec: [expand.MappingFunc] (util/expand is not among
    the sources).  A name is looked up in the additional environment [Env];
    the process environment is consulted only when [UseOSEnv] is set; a
    name found nowhere expands to the literal placeholder when the expander
    is configured do-not-expand-if-not-found, otherwise to the empty
    string. *)
Definition MappingFunc (conf : MappingFuncConfig) (osenv : gmap string string)
    (name : string) : string :=
  match Env conf !! name with
  | Some v => v
  | None =>
      match (if UseOSEnv conf then osenv !! name else None) with
      | Some v => v
      | None =>
          if DoNotExpandIfNotFound conf then "${" +:+ name +:+ "}" else ""
      end
  end.

End expand.

Module tags.

(** Modelled from the spec: [Tags.ExpandTokens] (config/tags is not among
    the sources).  Each layer undergoes token expansion: the tag values are
    expanded with [os.Expand] under the given mapping configuration. *)
Definition ExpandTokens (t : gmap string string) (conf : expand.MappingFuncConfig)
    (osenv : gmap string string) : gmap string string :=
  (λ v, os.Expand v (expand.MappingFunc conf osenv)) <$> t.

(** Modelled from the spec: [Tags.AppendTags] (config/tags is not among the
    sources).  The appended layer is the higher one: its value replaces the
    value a key already has. *)
Definition AppendTags (t more : gmap string string) : gmap string string :=
  more ∪ t.

End tags.

(* ===================================================================== *)
(** ** Effects: channels, status report, agent metrics, log *)
(* ===================================================================== *)

(** The calls made on [status.StatusReport], in order.  The registry itself
    belongs to the emitter; the manager only issues these calls. *)
Inductive StatusCall :=
| SetEndpoint (endpoint status : string)
| AddLogMessage (msg : string)
| DeleteAllEndpoints.

(** The warnings and informational lines the manager logs (trace and debug
    lines are left out). *)
Inductive LogEvent :=
| Info_disabled (msg : string)
| Info_start (id : string) (interval : Duration)
| Info_stop (id : string)
| Info_stop_all
| Warn_interval_invalid (id : string)
| Warn_default_interval_invalid
| Warn_below_minimum (id : string) (interval minimum : Duration)
| Warn_minimum_invalid
| Warn_collect_failed (msg : string)
| Warn_unexpected_metric (metric id : string)
| Warn_details_failed (msg : string)
| Warn_type_unknown (metric : string)
| Warn_units_invalid (metric : string).

Record World := mkWorld {
  metricsChan : list (list MetricHeader.t);
  metricDefsChan : list (list MetricDefinition.t);
  StatusReport : list StatusCall;
  DataPointsCollected : Z;
  log : list LogEvent
}.

Definition send_metrics (batch : list MetricHeader.t) (w : World) : World :=
  mkWorld (metricsChan w ++ [batch]) (metricDefsChan w) (StatusReport w)
          (DataPointsCollected w) (log w).

Definition send_metricDefs (batch : list MetricDefinition.t) (w : World) : World :=
  mkWorld (metricsChan w) (metricDefsChan w ++ [batch]) (StatusReport w)
          (DataPointsCollected w) (log w).

Definition status_call (c : StatusCall) (w : World) : World :=
  mkWorld (metricsChan w) (metricDefsChan w) (StatusReport w ++ [c])
          (DataPointsCollected w) (log w).

Definition DataPointsCollected_Add (n : Z) (w : World) : World :=
  mkWorld (metricsChan w) (metricDefsChan w) (StatusReport w)
          (DataPointsCollected w + n) (log w).

Definition log_event (e : LogEvent) (w : World) : World :=
  mkWorld (metricsChan w) (metricDefsChan w) (StatusReport w)
          (DataPointsCollected w) (log w ++ [e]).

Definition log_events (es : list LogEvent) (w : World) : World :=
  foldl (λ w e, log_event e w) w es.

(** What the endpoint answers during one cycle, and the clock readings the
    cycle formats into its messages. *)
Record Scrape := {
  CollectMetrics : string + list MetricHeader.t;
  CollectMetricDetails : list string → string + list MetricDetails.t;
  now : string;       (* time.Now().Format(time.RFC1123Z) *)
  timer : string      (* the stopwatch, as printed *)
}.

(** [collector.MetricUnits], as far as the manager reads it. *)
Record MetricUnits := { Symbol : string }.

(** A panic ends the calling goroutine's work. *)
Inductive outcome (A : Type) :=
| Done (a : A)
| Panic (msg : string).
Arguments Done {A} a.
Arguments Panic {A} msg.

(* ===================================================================== *)
(** ** The identity expander of the scheduler loop *)
(* ===================================================================== *)

(** [monitoredMetricsByNameMap], keyed on name. *)
Definition monitoredMetricsByNameMap (e : Endpoint.t) : gmap string MonitoredMetric.t :=
  foldl (λ m mm, <[MonitoredMetric.Name mm := mm]> m) ∅ (Endpoint.Metrics e).

(** The metric declaration a collected metric is processed under: the
    declared one, none for a metric that was not expected, a fabricated one
    when the endpoint lists no metrics. *)
Definition match_metric (byName : gmap string MonitoredMetric.t)
    (collectedMetric : MetricHeader.t) : option MonitoredMetric.t :=
  if (0 <? size byName)%nat then byName !! MetricHeader.ID collectedMetric
  else Some (MonitoredMetric.mk (MetricHeader.ID collectedMetric)
                                (MetricHeader.ID collectedMetric)
                                (MetricHeader.Type_ collectedMetric) "" "" ∅).

(** The label names met while ranging over the datapoints' tag maps;
    [visits] lists, per datapoint, the keys in the order they are visited. *)
Definition keysMap_visiting (visits : list (list string)) : gset string :=
  foldl (λ keysMap ks, foldl (λ keysMap k, {[k]} ∪ keysMap) keysMap ks) ∅ visits.

Definition tag_visit (datapt : Datapoint.t) : list string :=
  (map_to_list (Datapoint.Tags datapt)).*1.

Definition keysMap_of (data : list Datapoint.t) : gset string :=
  keysMap_visiting (tag_visit <$> data).

(** The buffer [keysString] after the loop over the sorted keys. *)
Definition keysString (keys : list string) : string :=
  fst (foldl (λ '(buf, comma) k,
                (buf +:+ comma +:+ k +:+ "=${" +:+ k +:+ "}", ","))
             ("", "") keys).

(** The default id of a labelled metric, from the keys in the order the
    range over [keysMap] produced them. *)
Definition labelled_id (id : string) (keys_visited : list string) : string :=
  id +:+ "{" +:+ keysString (sort.Strings keys_visited) +:+ "}".

(** Lines 211-237: an id without tokens, on a metric whose datapoints have
    tags, gets the sorted tag names appended. *)
Definition default_split_id (id : string) (data : list Datapoint.t) : string :=
  if negb (strings.Contains id "${") then
    let keysMap := keysMap_of data in
    if (0 <? size keysMap)%nat then labelled_id id (elements keysMap) else id
  else id.

(** The mapping function of the split step, over a datapoint's own tags. *)
Definition datapt_mapping (datapt : Datapoint.t) (osenv : gmap string string)
    : string → string :=
  expand.MappingFunc
    {| expand.UseOSEnv := false; expand.Env := Datapoint.Tags datapt;
       expand.DoNotExpandIfNotFound := false |} osenv.

(** Lines 240-250: one header per datapoint. *)
Definition splitMetrics_of (osenv : gmap string string) (template : string)
    (collectedMetric : MetricHeader.t) : list MetricHeader.t :=
  (λ datapt,
     MetricHeader.mk (MetricHeader.Tenant collectedMetric)
                     (MetricHeader.Type_ collectedMetric)
                     (os.Expand template (datapt_mapping datapt osenv))
                     [datapt])
  <$> MetricHeader.Data collectedMetric.

(** "if we need to create the metric definition, remember it" *)
Definition remember (declared : gmap string MonitoredMetric.t)
    (monitoredMetric : MonitoredMetric.t)
    (needed : gmap string MonitoredMetric.t) (id : string)
    : gmap string MonitoredMetric.t :=
  match declared !! id with
  | Some _ => needed
  | None => <[id := monitoredMetric]> needed
  end.

(** The state one cycle builds up while it ranges over the collected
    metrics. *)
Record Cycle := mkCycle {
  metricDefinitionsNeeded : gmap string MonitoredMetric.t;
  totalNumberOfMetricsCollected : Z;
  world : World
}.

Section Scheduler.

Variable GetMetricUnits : string → MetricUnits * option string.
Variable conf : Config.
Variable osenv : gmap string string.
Variable theCollector : MetricsCollector.

Definition mappingFunc : string → string :=
  expand.MappingFunc
    {| expand.Env := GetAdditionalEnvironment theCollector;
       expand.UseOSEnv := false;
       expand.DoNotExpandIfNotFound := true |} osenv.

Definition mappingFuncWithOsEnv : string → string :=
  expand.MappingFunc
    {| expand.Env := GetAdditionalEnvironment theCollector;
       expand.UseOSEnv := true;
       expand.DoNotExpandIfNotFound := false |} osenv.

(** Line 196: the prefixed id, with the unmapped tokens left untouched. *)
Definition expanded_id (monitoredMetric : MonitoredMetric.t) : string :=
  os.Expand (Metric_ID_Prefix (Collector conf)) mappingFuncWithOsEnv
  +:+ os.Expand (MonitoredMetric.ID monitoredMetric) mappingFunc.

(** Lines 195-269, for a metric that has its declaration: the value left
    in the slot [collectedMetrics[i]] and the cycle's state. *)
Definition collect_matched (declared : gmap string MonitoredMetric.t)
    (monitoredMetric : MonitoredMetric.t) (collectedMetric : MetricHeader.t)
    (st : Cycle) : MetricHeader.t * Cycle :=
  let id2 := default_split_id (expanded_id monitoredMetric)
                              (MetricHeader.Data collectedMetric) in
  if strings.Contains id2 "${" then
    let splitMetrics := splitMetrics_of osenv id2 collectedMetric in
    let needed := foldl (remember declared monitoredMetric)
                        (metricDefinitionsNeeded st)
                        (MetricHeader.ID <$> splitMetrics) in
    (MetricHeader.set_ID "" collectedMetric,
     mkCycle needed
             (totalNumberOfMetricsCollected st + Z.of_nat (length splitMetrics))
             (send_metrics splitMetrics (world st)))
  else
    (MetricHeader.set_ID id2 collectedMetric,
     mkCycle (remember declared monitoredMetric (metricDefinitionsNeeded st) id2)
             (totalNumberOfMetricsCollected st)
             (world st)).

(** Lines 173-270: the body of the range over the collected metrics. *)
Definition collect_one (declared : gmap string MonitoredMetric.t)
    (collectedMetric : MetricHeader.t) (st : Cycle) : MetricHeader.t * Cycle :=
  match match_metric (monitoredMetricsByNameMap (GetEndpoint theCollector))
                     collectedMetric with
  | None =>
      (MetricHeader.set_ID "" collectedMetric,
       mkCycle (metricDefinitionsNeeded st) (totalNumberOfMetricsCollected st)
               (log_event (Warn_unexpected_metric (MetricHeader.ID collectedMetric)
                                                  (GetId theCollector))
                          (world st)))
  | Some monitoredMetric => collect_matched declared monitoredMetric collectedMetric st
  end.

Fixpoint collect_loop (declared : gmap string MonitoredMetric.t)
    (collectedMetrics : list MetricHeader.t) (st : Cycle)
    : list MetricHeader.t * Cycle :=
  match collectedMetrics with
  | [] => ([], st)
  | collectedMetric :: rest =>
      let '(slot, st1) := collect_one declared collectedMetric st in
      let '(slots, st2) := collect_loop declared rest st1 in
      (slot :: slots, st2)
  end.

(** Lines 272-280: "we may have unknown or split-up metrics - remove them" *)
Definition remove_obsolete (collectedMetrics : list MetricHeader.t)
    : list MetricHeader.t :=
  List.filter (λ m, negb (String.eqb (MetricHeader.ID m) "")) collectedMetrics.

(* =================================================================== *)
(** ** [createMetricDefinition] *)
(* =================================================================== *)

(** "find the metric details for the metric we are currently working on":
    the last entry of that name, the zero value when there is none. *)
Definition find_details (metricDetails : list MetricDetails.t) (name : string)
    : MetricDetails.t :=
  foldl (λ metricDetail m,
           if String.eqb name (MetricDetails.Name m) then m else metricDetail)
        MetricDetails.zero metricDetails.

Definition metricType_of (monitoredMetric : MonitoredMetric.t)
    (metricDetail : MetricDetails.t) : MetricType :=
  if String.eqb (MonitoredMetric.Type_ monitoredMetric) "" then
    if String.eqb (MetricDetails.MetricType_ metricDetail) "" then Gauge
    else MetricDetails.MetricType_ metricDetail
  else MonitoredMetric.Type_ monitoredMetric.

Definition metricDescription_of (monitoredMetric : MonitoredMetric.t)
    (metricDetail : MetricDetails.t) : string :=
  if String.eqb (MonitoredMetric.Description monitoredMetric) "" then
    MetricDetails.Description metricDetail
  else MonitoredMetric.Description monitoredMetric.

(** The environment the tags of one definition are expanded in: the four
    injected values, overwritten by the collector's additional
    environment. *)
Definition definition_env (metricId name units description : string)
    : gmap string string :=
  GetAdditionalEnvironment theCollector ∪
  <["METRIC:description" := description]>
    (<["METRIC:units" := units]>
       (<["METRIC:id" := metricId]>
          (<["METRIC:name" := name]> ∅))).

Definition noOsEnv (env : gmap string string) : expand.MappingFuncConfig :=
  {| expand.Env := env; expand.UseOSEnv := false;
     expand.DoNotExpandIfNotFound := false |}.

Definition withOsEnv (env : gmap string string) : expand.MappingFuncConfig :=
  {| expand.Env := env; expand.UseOSEnv := true;
     expand.DoNotExpandIfNotFound := false |}.

Definition globalTags (env : gmap string string) : gmap string string :=
  tags.ExpandTokens (Tags (Collector conf)) (withOsEnv env) osenv.

Definition endpointTags (env : gmap string string) : gmap string string :=
  tags.ExpandTokens (Endpoint.Tags (GetEndpoint theCollector)) (noOsEnv env) osenv.

(** The custom tags of the metric, then the fixed tags. *)
Definition metricTags (monitoredMetric : MonitoredMetric.t)
    (env : gmap string string) (metricDescription unitsSymbol : string)
    : gmap string string :=
  let t := tags.ExpandTokens (MonitoredMetric.Tags monitoredMetric) (noOsEnv env) osenv in
  let t := if String.eqb metricDescription "" then t
           else <["description" := metricDescription]> t in
  if String.eqb unitsSymbol "" then t else <["units" := unitsSymbol]> t.

Definition allMetricTags (endpointTags metricTags globalTags : gmap string string)
    : gmap string string :=
  tags.AppendTags (tags.AppendTags (tags.AppendTags ∅ endpointTags) metricTags)
                  globalTags.

(** The body of the range over [metricDefsNeeded]: one definition. *)
Definition metricDef_of (metricDetails : list MetricDetails.t)
    (metricId : string) (monitoredMetric : MonitoredMetric.t)
    : MetricDefinition.t :=
  let metricDetail := find_details metricDetails (MonitoredMetric.Name monitoredMetric) in
  let metricDescription := metricDescription_of monitoredMetric metricDetail in
  let units := fst (GetMetricUnits (MonitoredMetric.Units monitoredMetric)) in
  let env := definition_env metricId (MonitoredMetric.Name monitoredMetric)
                            (Symbol units) metricDescription in
  MetricDefinition.mk
    (Endpoint.Tenant (GetEndpoint theCollector))
    (metricType_of monitoredMetric metricDetail)
    metricId
    (allMetricTags (endpointTags env)
                   (metricTags monitoredMetric env metricDescription (Symbol units))
                   (globalTags env)).

(** The warnings of that body. *)
Definition metricDef_warnings (metricDetails : list MetricDetails.t)
    (monitoredMetric : MonitoredMetric.t) : list LogEvent :=
  let metricDetail := find_details metricDetails (MonitoredMetric.Name monitoredMetric) in
  (if (String.eqb (MonitoredMetric.Type_ monitoredMetric) ""
       && String.eqb (MetricDetails.MetricType_ metricDetail) "")%bool
   then [Warn_type_unknown (MonitoredMetric.Name monitoredMetric)] else [])
  ++
  (match snd (GetMetricUnits (MonitoredMetric.Units monitoredMetric)) with
   | Some _ => [Warn_units_invalid (MonitoredMetric.Name monitoredMetric)]
   | None => []
   end).

(** The distinct names of the metrics that need a definition, as passed to
    [CollectMetricDetails]. *)
Definition metricNamesArr (metricDefsNeeded : gmap string MonitoredMetric.t)
    : list string :=
  elements (list_to_set (MonitoredMetric.Name <$> (map_to_list metricDefsNeeded).*2)
            : gset string).

(** [createMetricDefinition]: the returned error and the effects.  The
    message of a failed details call prints the named result [err], which
    is still nil there. *)
Definition createMetricDefinition (scrape : Scrape)
    (metricDefsNeeded : gmap string MonitoredMetric.t) (w : World)
    : option string * World :=
  if (size metricDefsNeeded =? 0)%nat then (None, w)
  else
    let '(metricDetails, err, w) :=
      match CollectMetricDetails scrape (metricNamesArr metricDefsNeeded) with
      | inr details => (details, None, w)
      | inl e =>
          let msg := "Failed to obtain metric details - metric definitions may be incomplete. err=<nil>" in
          ([], Some e,
           status_call (SetEndpoint (GetId theCollector) msg)
                       (log_event (Warn_details_failed msg) w))
      end in
    let needed := map_to_list metricDefsNeeded in
    let w := log_events
               (mjoin ((λ kv, metricDef_warnings metricDetails kv.2) <$> needed)) w in
    let metricDefs := (λ kv, metricDef_of metricDetails kv.1 kv.2) <$> needed in
    (err, send_metricDefs metricDefs w).

(* =================================================================== *)
(** ** One tick of the scheduler loop *)
(* =================================================================== *)

Definition empty_cycle (w : World) : Cycle := mkCycle ∅ 0 w.

(** The body of [for _ = range ticker.C], from the scheduler's cache of
    declared definitions and the world to the same after the cycle. *)
Definition tick (scrape : Scrape)
    (st : gmap string MonitoredMetric.t * World)
    : gmap string MonitoredMetric.t * World :=
  let '(metricDefinitionsDeclared, w) := st in
  match CollectMetrics scrape with
  | inl err =>
      let msg := "Failed to collect metrics from [" +:+ GetId theCollector
                 +:+ "] at [" +:+ now scrape +:+ "]. err=" +:+ err in
      (metricDefinitionsDeclared,
       status_call (SetEndpoint (GetId theCollector) msg)
                   (log_event (Warn_collect_failed msg) w))
  | inr collectedMetrics =>
      let '(slots, cyc) :=
        collect_loop metricDefinitionsDeclared collectedMetrics (empty_cycle w) in
      let collectedMetrics := remove_obsolete slots in
      let w := send_metrics collectedMetrics (world cyc) in
      let total := totalNumberOfMetricsCollected cyc
                   + Z.of_nat (length collectedMetrics) in
      let needed := metricDefinitionsNeeded cyc in
      let '(declared, w) :=
        if (0 <? size needed)%nat then
          match createMetricDefinition scrape needed w with
          | (None, w) => (needed ∪ metricDefinitionsDeclared, w)
          | (Some _, w) => (metricDefinitionsDeclared, w)
          end
        else (metricDefinitionsDeclared, w) in
      let w := DataPointsCollected_Add total w in
      (declared,
       status_call
         (SetEndpoint (GetId theCollector)
            ("OK. Last collection at [" +:+ now scrape +:+ "] gathered ["
             +:+ pretty total +:+ "] metrics in [" +:+ timer scrape +:+ "]"))
         w)
  end.

(** The scheduler loop over the ticks it receives before its ticker is
    stopped. *)
Definition run (scrapes : list Scrape)
    (st : gmap string MonitoredMetric.t * World)
    : gmap string MonitoredMetric.t * World :=
  foldl (λ st scrape, tick scrape st) st scrapes.

End Scheduler.

(* ===================================================================== *)
(** ** The manager: the table of tickers *)
(* ===================================================================== *)

(** A [time.Ticker]: its period, and whether it still delivers ticks. *)
Record Ticker := mkTicker { period : Duration; running : bool }.

(** The manager and what hangs off it.  [*time.Ticker] is the position of
    the ticker among the tickers made so far; each goroutine started by
    [StartCollecting] ranges over one of them for one collector. *)
Record MetricsCollectorManager := mkManager {
  Tickers : gmap string nat;
  tickers : list Ticker;
  goroutines : list (nat * MetricsCollector)
}.

Definition Ticker_Stop (t : nat) (ts : list Ticker) : list Ticker :=
  alter (λ tk, mkTicker (period tk) false) t ts.

Section Manager.

(** [time.ParseDuration] and [time.Duration.String]. *)
Variable ParseDuration : string → option Duration.
Variable Duration_String : Duration → string.
Variable conf : Config.

(** [StopCollecting] *)
Definition StopCollecting (collectorId : string)
    (st : MetricsCollectorManager * World) : MetricsCollectorManager * World :=
  let '(mcm, w) := st in
  let '(mcm, w) :=
    match Tickers mcm !! collectorId with
    | Some ticker =>
        (mkManager (delete collectorId (Tickers mcm))
                   (Ticker_Stop ticker (tickers mcm))
                   (goroutines mcm),
         status_call (AddLogMessage ("STOP collection: " +:+ collectorId))
                     (log_event (Info_stop collectorId) w))
    | None => (mcm, w)
    end in
  (mcm, status_call (SetEndpoint collectorId "") w).

(** Lines 96-112: the interval before it is compared with the minimum,
    and the warnings on the way. *)
Definition parsed_interval (theCollector : MetricsCollector)
    : Duration * list LogEvent :=
  let default := Default_Collection_Interval (Collector conf) in
  let collectionIntervalString :=
    if String.eqb (Endpoint.Collection_Interval (GetEndpoint theCollector)) ""
    then default
    else Endpoint.Collection_Interval (GetEndpoint theCollector) in
  match ParseDuration collectionIntervalString with
  | Some d => (d, [])
  | None =>
      match ParseDuration default with
      | Some d => (d, [Warn_interval_invalid (GetId theCollector)])
      | None => (Minute * 5,
                 [Warn_interval_invalid (GetId theCollector);
                  Warn_default_interval_invalid])
      end
  end.

(** Lines 113-121: raised to the minimum, when there is a valid one. *)
Definition clamp_interval (theCollector : MetricsCollector)
    (collectionInterval : Duration) : Duration * list LogEvent :=
  match ParseDuration (Minimum_Collection_Interval (Collector conf)) with
  | Some minimumInterval =>
      if collectionInterval <? minimumInterval
      then (minimumInterval,
            [Warn_below_minimum (GetId theCollector) collectionInterval minimumInterval])
      else (collectionInterval, [])
  | None => (collectionInterval, [Warn_minimum_invalid])
  end.

Definition collectionInterval_of (theCollector : MetricsCollector) : Duration :=
  fst (clamp_interval theCollector (fst (parsed_interval theCollector))).

Definition interval_warnings (theCollector : MetricsCollector) : list LogEvent :=
  snd (parsed_interval theCollector)
  ++ snd (clamp_interval theCollector (fst (parsed_interval theCollector))).

(** [StartCollecting].  [time.NewTicker] panics on a non-positive
    duration. *)
Definition StartCollecting (theCollector : MetricsCollector)
    (st : MetricsCollectorManager * World)
    : outcome (MetricsCollectorManager * World) :=
  let id := GetId theCollector in
  if negb (Endpoint.IsEnabled (GetEndpoint theCollector)) then
    let m := "Will not collect metrics from [" +:+ id +:+ "] - it has been disabled." in
    let '(mcm, w) := st in
    Done (mcm, status_call (SetEndpoint id m) (log_event (Info_disabled m) w))
  else
    let '(mcm, w) := StopCollecting id st in
    let collectionInterval := collectionInterval_of theCollector in
    let w := log_events (interval_warnings theCollector) w in
    let w := log_event (Info_start id collectionInterval) w in
    let w := status_call
               (AddLogMessage ("START collection: " +:+ id +:+ " (interval="
                               +:+ Duration_String collectionInterval +:+ ")")) w in
    let w := status_call (SetEndpoint id "STARTING") w in
    if collectionInterval <=? 0 then Panic "non-positive interval for NewTicker"
    else
      let ticker := length (tickers mcm) in
      Done (mkManager (<[id := ticker]> (Tickers mcm))
                      (tickers mcm ++ [mkTicker collectionInterval true])
                      (goroutines mcm ++ [(ticker, theCollector)]),
            w).

End Manager.

(** [NewMetricsCollectorManager]: a manager without tickers.  (The
    configuration and the two channels it is given are the [conf] and the
    [World] the operations take.) *)
Definition NewMetricsCollectorManager : MetricsCollectorManager :=
  mkManager ∅ [] [].

(** The body of the range of [StopCollectingAll] over the ticker table. *)
Definition stop_entry (mcm : MetricsCollectorManager) (entry : string * nat)
    : MetricsCollectorManager :=
  mkManager (delete entry.1 (Tickers mcm))
            (Ticker_Stop entry.2 (tickers mcm))
            (goroutines mcm).

(** [StopCollectingAll] *)
Definition StopCollectingAll (st : MetricsCollectorManager * World)
    : MetricsCollectorManager * World :=
  let '(mcm, w) := st in
  let w := status_call (AddLogMessage "STOP collecting all metrics from all endpoints")
                       (log_event Info_stop_all w) in
  (foldl stop_entry mcm (map_to_list (Tickers mcm)),
   status_call DeleteAllEndpoints w).

(* ===================================================================== *)
(** ** Notions used in the statements *)
(* ===================================================================== *)

Definition token_of (k : string) : string := k +:+ "=${" +:+ k +:+ "}".

Definition declared_names (e : Endpoint.t) : list string :=
  MonitoredMetric.Name <$> Endpoint.Metrics e.

(** The collected metric is one the endpoint was told to collect. *)
Definition expected (e : Endpoint.t) (collectedMetric : MetricHeader.t) : bool :=
  bool_decide (MetricHeader.ID collectedMetric ∈ declared_names e).

(** Two worlds that differ in the log only. *)
Definition same_effects (w1 w2 : World) : Prop :=
  metricsChan w1 = metricsChan w2
  ∧ metricDefsChan w1 = metricDefsChan w2
  ∧ StatusReport w1 = StatusReport w2
  ∧ DataPointsCollected w1 = DataPointsCollected w2.

Definition same_cycle (c1 c2 : Cycle) : Prop :=
  metricDefinitionsNeeded c1 = metricDefinitionsNeeded c2
  ∧ totalNumberOfMetricsCollected c1 = totalNumberOfMetricsCollected c2
  ∧ same_effects (world c1) (world c2).

(** Every id noted as needed is one that is not declared yet. *)
Definition needed_fresh (declared needed : gmap string MonitoredMetric.t) : Prop :=
  ∀ id, is_Some (needed !! id) → declared !! id = None.

(** The ids sent on the definition channel so far, batch after batch. *)
Definition definition_ids_sent (w : World) : list string :=
  mjoin (fmap MetricDefinition.ID <$> metricDefsChan w).

(** The endpoint answers whatever details request it is sent in this
    cycle. *)
Definition details_succeed (scrape : Scrape) : Prop :=
  ∀ names, ∃ details, CollectMetricDetails scrape names = inr details.

(** The ids sent so far are distinct and all in the cache. *)
Definition sent_once (st : gmap string MonitoredMetric.t * World) : Prop :=
  NoDup (definition_ids_sent st.2)
  ∧ ∀ id, id ∈ definition_ids_sent st.2 → is_Some (st.1 !! id).

(** The answer to the metric-details request that the cycle run from this
    state makes, if it makes one: [createMetricDefinition] is called when
    the loop has noted ids whose definition is needed, and asks for the
    details of their metrics (lines 287-289 and 366). *)
Definition details_request (conf : Config) (osenv : gmap string string)
    (theCollector : MetricsCollector) (scrape : Scrape)
    (st : gmap string MonitoredMetric.t * World)
    : option (string + list MetricDetails.t) :=
  match CollectMetrics scrape with
  | inl _ => None
  | inr collectedMetrics =>
      let needed :=
        metricDefinitionsNeeded
          (collect_loop conf osenv theCollector st.1 collectedMetrics
                        (empty_cycle st.2)).2 in
      if (0 <? size needed)%nat
      then Some (CollectMetricDetails scrape (metricNamesArr needed))
      else None
  end.

(** The cycle run from this state makes a details request, and it fails. *)
Definition request_failed (conf : Config) (osenv : gmap string string)
    (theCollector : MetricsCollector) (scrape : Scrape)
    (st : gmap string MonitoredMetric.t * World) : Prop :=
  ∃ err, details_request conf osenv theCollector scrape st = Some (inl err).

(** No cycle of the run makes a details request that fails. *)
Fixpoint no_request_fails (GetMetricUnits : string → MetricUnits * option string)
    (conf : Config) (osenv : gmap string string) (theCollector : MetricsCollector)
    (scrapes : list Scrape) (st : gmap string MonitoredMetric.t * World) : Prop :=
  match scrapes with
  | [] => True
  | scrape :: scrapes =>
      ¬ request_failed conf osenv theCollector scrape st
      ∧ no_request_fails GetMetricUnits conf osenv theCollector scrapes
          (tick GetMetricUnits conf osenv theCollector scrape st)
  end.

(** The batch the loop sends for a collected metric while it visits it
    (lines 229-251): the per-datapoint series of a metric that is matched
    and whose id, after expansion and the label rewrite, holds a token. *)
Definition split_batch_of (conf : Config) (osenv : gmap string string)
    (theCollector : MetricsCollector) (collectedMetric : MetricHeader.t)
    : option (list MetricHeader.t) :=
  match match_metric (monitoredMetricsByNameMap (GetEndpoint theCollector))
                     collectedMetric with
  | Some monitoredMetric =>
      let template :=
        default_split_id (expanded_id conf osenv theCollector monitoredMetric)
                         (MetricHeader.Data collectedMetric) in
      if strings.Contains template "${"
      then Some (splitMetrics_of osenv template collectedMetric)
      else None
  | None => None
  end.

(** The series a collected metric leaves in the last batch of the cycle
    (lines 252-284): itself under its final id, when it is matched, its id
    holds no token and is not empty. *)
Definition kept_of (conf : Config) (osenv : gmap string string)
    (theCollector : MetricsCollector) (collectedMetric : MetricHeader.t)
    : option MetricHeader.t :=
  match match_metric (monitoredMetricsByNameMap (GetEndpoint theCollector))
                     collectedMetric with
  | Some monitoredMetric =>
      let id :=
        default_split_id (expanded_id conf osenv theCollector monitoredMetric)
                         (MetricHeader.Data collectedMetric) in
      if strings.Contains id "${" then None
      else if String.eqb id "" then None
      else Some (MetricHeader.set_ID id collectedMetric)
  | None => None
  end.




(** The ticker at this position still delivers ticks. *)
Definition is_running (mcm : MetricsCollectorManager) (t : nat) : Prop :=
  ∃ p, tickers mcm !! t = Some (mkTicker p true).

(** The table and the tickers agree: an id in the table names a running
    ticker whose goroutine collects for that id, every running ticker is in
    the table, and each ticker has its goroutine. *)
Definition manager_ok (mcm : MetricsCollectorManager) : Prop :=
  (∀ id t, Tickers mcm !! id = Some t →
           is_running mcm t
           ∧ ∃ c, goroutines mcm !! t = Some (t, c) ∧ GetId c = id)
  ∧ (∀ t, is_running mcm t → ∃ id, Tickers mcm !! id = Some t)
  ∧ length (goroutines mcm) = length (tickers mcm).

(** The number of series sent on the datapoint channel so far. *)
Definition series_sent (w : World) : Z :=
  Z.of_nat (length (mjoin (metricsChan w))).

(** The scrape of this cycle succeeded. *)
Definition scraped (scrape : Scrape) : bool :=
  match CollectMetrics scrape with
  | inr _ => true
  | inl _ => false
  end.

(** Two worlds in which the sink has been sent the same and the agent's
    counter stands the same. *)
Definition same_sink (w1 w2 : World) : Prop :=
  metricsChan w1 = metricsChan w2
  ∧ metricDefsChan w1 = metricDefsChan w2
  ∧ DataPointsCollected w1 = DataPointsCollected w2.

(** A slot of [collectedMetrics] after the loop, against the metric that
    was collected into it. *)
Definition slot_of (slot collectedMetric : MetricHeader.t) : Prop :=
  strings.Contains (MetricHeader.ID slot) "${" = false
  ∧ MetricHeader.Tenant slot = MetricHeader.Tenant collectedMetric
  ∧ MetricHeader.Type_ slot = MetricHeader.Type_ collectedMetric
  ∧ MetricHeader.Data slot = MetricHeader.Data collectedMetric.

(** A series with exactly one datapoint. *)
Definition single_datapoint (m : MetricHeader.t) : Prop :=
  length (MetricHeader.Data m) = 1%nat.

Definition same_sink_cycle (c1 c2 : Cycle) : Prop :=
  metricDefinitionsNeeded c1 = metricDefinitionsNeeded c2
  ∧ totalNumberOfMetricsCollected c1 = totalNumberOfMetricsCollected c2
  ∧ same_sink (world c1) (world c2).

(** Every id in the scheduler's cache has had its definition sent. *)
Definition cache_sent (st : gmap string MonitoredMetric.t * World) : Prop :=
  ∀ id, is_Some (st.1 !! id) → id ∈ definition_ids_sent st.2.

(** The manager an enabled collector is started into, from the manager
    [StopCollecting] left. *)
Definition started (ParseDuration : string → option Duration) (conf : Config)
    (theCollector : MetricsCollector) (stopped : MetricsCollectorManager)
    : MetricsCollectorManager :=
  mkManager (<[GetId theCollector := length (tickers stopped)]> (Tickers stopped))
            (tickers stopped
             ++ [mkTicker (collectionInterval_of ParseDuration conf theCollector) true])
            (goroutines stopped ++ [(length (tickers stopped), theCollector)]).

(** One call on the manager. *)
Inductive manager_step (ParseDuration : string → option Duration)
    (Duration_String : Duration → string) (conf : Config)
    : relation (MetricsCollectorManager * World) :=
| step_start theCollector st st' :
    StartCollecting ParseDuration Duration_String conf theCollector st = Done st' →
    manager_step ParseDuration Duration_String conf st st'
| step_stop collectorId st :
    manager_step ParseDuration Duration_String conf st (StopCollecting collectorId st)
| step_stop_all st :
    manager_step ParseDuration Duration_String conf st (StopCollectingAll st).

(* ===================================================================== *)
(** ** A worked endpoint *)
(* ===================================================================== *)

(** [time.ParseDuration] on the strings used below; ["60"] has no unit and
    is refused, as is any string that is not listed. *)
Definition go_durations (s : string) : option Duration :=
  if String.eqb s "1s" then Some 1000000000
  else if String.eqb s "30s" then Some 30000000000
  else if String.eqb s "5m" then Some 300000000000
  else None.

(** [time.Duration.String] on the same durations. *)
Definition go_duration_string (d : Duration) : string :=
  if d =? 1000000000 then "1s"
  else if d =? 30000000000 then "30s"
  else if d =? 300000000000 then "5m0s"
  else pretty d +:+ "ns".

(** A units table that knows every symbol. *)
Definition any_units (s : string) : MetricUnits * option string :=
  ({| Symbol := s |}, None).

Definition ex_conf : Config :=
  {| Collector := {| Minimum_Collection_Interval := "30s";
                     Default_Collection_Interval := "5m";
                     Metric_ID_Prefix := "";
                     Tags := {["env" := "${ENV}"]} |} |}.


Definition ex_os : gmap string string := {["ENV" := "prod"]}.

Definition ex_foo : MonitoredMetric.t := MonitoredMetric.mk "foo" "foo" "gauge" "" "" ∅.
Definition ex_bar : MonitoredMetric.t :=
  MonitoredMetric.mk "bar" "bar" "gauge" "" "" {["env" := "metric-level"]}.
Definition ex_bar_k : MonitoredMetric.t :=
  MonitoredMetric.mk "bar_${k}" "bar" "gauge" "" "" ∅.

Definition ex_endpoint (interval : string) (enabled : bool)
    (metrics : list MonitoredMetric.t) : Endpoint.t :=
  Endpoint.mk enabled "tenant" interval {["env" := "test"]} metrics.

Definition ex_collector (interval : string) (enabled : bool)
    (metrics : list MonitoredMetric.t) : MetricsCollector :=
  {| GetId := "X|X|prometheus|http://host/metrics";
     GetEndpoint := ex_endpoint interval enabled metrics;
     GetAdditionalEnvironment := ∅ |}.

Definition ex_c : MetricsCollector := ex_collector "1s" true [ex_foo; ex_bar].

Definition dp_a : Datapoint.t := Datapoint.mk 0 2 {["k" := "a"]}.
Definition dp_b : Datapoint.t := Datapoint.mk 0 3 {["k" := "b"]}.

Definition cm_foo : MetricHeader.t := MetricHeader.mk "tenant" "gauge" "foo" [Datapoint.mk 0 1 ∅].
Definition cm_bar : MetricHeader.t := MetricHeader.mk "tenant" "gauge" "bar" [dp_a; dp_b].
Definition cm_baz : MetricHeader.t := MetricHeader.mk "tenant" "gauge" "baz" [Datapoint.mk 0 1 ∅].

Definition w_init : World := mkWorld [] [] [] 0 [].
Definition mcm_init : MetricsCollectorManager := mkManager ∅ [] [].

(** A cycle in which the endpoint answers both requests. *)
Definition ex_scrape : Scrape :=
  {| CollectMetrics := inr [cm_foo; cm_bar];
     CollectMetricDetails := λ _, inr [];
     now := "Mon, 02 Jan 2017 15:04:05 +0000"; timer := "1ms" |}.

(** A cycle in which the details request fails. *)
Definition ex_scrape_no_details : Scrape :=
  {| CollectMetrics := inr [cm_foo];
     CollectMetricDetails := λ _, inl "connection refused";
     now := "Mon, 02 Jan 2017 15:04:05 +0000"; timer := "1ms" |}.

(** A cycle in which the scrape fails. *)
Definition ex_scrape_failed : Scrape :=
  {| CollectMetrics := inl "connection refused";
     CollectMetricDetails := λ _, inr [];
     now := "Mon, 02 Jan 2017 15:04:05 +0000"; timer := "1ms" |}.

(** A later declaration under the name of [ex_foo]. *)
Definition ex_foo_late : MonitoredMetric.t :=
  MonitoredMetric.mk "foo_v2" "foo" "counter" "" "" ∅.

(** A manager in which [ex_c] is collecting. *)
Definition mcm_running : MetricsCollectorManager :=
  mkManager {[GetId ex_c := 0%nat]} [mkTicker 30000000000 true] [(0%nat, ex_c)].

(** A cycle that collects a metric the endpoint was not told about. *)
Definition ex_scrape_baz : Scrape :=
  {| CollectMetrics := inr [cm_baz];
     CollectMetricDetails := λ _, inr [];
     now := "Mon, 02 Jan 2017 15:04:05 +0000"; timer := "1ms" |}.

Definition batch_ids (batch : list MetricHeader.t) : list string :=
  MetricHeader.ID <$> batch.

Definition env_tag (d : MetricDefinition.t) : string * option string :=
  (MetricDefinition.ID d, MetricDefinition.Tags d !! "env").

(* ===================================================================== *)
(** ** The standard library functions on examples *)
(* ===================================================================== *)

Example Contains_ex1 : strings.Contains "bar{k=${k}}" "${" = true.
Proof. reflexivity. Qed.
Example Contains_ex2 : strings.Contains "bar$k{" "${" = false.
Proof. reflexivity. Qed.
Example sort_ex : sort.Strings ["pool"; "area"; "Zone"; "ar"] = ["Zone"; "ar"; "area"; "pool"].
Proof. reflexivity. Qed.
Example Expand_ex1 :
  os.Expand "bar_${k}-$k2$" (λ n, if String.eqb n "k" then "a" else "") = "bar_a-$".
Proof. reflexivity. Qed.
Example Expand_ex2 :
  os.Expand "x${}y${METRIC:id}z${" (λ n, "<" +:+ n +:+ ">") = "xy<METRIC:id>z".
Proof. reflexivity. Qed.

(* ===================================================================== *)
(** ** Facts about strings and sorting *)
(* ===================================================================== *)

Lemma append_nil_l (b : string) : "" +:+ b = b.
Proof. reflexivity. Qed.

Lemma append_cons x (a b : string) : String x a +:+ b = String x (a +:+ b).
Proof. reflexivity. Qed.

Lemma append_assoc (a b c : string) : (a +:+ b) +:+ c = a +:+ (b +:+ c).
Proof.
  induction a as [|x a IH]; [reflexivity|].
  rewrite !append_cons. by f_equal.
Qed.

Lemma append_nil_r (a : string) : a +:+ "" = a.
Proof.
  induction a as [|x a IH]; [reflexivity|].
  rewrite append_cons. by f_equal.
Qed.

Lemma Contains_cons c s sub :
  strings.Contains s sub = true → strings.Contains (String c s) sub = true.
Proof. intros H. cbn [strings.Contains]. rewrite H. apply orb_true_r. Qed.

Lemma Contains_append_l a s sub :
  strings.Contains s sub = true → strings.Contains (a +:+ s) sub = true.
Proof.
  intros H. induction a as [|x a IH]; [done|].
  rewrite append_cons. by apply Contains_cons.
Qed.

Lemma prefix_nil s : String.prefix "" s = true.
Proof. by destruct s. Qed.

Lemma prefix_append sub s t :
  String.prefix sub s = true → String.prefix sub (s +:+ t) = true.
Proof.
  revert s. induction sub as [|x sub IH]; intros s H; [apply prefix_nil|].
  destruct s as [|y s]; [done|].
  rewrite append_cons. cbn [String.prefix] in *.
  destruct (ascii_dec x y); [by apply IH | done].
Qed.

Lemma Contains_prefix s sub :
  String.prefix sub s = true → strings.Contains s sub = true.
Proof. intros H. destruct s; cbn [strings.Contains]; by rewrite H. Qed.

Lemma Contains_append_r s t sub :
  strings.Contains s sub = true → strings.Contains (s +:+ t) sub = true.
Proof.
  induction s as [|x s IH]; intros H.
  - cbn [strings.Contains] in H. rewrite orb_false_r in H.
    destruct sub; [|done].
    rewrite append_nil_l. apply Contains_prefix, prefix_nil.
  - cbn [strings.Contains] in H. apply orb_true_iff in H as [H|H].
    + apply (prefix_append _ _ t) in H. rewrite append_cons in *.
      cbn [strings.Contains]. by rewrite H.
    + rewrite append_cons. apply Contains_cons, IH, H.
Qed.

Lemma Sorted_Strings (a : list string) : Sorted String.le (sort.Strings a).
Proof. apply (Sorted_merge_sort String.le). Qed.

Lemma Strings_Permutation (a : list string) : sort.Strings a ≡ₚ a.
Proof. apply (merge_sort_Permutation String.le). Qed.

(** The sorted list does not depend on the order of the input. *)
Lemma Strings_perm (a b : list string) : a ≡ₚ b → sort.Strings a = sort.Strings b.
Proof.
  intros Hab. apply (Sorted_unique String.le); auto using Sorted_Strings.
  by rewrite !Strings_Permutation.
Qed.

Lemma elem_of_Strings (a : list string) k : k ∈ sort.Strings a ↔ k ∈ a.
Proof. by rewrite Strings_Permutation. Qed.

(* ===================================================================== *)
(** ** Facts about the label keys and the default id *)
(* ===================================================================== *)

Lemma elem_of_add_keys (ks : list string) (acc : gset string) k :
  k ∈ foldl (λ keysMap k, {[k]} ∪ keysMap) acc ks ↔ k ∈ acc ∨ k ∈ ks.
Proof.
  revert acc. induction ks as [|x ks IH]; intros acc; simpl.
  - set_solver.
  - rewrite IH. set_solver.
Qed.

Lemma elem_of_keysMap_from (visits : list (list string)) (acc : gset string) k :
  k ∈ foldl (λ keysMap ks, foldl (λ keysMap k, {[k]} ∪ keysMap) keysMap ks) acc visits
  ↔ k ∈ acc ∨ ∃ ks, ks ∈ visits ∧ k ∈ ks.
Proof.
  revert acc. induction visits as [|v visits IH]; intros acc; simpl.
  - set_solver.
  - rewrite IH, elem_of_add_keys. set_solver.
Qed.

Lemma elem_of_keysMap_visiting (visits : list (list string)) k :
  k ∈ keysMap_visiting visits ↔ ∃ ks, ks ∈ visits ∧ k ∈ ks.
Proof. unfold keysMap_visiting. rewrite elem_of_keysMap_from. set_solver. Qed.

Lemma elem_of_tag_visit (datapt : Datapoint.t) k :
  k ∈ tag_visit datapt ↔ is_Some (Datapoint.Tags datapt !! k).
Proof.
  unfold tag_visit. rewrite list_elem_of_fmap. split.
  - intros [[k' v] [-> H%elem_of_map_to_list]]. by exists v.
  - intros [v H]. exists (k, v). split; [done | by apply elem_of_map_to_list].
Qed.

(** The key set is the union of the label keys of the datapoints. *)
Lemma elem_of_keysMap_of (data : list Datapoint.t) k :
  k ∈ keysMap_of data ↔
  ∃ datapt, datapt ∈ data ∧ is_Some (Datapoint.Tags datapt !! k).
Proof.
  unfold keysMap_of. rewrite elem_of_keysMap_visiting. split.
  - intros (ks & (dp & -> & Hdp)%list_elem_of_fmap & Hk).
    exists dp. split; [done | by apply elem_of_tag_visit].
  - intros (dp & Hdp & Hk). exists (tag_visit dp). split.
    + apply list_elem_of_fmap. by exists dp.
    + by apply elem_of_tag_visit.
Qed.

(** Visiting the same keys in another order, or the datapoints in another
    order, collects the same set. *)
Lemma keysMap_visiting_ext (v1 v2 : list (list string)) :
  (∀ k, (∃ ks, ks ∈ v1 ∧ k ∈ ks) ↔ (∃ ks, ks ∈ v2 ∧ k ∈ ks)) →
  keysMap_visiting v1 = keysMap_visiting v2.
Proof.
  intros H. apply set_eq. intros k. by rewrite !elem_of_keysMap_visiting.
Qed.

Lemma keysString_from (keys : list string) (buf : string) :
  fst (foldl (λ '(buf, comma) k,
                (buf +:+ comma +:+ k +:+ "=${" +:+ k +:+ "}", ","))
             (buf, ",") keys)
  = buf +:+ String.concat "" ((λ k, "," +:+ token_of k) <$> keys).
Proof.
  revert buf. induction keys as [|k keys IH]; intros buf.
  - cbn. by rewrite append_nil_r.
  - cbn [foldl fmap list_fmap String.concat]. rewrite IH. unfold token_of.
    rewrite !append_assoc. do 2 f_equal.
    destruct keys; cbn; by rewrite ?append_nil_r, ?append_assoc.
Qed.

Lemma concat_cons2 sep (x y : string) (l : list string) :
  String.concat sep (x :: y :: l) = x +:+ sep +:+ String.concat sep (y :: l).
Proof. reflexivity. Qed.

Lemma concat_comma (keys : list string) :
  String.concat "" ((λ k, "," +:+ token_of k) <$> keys)
  = match keys with
    | [] => ""
    | _ => "," +:+ String.concat "," (token_of <$> keys)
    end.
Proof.
  induction keys as [|k keys IH]; [done|].
  destruct keys as [|k' keys]; [done|].
  rewrite !fmap_cons in *. rewrite !concat_cons2, IH.
  by rewrite append_nil_l, !append_assoc.
Qed.

(** The buffer holds the tokens [k=${k}] of the keys, separated by commas. *)
Lemma keysString_concat (keys : list string) :
  keysString keys = String.concat "," (token_of <$> keys).
Proof.
  destruct keys as [|k keys]; [done|].
  unfold keysString. cbn [foldl]. rewrite keysString_from, concat_comma.
  destruct keys as [|k' keys].
  - cbn. by rewrite append_nil_r, !append_nil_l.
  - rewrite !fmap_cons, !concat_cons2.
    change (token_of k) with (k +:+ "=${" +:+ k +:+ "}").
    by rewrite !append_nil_l, !append_assoc.
Qed.

Lemma NoDup_Strings (a : list string) : NoDup a → NoDup (sort.Strings a).
Proof. by rewrite Strings_Permutation. Qed.

Lemma size_keysMap_pos (data : list Datapoint.t) :
  (∃ datapt k, datapt ∈ data ∧ is_Some (Datapoint.Tags datapt !! k)) →
  (0 <? size (keysMap_of data))%nat = true.
Proof.
  intros (dp & k & Hdp & Hk). apply Nat.ltb_lt.
  assert (k ∈ keysMap_of data) as Hin by (apply elem_of_keysMap_of; eauto).
  destruct (decide (size (keysMap_of data) = 0%nat)) as [Hz|]; [|lia].
  apply size_empty_inv in Hz. set_solver.
Qed.

Lemma Contains_labelled_id (id : string) (keys : list string) :
  keys ≠ [] → strings.Contains (labelled_id id keys) "${" = true.
Proof.
  intros Hne. unfold labelled_id. rewrite keysString_concat.
  destruct (sort.Strings keys) as [|k ks] eqn:Hs.
  { destruct keys as [|k0 keys]; [done|].
    assert (k0 ∈ sort.Strings (k0 :: keys)) as Hin
      by (apply elem_of_Strings; left).
    rewrite Hs in Hin. by apply elem_of_nil in Hin. }
  apply Contains_append_l, Contains_append_l.
  assert (∀ rest, strings.Contains (token_of k +:+ rest) "${" = true) as Htok.
  { intros rest. unfold token_of. rewrite !append_assoc.
    apply Contains_append_l.
    change ("=${" +:+ k +:+ "}" +:+ rest) with ("=" +:+ "${" +:+ k +:+ "}" +:+ rest).
    apply Contains_append_l, Contains_prefix, prefix_append. reflexivity. }
  rewrite fmap_cons. apply Contains_append_r.
  destruct ks as [|k' ks].
  - specialize (Htok ""). by rewrite append_nil_r in Htok.
  - rewrite fmap_cons, concat_cons2. apply Htok.
Qed.

(** What the rewrite of lines 211-237 yields on an id without tokens whose
    datapoints carry labels. *)
Lemma default_split_id_labelled (id : string) (data : list Datapoint.t) :
  strings.Contains id "${" = false →
  (∃ datapt k, datapt ∈ data ∧ is_Some (Datapoint.Tags datapt !! k)) →
  default_split_id id data = labelled_id id (elements (keysMap_of data))
  ∧ strings.Contains (default_split_id id data) "${" = true.
Proof.
  intros Hplain Hlab. unfold default_split_id.
  rewrite Hplain, (size_keysMap_pos _ Hlab). cbn [negb]. split; [done|].
  apply Contains_labelled_id.
  destruct Hlab as (dp & k & Hdp & Hk).
  assert (k ∈ elements (keysMap_of data)) as Hin
    by (apply elem_of_elements, elem_of_keysMap_of; eauto).
  intros Hnil. rewrite Hnil in Hin. by apply elem_of_nil in Hin.
Qed.

(** C1. A collected metric whose prefixed and expanded id holds no
    [${] token, and whose datapoints carry at least one label, has its id
    rewritten to [<id>{k1=${k1},k2=${k2},...}], where [k1..kn] are the
    label keys met on its datapoints, each once, in increasing
    lexicographic order; the split step then runs on the rewritten id. *)
Theorem C1_labelled_id_rewrite
    (conf : Config) (osenv : gmap string string) (theCollector : MetricsCollector)
    (declared : gmap string MonitoredMetric.t)
    (monitoredMetric : MonitoredMetric.t) (collectedMetric : MetricHeader.t)
    (st : Cycle) :
  let id1 := expanded_id conf osenv theCollector monitoredMetric in
  let data := MetricHeader.Data collectedMetric in
  strings.Contains id1 "${" = false →
  (∃ datapt k, datapt ∈ data ∧ is_Some (Datapoint.Tags datapt !! k)) →
  ∃ keys : list string,
    Sorted String.le keys ∧ NoDup keys
    ∧ (∀ k, k ∈ keys ↔
            ∃ datapt, datapt ∈ data ∧ is_Some (Datapoint.Tags datapt !! k))
    ∧ let template :=
        id1 +:+ "{"
        +:+ String.concat "," ((λ k, k +:+ "=${" +:+ k +:+ "}") <$> keys)
        +:+ "}" in
      default_split_id id1 data = template
      ∧ collect_matched conf osenv theCollector declared monitoredMetric
                        collectedMetric st
        = (MetricHeader.set_ID "" collectedMetric,
           mkCycle
             (foldl (remember declared monitoredMetric)
                    (metricDefinitionsNeeded st)
                    (MetricHeader.ID <$> splitMetrics_of osenv template collectedMetric))
             (totalNumberOfMetricsCollected st
              + Z.of_nat (length (splitMetrics_of osenv template collectedMetric)))
             (send_metrics (splitMetrics_of osenv template collectedMetric)
                           (world st))).
Proof.
  intros id1 data Hplain Hlab.
  destruct (default_split_id_labelled id1 data Hplain Hlab) as [Hid Hsplit].
  exists (sort.Strings (elements (keysMap_of data))).
  split; [apply Sorted_Strings|].
  split; [apply NoDup_Strings, NoDup_elements|].
  split.
  { intros k. by rewrite elem_of_Strings, elem_of_elements, elem_of_keysMap_of. }
  assert (default_split_id id1 data
          = id1 +:+ "{"
            +:+ String.concat ","
                  ((λ k, k +:+ "=${" +:+ k +:+ "}")
                     <$> sort.Strings (elements (keysMap_of data)))
            +:+ "}") as Heq.
  { rewrite Hid. unfold labelled_id. by rewrite keysString_concat. }
  cbn zeta. split; [exact Heq|].
  unfold collect_matched. fold id1. fold data.
  rewrite Hsplit, <- Heq. reflexivity.
Qed.

Lemma expand_from_ext (f g : string → string) (s : string) (skip : nat) :
  (∀ name, f name = g name) → os.expand_from f skip s = os.expand_from g skip s.
Proof.
  intros Hfg. revert skip. induction s as [|c s IH]; intros skip; [done|].
  cbn [os.expand_from]. destruct skip as [|k]; [|apply IH].
  destruct (Ascii.eqb c "$" && negb (String.eqb s ""))%bool; [|by rewrite IH].
  destruct (os.getShellName s) as [name w]. by rewrite IH, Hfg.
Qed.

Lemma Expand_ext (f g : string → string) (s : string) :
  (∀ name, f name = g name) → os.Expand s f = os.Expand s g.
Proof. apply expand_from_ext. Qed.

Lemma keysMap_of_perm (data data' : list Datapoint.t) :
  data' ≡ₚ data → keysMap_of data' = keysMap_of data.
Proof.
  intros Hp. apply set_eq. intros k. rewrite !elem_of_keysMap_of.
  by setoid_rewrite Hp.
Qed.

Lemma default_split_id_keys (id : string) (data data' : list Datapoint.t) :
  keysMap_of data' = keysMap_of data →
  default_split_id id data' = default_split_id id data.
Proof. intros H. unfold default_split_id. by rewrite H. Qed.

Lemma visits_cover (visits : list (list string)) (data : list Datapoint.t) k :
  Forall2 (λ v datapt, v ≡ₚ tag_visit datapt) visits data →
  (∃ ks, ks ∈ visits ∧ k ∈ ks) ↔ (∃ ks, ks ∈ tag_visit <$> data ∧ k ∈ ks).
Proof.
  induction 1 as [|v dp visits data Hv _ IH].
  - rewrite fmap_nil. split; intros (ks & Hin & _); by apply elem_of_nil in Hin.
  - rewrite fmap_cons. split.
    + intros (ks & Hin & Hk). apply elem_of_cons in Hin as [->|Hin].
      * exists (tag_visit dp). split; [left | by rewrite <- Hv].
      * destruct (proj1 IH) as (ks' & ? & ?); [by eauto|].
        exists ks'. split; [by right | done].
    + intros (ks & Hin & Hk). apply elem_of_cons in Hin as [->|Hin].
      * exists v. split; [left | by rewrite Hv].
      * destruct (proj2 IH) as (ks' & ? & ?); [by eauto|].
        exists ks'. split; [by right | done].
Qed.

(** C8. For a metric without an id template, the default id depends on the
    set of label keys only: it is the same for any reordering of the
    datapoints, for any order in which the tag maps and the key set are
    ranged over, and for any other cycle's datapoints with the same label
    keys; the final ids of the reordered datapoints are the same ids,
    reordered. *)
Theorem C8_id_stability
    (osenv : gmap string string) (id tenant name : string) (type : MetricType)
    (data data' : list Datapoint.t) :
  data' ≡ₚ data →
  default_split_id id data' = default_split_id id data
  ∧ MetricHeader.ID <$> splitMetrics_of osenv (default_split_id id data')
                          (MetricHeader.mk tenant type name data')
    ≡ₚ MetricHeader.ID <$> splitMetrics_of osenv (default_split_id id data)
                             (MetricHeader.mk tenant type name data)
  ∧ (∀ visits : list (list string),
       Forall2 (λ v datapt, v ≡ₚ tag_visit datapt) visits data' →
       keysMap_visiting visits = keysMap_of data)
  ∧ (∀ keys_visited : list string,
       keys_visited ≡ₚ elements (keysMap_of data) →
       labelled_id id keys_visited = labelled_id id (elements (keysMap_of data)))
  ∧ (∀ data2 : list Datapoint.t,
       keysMap_of data2 = keysMap_of data →
       default_split_id id data2 = default_split_id id data).
Proof.
  intros Hp.
  assert (default_split_id id data' = default_split_id id data) as Hid
    by apply default_split_id_keys, keysMap_of_perm, Hp.
  split; [exact Hid|]. split.
  { rewrite Hid. unfold splitMetrics_of. cbn [MetricHeader.Data].
    by rewrite Hp. }
  split.
  { intros visits Hv. rewrite <- (keysMap_of_perm _ _ Hp). unfold keysMap_of.
    apply keysMap_visiting_ext. intros k. by apply visits_cover. }
  split.
  { intros kv Hkv. unfold labelled_id. by rewrite (Strings_perm _ _ Hkv). }
  intros data2. apply default_split_id_keys.
Qed.

Lemma datapt_mapping_lookup (datapt : Datapoint.t) (osenv : gmap string string)
    (name : string) :
  datapt_mapping datapt osenv name = default "" (Datapoint.Tags datapt !! name).
Proof.
  unfold datapt_mapping, expand.MappingFunc. cbn.
  by destruct (Datapoint.Tags datapt !! name).
Qed.

(** C2. A collected metric whose id, once prefixed, expanded and possibly
    rewritten from its labels, still holds a [${] token is sent as one
    batch with exactly one series per datapoint, in order: the series holds
    that datapoint alone, its id is the template expanded over the
    datapoint's own tags, a token without a tag giving the empty string,
    and its tenant and type are those of the collected metric.  The
    collected metric itself is cleared and leaves the batch of the cycle. *)
Theorem C2_split_per_datapoint
    (conf : Config) (osenv : gmap string string) (theCollector : MetricsCollector)
    (declared : gmap string MonitoredMetric.t)
    (monitoredMetric : MonitoredMetric.t) (collectedMetric : MetricHeader.t)
    (st : Cycle) :
  let template := default_split_id (expanded_id conf osenv theCollector monitoredMetric)
                                   (MetricHeader.Data collectedMetric) in
  strings.Contains template "${" = true →
  ∃ (splitMetrics : list MetricHeader.t) (needed : gmap string MonitoredMetric.t),
    collect_matched conf osenv theCollector declared monitoredMetric
                    collectedMetric st
    = (MetricHeader.set_ID "" collectedMetric,
       mkCycle needed
               (totalNumberOfMetricsCollected st
                + Z.of_nat (length (MetricHeader.Data collectedMetric)))
               (send_metrics splitMetrics (world st)))
    ∧ length splitMetrics = length (MetricHeader.Data collectedMetric)
    ∧ (∀ (j : nat) (datapt : Datapoint.t),
         MetricHeader.Data collectedMetric !! j = Some datapt →
         splitMetrics !! j
         = Some (MetricHeader.mk
                   (MetricHeader.Tenant collectedMetric)
                   (MetricHeader.Type_ collectedMetric)
                   (os.Expand template
                      (λ name, default "" (Datapoint.Tags datapt !! name)))
                   [datapt]))
    ∧ remove_obsolete [MetricHeader.set_ID "" collectedMetric] = [].
Proof.
  intros template Hsplit.
  exists (splitMetrics_of osenv template collectedMetric).
  eexists. split.
  { unfold collect_matched. fold template. rewrite Hsplit.
    unfold splitMetrics_of at 2. rewrite length_fmap. reflexivity. }
  split; [unfold splitMetrics_of; by rewrite length_fmap|].
  split; [|reflexivity].
  intros j datapt Hj. unfold splitMetrics_of.
  rewrite list_lookup_fmap, Hj.
  rewrite <- (Expand_ext (datapt_mapping datapt osenv)
                (λ name, default "" (Datapoint.Tags datapt !! name)) template
                (datapt_mapping_lookup datapt osenv)).
  reflexivity.
Qed.

(* ===================================================================== *)
(** ** Facts about matching and the loop over the collected metrics *)
(* ===================================================================== *)

Lemma byName_from_lookup (l : list MonitoredMetric.t)
    (acc : gmap string MonitoredMetric.t) (n : string) :
  foldl (λ m mm, <[MonitoredMetric.Name mm := mm]> m) acc l !! n = None
  ↔ acc !! n = None ∧ n ∉ MonitoredMetric.Name <$> l.
Proof.
  revert acc. induction l as [|mm l IH]; intros acc.
  - cbn [foldl]. rewrite fmap_nil. set_solver.
  - cbn [foldl]. rewrite IH, fmap_cons, not_elem_of_cons, lookup_insert_None.
    naive_solver.
Qed.

Lemma byName_lookup_None (e : Endpoint.t) (n : string) :
  monitoredMetricsByNameMap e !! n = None ↔ n ∉ declared_names e.
Proof.
  unfold monitoredMetricsByNameMap. rewrite byName_from_lookup, lookup_empty.
  unfold declared_names. naive_solver.
Qed.

Lemma byName_size_pos (e : Endpoint.t) :
  Endpoint.Metrics e ≠ [] ↔ (0 <? size (monitoredMetricsByNameMap e))%nat = true.
Proof.
  rewrite Nat.ltb_lt. split.
  - intros Hne. destruct (Endpoint.Metrics e) as [|mm l] eqn:Hl; [done|].
    destruct (decide (size (monitoredMetricsByNameMap e) = 0%nat)) as [Hz|]; [|lia].
    apply map_size_empty_iff in Hz.
    assert (monitoredMetricsByNameMap e !! MonitoredMetric.Name mm = None) as Hn
      by (rewrite Hz; apply lookup_empty).
    apply byName_lookup_None in Hn. exfalso. apply Hn.
    unfold declared_names. rewrite Hl, fmap_cons. left.
  - intros Hpos Hnil. unfold monitoredMetricsByNameMap in Hpos.
    rewrite Hnil in Hpos. cbn in Hpos. rewrite map_size_empty in Hpos. lia.
Qed.

Lemma same_effects_refl w : same_effects w w.
Proof. by repeat split. Qed.

Lemma same_effects_log_l e w1 w2 :
  same_effects w1 w2 → same_effects (log_event e w1) w2.
Proof. intros (?&?&?&?). by repeat split. Qed.

Lemma same_effects_log_r e w1 w2 :
  same_effects w1 w2 → same_effects w1 (log_event e w2).
Proof. intros (?&?&?&?). by repeat split. Qed.

Lemma same_effects_logs es1 es2 w1 w2 :
  same_effects w1 w2 → same_effects (log_events es1 w1) (log_events es2 w2).
Proof.
  intros H. assert (same_effects (log_events es1 w1) w2) as H1.
  { revert w1 H. induction es1 as [|e es IH]; intros w1 H; [done|].
    apply IH, same_effects_log_l, H. }
  clear H. revert w2 H1. induction es2 as [|e es IH]; intros w2 H; [done|].
  apply IH, same_effects_log_r, H.
Qed.

Lemma same_effects_send_metrics b w1 w2 :
  same_effects w1 w2 → same_effects (send_metrics b w1) (send_metrics b w2).
Proof. intros (H1&?&?&?). repeat split; cbn; congruence. Qed.

Lemma same_effects_send_metricDefs b w1 w2 :
  same_effects w1 w2 → same_effects (send_metricDefs b w1) (send_metricDefs b w2).
Proof. intros (?&H2&?&?). repeat split; cbn; congruence. Qed.

Lemma same_effects_status c w1 w2 :
  same_effects w1 w2 → same_effects (status_call c w1) (status_call c w2).
Proof. intros (?&?&H3&?). repeat split; cbn; congruence. Qed.

Lemma same_effects_Add n w1 w2 :
  same_effects w1 w2 →
  same_effects (DataPointsCollected_Add n w1) (DataPointsCollected_Add n w2).
Proof. intros (?&?&?&H4). repeat split; cbn; congruence. Qed.

Section Matching.

Variable GetMetricUnits : string → MetricUnits * option string.
Variable conf : Config.
Variable osenv : gmap string string.
Variable theCollector : MetricsCollector.

Let e := GetEndpoint theCollector.

Lemma collect_matched_same declared mm cm st1 st2 :
  same_cycle st1 st2 →
  (collect_matched conf osenv theCollector declared mm cm st1).1
  = (collect_matched conf osenv theCollector declared mm cm st2).1
  ∧ same_cycle (collect_matched conf osenv theCollector declared mm cm st1).2
               (collect_matched conf osenv theCollector declared mm cm st2).2.
Proof.
  intros (Hn & Ht & Hw). unfold collect_matched.
  destruct (strings.Contains _ "${"); cbn [fst snd]; (split; [done|]).
  - split; [cbn; congruence|]. split; [cbn; congruence|].
    apply same_effects_send_metrics, Hw.
  - split; [cbn; congruence|]. split; [cbn; congruence | apply Hw].
Qed.

Lemma collect_one_same declared cm st1 st2 :
  same_cycle st1 st2 →
  (collect_one conf osenv theCollector declared cm st1).1
  = (collect_one conf osenv theCollector declared cm st2).1
  ∧ same_cycle (collect_one conf osenv theCollector declared cm st1).2
               (collect_one conf osenv theCollector declared cm st2).2.
Proof.
  intros Hs. unfold collect_one.
  destruct (match_metric _ cm) as [mm|]; [by apply collect_matched_same|].
  destruct Hs as (Hn & Ht & Hw). cbn [fst snd]. split; [done|].
  split; [done|]. split; [done|].
  apply same_effects_log_l, same_effects_log_r, Hw.
Qed.

Lemma collect_one_unexpected declared cm st :
  Endpoint.Metrics e ≠ [] →
  expected e cm = false →
  collect_one conf osenv theCollector declared cm st
  = (MetricHeader.set_ID "" cm,
     mkCycle (metricDefinitionsNeeded st) (totalNumberOfMetricsCollected st)
             (log_event (Warn_unexpected_metric (MetricHeader.ID cm)
                                                (GetId theCollector))
                        (world st))).
Proof.
  intros Hne Hexp. unfold collect_one, match_metric. fold e.
  rewrite (proj1 (byName_size_pos e) Hne).
  apply bool_decide_eq_false, byName_lookup_None in Hexp. by rewrite Hexp.
Qed.

(** The loop treats the collected metrics as if the unexpected ones had
    not been collected, but for the warnings. *)
Lemma collect_loop_filter declared cms st1 st2 :
  Endpoint.Metrics e ≠ [] →
  same_cycle st1 st2 →
  remove_obsolete (collect_loop conf osenv theCollector declared cms st1).1
  = remove_obsolete
      (collect_loop conf osenv theCollector declared
                    (List.filter (expected e) cms) st2).1
  ∧ same_cycle (collect_loop conf osenv theCollector declared cms st1).2
               (collect_loop conf osenv theCollector declared
                             (List.filter (expected e) cms) st2).2.
Proof.
  intros Hne. revert st1 st2. induction cms as [|cm cms IH]; intros st1 st2 Hs.
  - done.
  - cbn [List.filter collect_loop]. destruct (expected e cm) eqn:Hexp.
    + cbn [collect_loop].
      destruct (collect_one_same declared cm st1 st2 Hs) as [Hslot Hs'].
      destruct (collect_one conf osenv theCollector declared cm st1) as [s1 c1].
      destruct (collect_one conf osenv theCollector declared cm st2) as [s2 c2].
      cbn [fst snd] in Hslot, Hs'. subst s2.
      specialize (IH c1 c2 Hs').
      destruct (collect_loop conf osenv theCollector declared cms c1) as [ss1 d1].
      destruct (collect_loop conf osenv theCollector declared _ c2) as [ss2 d2].
      cbn [fst snd] in *. destruct IH as [IH1 IH2].
      split; [|done]. unfold remove_obsolete in *. cbn [List.filter].
      by rewrite IH1.
    + rewrite (collect_one_unexpected declared cm st1 Hne Hexp).
      match goal with |- context [collect_loop _ _ _ _ cms ?c] =>
        specialize (IH c st2) end.
      destruct IH as [IH1 IH2].
      { destruct Hs as (?&?&?). split; [done|]. split; [done|].
        by apply same_effects_log_l. }
      destruct (collect_loop conf osenv theCollector declared cms _) as [ss1 d1].
      cbn [fst snd] in *. split; [|done].
      unfold remove_obsolete in *. cbn. done.
Qed.

End Matching.

Lemma createMetricDefinition_same GetMetricUnits conf osenv theCollector
    scrape needed w1 w2 :
  same_effects w1 w2 →
  (createMetricDefinition GetMetricUnits conf osenv theCollector scrape needed w1).1
  = (createMetricDefinition GetMetricUnits conf osenv theCollector scrape needed w2).1
  ∧ same_effects
      (createMetricDefinition GetMetricUnits conf osenv theCollector scrape needed w1).2
      (createMetricDefinition GetMetricUnits conf osenv theCollector scrape needed w2).2.
Proof.
  intros Hw. unfold createMetricDefinition.
  destruct (size needed =? 0)%nat; [done|].
  destruct (CollectMetricDetails scrape _) as [err|details]; cbn [fst snd].
  - split; [done|].
    apply same_effects_send_metricDefs, same_effects_logs, same_effects_status,
          same_effects_log_l, same_effects_log_r, Hw.
  - split; [done|]. apply same_effects_send_metricDefs, same_effects_logs, Hw.
Qed.

(** C3. When the endpoint lists metrics, a collected metric whose name is
    not listed is cleared with a warning, takes no further part in the
    cycle, and the cycle sends and declares exactly what it would have if
    the metric had not been collected.  When the endpoint lists no metrics,
    each collected metric is processed under a fabricated declaration whose
    name and id are the collected name and whose type is the collected
    type. *)
Theorem C3_matching
    (GetMetricUnits : string → MetricUnits * option string)
    (conf : Config) (osenv : gmap string string) (theCollector : MetricsCollector)
    (declared : gmap string MonitoredMetric.t) :
  let e := GetEndpoint theCollector in
  (Endpoint.Metrics e ≠ [] →
     (∀ (collectedMetric : MetricHeader.t) (st : Cycle),
        MetricHeader.ID collectedMetric ∉ declared_names e →
        collect_one conf osenv theCollector declared collectedMetric st
        = (MetricHeader.set_ID "" collectedMetric,
           mkCycle (metricDefinitionsNeeded st) (totalNumberOfMetricsCollected st)
                   (log_event (Warn_unexpected_metric
                                 (MetricHeader.ID collectedMetric)
                                 (GetId theCollector))
                              (world st)))
        ∧ remove_obsolete [MetricHeader.set_ID "" collectedMetric] = [])
     ∧ (∀ (collectedMetrics : list MetricHeader.t) details clock watch (w : World),
          let all := tick GetMetricUnits conf osenv theCollector
                       {| CollectMetrics := inr collectedMetrics;
                          CollectMetricDetails := details;
                          now := clock; timer := watch |} (declared, w) in
          let listed := tick GetMetricUnits conf osenv theCollector
                          {| CollectMetrics :=
                               inr (List.filter (expected e) collectedMetrics);
                             CollectMetricDetails := details;
                             now := clock; timer := watch |} (declared, w) in
          all.1 = listed.1 ∧ same_effects all.2 listed.2))
  ∧ (Endpoint.Metrics e = [] →
     ∀ (collectedMetric : MetricHeader.t) (st : Cycle),
       collect_one conf osenv theCollector declared collectedMetric st
       = collect_matched conf osenv theCollector declared
           (MonitoredMetric.mk (MetricHeader.ID collectedMetric)
                               (MetricHeader.ID collectedMetric)
                               (MetricHeader.Type_ collectedMetric) "" "" ∅)
           collectedMetric st).
Proof.
  intros e. split.
  - intros Hne. split.
    + intros cm st Hcm. split; [|reflexivity].
      apply collect_one_unexpected; [done|]. by apply bool_decide_eq_false.
    + intros cms details clock watch w. cbn zeta. unfold tick.
      cbn [CollectMetrics now timer].
      destruct (collect_loop_filter conf osenv theCollector declared cms
                  (empty_cycle w) (empty_cycle w) Hne) as [Hb Hc].
      { split; [done|]. split; [done|]. apply same_effects_refl. }
      fold e.
      destruct (collect_loop conf osenv theCollector declared cms _) as [ss1 c1].
      destruct (collect_loop conf osenv theCollector declared _ _) as [ss2 c2].
      cbn [fst snd] in Hb, Hc. destruct Hc as (Hn & Ht & Hw).
      rewrite Hb, Hn, Ht.
      pose proof (same_effects_send_metrics (remove_obsolete ss2) _ _ Hw) as Hw1.
      destruct (0 <? size (metricDefinitionsNeeded c2))%nat.
      * match goal with
        | |- context [createMetricDefinition _ _ _ _ ?s ?n (send_metrics ?b (world c1))] =>
            pose proof (createMetricDefinition_same GetMetricUnits conf osenv
                          theCollector s n _ _ Hw1) as [He Hw2]
        end.
        destruct (createMetricDefinition _ _ _ _ _ _ (send_metrics _ (world c1)))
          as [err1 w1'].
        destruct (createMetricDefinition _ _ _ _ _ _ (send_metrics _ (world c2)))
          as [err2 w2'].
        cbn [fst snd] in He, Hw2. subst err2.
        destruct err1; cbn [fst snd]; (split; [done|]);
          apply same_effects_status, same_effects_Add, Hw2.
      * cbn [fst snd]. split; [done|].
        apply same_effects_status, same_effects_Add, Hw1.
  - intros Hnil cm st. unfold collect_one, match_metric. fold e.
    destruct (0 <? size (monitoredMetricsByNameMap e))%nat eqn:Hs; [|done].
    apply byName_size_pos in Hs. done.
Qed.

(* ===================================================================== *)
(** ** Tag composition *)
(* ===================================================================== *)

Lemma allMetricTags_lookup (E M G : gmap string string) (k : string) :
  allMetricTags E M G !! k
  = match G !! k with
    | Some v => Some v
    | None => match M !! k with
              | Some v => Some v
              | None => E !! k
              end
    end.
Proof.
  unfold allMetricTags, tags.AppendTags. rewrite !lookup_union, lookup_empty.
  destruct (G !! k), (M !! k), (E !! k); reflexivity.
Qed.

Lemma dom_ExpandTokens (t : gmap string string) cfg osenv :
  dom (tags.ExpandTokens t cfg osenv) = dom t.
Proof. unfold tags.ExpandTokens. apply dom_fmap_L. Qed.

(** C4. In the definition built for a metric, a tag key defined by the
    endpoint layer, the metric layer and the global layer carries the
    global value; a key defined by the endpoint and metric layers only
    carries the metric value.  The fixed tags [description] and [units],
    when not empty, are put into the metric layer, over the metric's custom
    tags, before the layers are merged, so that the global layer overrides
    them. *)
Theorem C4_tag_precedence
    (GetMetricUnits : string → MetricUnits * option string)
    (conf : Config) (osenv : gmap string string) (theCollector : MetricsCollector)
    (metricDetails : list MetricDetails.t) (metricId : string)
    (monitoredMetric : MonitoredMetric.t) :
  let metricDetail := find_details metricDetails (MonitoredMetric.Name monitoredMetric) in
  let description := metricDescription_of monitoredMetric metricDetail in
  let symbol := Symbol (fst (GetMetricUnits (MonitoredMetric.Units monitoredMetric))) in
  let env := definition_env theCollector metricId
               (MonitoredMetric.Name monitoredMetric) symbol description in
  let E := endpointTags osenv theCollector env in
  let custom := tags.ExpandTokens (MonitoredMetric.Tags monitoredMetric)
                                  (noOsEnv env) osenv in
  let M := metricTags osenv monitoredMetric env description symbol in
  let G := globalTags conf osenv env in
  let d := metricDef_of GetMetricUnits conf osenv theCollector metricDetails
                        metricId monitoredMetric in
  (∀ k ve vm vg,
     E !! k = Some ve → M !! k = Some vm → G !! k = Some vg →
     MetricDefinition.Tags d !! k = Some vg)
  ∧ (∀ k ve vm,
       E !! k = Some ve → M !! k = Some vm → G !! k = None →
       MetricDefinition.Tags d !! k = Some vm)
  ∧ (∀ k, MetricDefinition.Tags d !! k
          = match G !! k with
            | Some v => Some v
            | None => match M !! k with
                      | Some v => Some v
                      | None => E !! k
                      end
            end)
  ∧ (description ≠ "" → M !! "description" = Some description)
  ∧ (symbol ≠ "" → M !! "units" = Some symbol)
  ∧ (description = "" → M !! "description" = custom !! "description")
  ∧ (symbol = "" → M !! "units" = custom !! "units")
  ∧ (∀ k, k ≠ "description" → k ≠ "units" → M !! k = custom !! k)
  ∧ (∀ v, G !! "description" = Some v →
          MetricDefinition.Tags d !! "description" = Some v)
  ∧ (∀ v, G !! "units" = Some v → MetricDefinition.Tags d !! "units" = Some v)
  ∧ dom E = dom (Endpoint.Tags (GetEndpoint theCollector))
  ∧ dom G = dom (Tags (Collector conf)).
Proof.
  intros metricDetail description symbol env E custom M G d.
  assert (∀ k, MetricDefinition.Tags d !! k
               = match G !! k with
                 | Some v => Some v
                 | None => match M !! k with
                           | Some v => Some v
                           | None => E !! k
                           end
                 end) as Hlook
    by (intros k; apply allMetricTags_lookup).
  assert (description ≠ "" → M !! "description" = Some description) as Hd.
  { intros Hne. unfold M, metricTags. fold custom.
    apply String.eqb_neq in Hne. rewrite Hne.
    destruct (String.eqb symbol "").
    - apply lookup_insert_eq.
    - rewrite lookup_insert_ne by done. apply lookup_insert_eq. }
  assert (symbol ≠ "" → M !! "units" = Some symbol) as Hu.
  { intros Hne. unfold M, metricTags. fold custom.
    apply String.eqb_neq in Hne. rewrite Hne. apply lookup_insert_eq. }
  assert (description = "" → M !! "description" = custom !! "description") as Hd0.
  { intros He. unfold M, metricTags. fold custom. rewrite He. cbn [String.eqb].
    destruct (String.eqb symbol ""); [done|]. by rewrite lookup_insert_ne. }
  assert (symbol = "" → M !! "units" = custom !! "units") as Hu0.
  { intros He. unfold M, metricTags. fold custom. rewrite He. cbn [String.eqb].
    destruct (String.eqb description ""); [done|]. by rewrite lookup_insert_ne. }
  assert (∀ k, k ≠ "description" → k ≠ "units" → M !! k = custom !! k) as Hk.
  { intros k H1 H2. unfold M, metricTags. fold custom.
    destruct (String.eqb description ""), (String.eqb symbol "");
      by rewrite ?lookup_insert_ne. }
  split; [intros k ve vm vg _ _ Hg; by rewrite Hlook, Hg|].
  split; [intros k ve vm _ Hm Hg; by rewrite Hlook, Hg, Hm|].
  split; [exact Hlook|].
  split; [exact Hd|]. split; [exact Hu|]. split; [exact Hd0|].
  split; [exact Hu0|]. split; [exact Hk|].
  split; [intros v Hg; by rewrite Hlook, Hg|].
  split; [intros v Hg; by rewrite Hlook, Hg|].
  split; apply dom_ExpandTokens.
Qed.

(* ===================================================================== *)
(** ** The process environment *)
(* ===================================================================== *)

Lemma MappingFunc_no_os (cfg : expand.MappingFuncConfig)
    (os1 os2 : gmap string string) (name : string) :
  expand.UseOSEnv cfg = false →
  expand.MappingFunc cfg os1 name = expand.MappingFunc cfg os2 name.
Proof. intros H. unfold expand.MappingFunc. by rewrite H. Qed.

Lemma ExpandTokens_no_os (t : gmap string string) (cfg : expand.MappingFuncConfig)
    (os1 os2 : gmap string string) :
  expand.UseOSEnv cfg = false →
  tags.ExpandTokens t cfg os1 = tags.ExpandTokens t cfg os2.
Proof.
  intros H. unfold tags.ExpandTokens. apply map_fmap_ext. intros k v _.
  apply Expand_ext. intros name. by apply MappingFunc_no_os.
Qed.

(** C9. The expansion of a metric's id template and of the endpoint and
    metric tag layers is the same under any two process environments, given
    the additional environment and the injected [METRIC:] values; in the
    prefixed id and in a definition's tags the process environment enters
    through the global prefix and the global tag layer only. *)
Theorem C9_no_os_env
    (GetMetricUnits : string → MetricUnits * option string)
    (conf : Config) (theCollector : MetricsCollector)
    (monitoredMetric : MonitoredMetric.t)
    (env : gmap string string) (description symbol : string)
    (metricDetails : list MetricDetails.t) (metricId : string)
    (os1 os2 : gmap string string) :
  os.Expand (MonitoredMetric.ID monitoredMetric) (mappingFunc os1 theCollector)
  = os.Expand (MonitoredMetric.ID monitoredMetric) (mappingFunc os2 theCollector)
  ∧ endpointTags os1 theCollector env = endpointTags os2 theCollector env
  ∧ metricTags os1 monitoredMetric env description symbol
    = metricTags os2 monitoredMetric env description symbol
  ∧ expanded_id conf os1 theCollector monitoredMetric
    = os.Expand (Metric_ID_Prefix (Collector conf))
                (mappingFuncWithOsEnv os1 theCollector)
      +:+ os.Expand (MonitoredMetric.ID monitoredMetric)
                    (mappingFunc os2 theCollector)
  ∧ MetricDefinition.Tags
      (metricDef_of GetMetricUnits conf os1 theCollector metricDetails metricId
                    monitoredMetric)
    = let metricDetail :=
        find_details metricDetails (MonitoredMetric.Name monitoredMetric) in
      let description := metricDescription_of monitoredMetric metricDetail in
      let symbol :=
        Symbol (fst (GetMetricUnits (MonitoredMetric.Units monitoredMetric))) in
      let env := definition_env theCollector metricId
                   (MonitoredMetric.Name monitoredMetric) symbol description in
      allMetricTags (endpointTags os2 theCollector env)
                    (metricTags os2 monitoredMetric env description symbol)
                    (globalTags conf os1 env).
Proof.
  assert (os.Expand (MonitoredMetric.ID monitoredMetric) (mappingFunc os1 theCollector)
          = os.Expand (MonitoredMetric.ID monitoredMetric)
                      (mappingFunc os2 theCollector)) as Hid.
  { apply Expand_ext. intros name. by apply MappingFunc_no_os. }
  assert (∀ env, endpointTags os1 theCollector env = endpointTags os2 theCollector env)
    as He by (intros; by apply ExpandTokens_no_os).
  assert (∀ env d u, metricTags os1 monitoredMetric env d u
                     = metricTags os2 monitoredMetric env d u) as Hm.
  { intros env' d u. unfold metricTags.
    by rewrite (ExpandTokens_no_os _ (noOsEnv env') os1 os2). }
  split; [exact Hid|]. split; [apply He|]. split; [apply Hm|].
  split; [unfold expanded_id; by rewrite Hid|].
  unfold metricDef_of. cbn [MetricDefinition.Tags]. cbn zeta.
  by rewrite He, Hm.
Qed.

(** The prefix does read the process environment. *)
Example prefix_reads_os_env :
  let conf := {| Collector := {| Minimum_Collection_Interval := "";
                                 Default_Collection_Interval := "";
                                 Metric_ID_Prefix := "${HOSTNAME}_";
                                 Tags := ∅ |} |} in
  let c := {| GetId := "c"; GetEndpoint := Endpoint.mk true "" "" ∅ [];
              GetAdditionalEnvironment := ∅ |} in
  let mm := MonitoredMetric.mk "m" "m" "" "" "" ∅ in
  expanded_id conf {["HOSTNAME" := "a"]} c mm = "a_m"
  ∧ expanded_id conf {["HOSTNAME" := "b"]} c mm = "b_m".
Proof. split; vm_compute; reflexivity. Qed.

(* ===================================================================== *)
(** ** A failed scrape *)
(* ===================================================================== *)

Lemma prefix_refl (s : string) : String.prefix s s = true.
Proof.
  induction s as [|c s IH]; [done|]. cbn [String.prefix].
  by destruct (ascii_dec c c).
Qed.

(** C7. On a tick whose [CollectMetrics] call fails, the scheduler reports
    a message that contains the error as the endpoint's status and does
    nothing else: nothing is sent on the datapoint channel or on the
    definition channel, the cache of declared definitions and the agent's
    datapoint counter keep their values. *)
Theorem C7_failed_scrape
    (GetMetricUnits : string → MetricUnits * option string)
    (conf : Config) (osenv : gmap string string) (theCollector : MetricsCollector)
    (scrape : Scrape) (err : string)
    (declared : gmap string MonitoredMetric.t) (w : World) :
  CollectMetrics scrape = inl err →
  let msg := "Failed to collect metrics from [" +:+ GetId theCollector
             +:+ "] at [" +:+ now scrape +:+ "]. err=" +:+ err in
  let st' := tick GetMetricUnits conf osenv theCollector scrape (declared, w) in
  StatusReport st'.2
  = (StatusReport w ++ [SetEndpoint (GetId theCollector) msg])%list
  ∧ strings.Contains msg err = true
  ∧ metricsChan st'.2 = metricsChan w
  ∧ metricDefsChan st'.2 = metricDefsChan w
  ∧ st'.1 = declared
  ∧ DataPointsCollected st'.2 = DataPointsCollected w
  ∧ log st'.2 = (log w ++ [Warn_collect_failed msg])%list.
Proof.
  intros Herr msg st'. unfold st', tick. rewrite Herr. cbn [fst snd].
  repeat split.
  unfold msg. do 5 apply Contains_append_l. apply Contains_prefix, prefix_refl.
Qed.

(* ===================================================================== *)
(** ** Starting a collector *)
(* ===================================================================== *)

(** C10. For a collector whose endpoint is disabled, [StartCollecting]
    logs and reports the status message and returns: the manager, with its
    ticker table, its tickers and its goroutines, is as before, so a
    scheduler running under the same id keeps its ticker, still running. *)
Theorem C10_disabled_endpoint
    (ParseDuration : string → option Duration)
    (Duration_String : Duration → string)
    (conf : Config) (theCollector : MetricsCollector)
    (mcm : MetricsCollectorManager) (w : World) :
  Endpoint.IsEnabled (GetEndpoint theCollector) = false →
  let m := "Will not collect metrics from [" +:+ GetId theCollector
           +:+ "] - it has been disabled." in
  ∃ w' : World,
    StartCollecting ParseDuration Duration_String conf theCollector (mcm, w)
    = Done (mcm, w')
    ∧ StatusReport w'
      = (StatusReport w ++ [SetEndpoint (GetId theCollector) m])%list
    ∧ log w' = (log w ++ [Info_disabled m])%list
    ∧ metricsChan w' = metricsChan w
    ∧ metricDefsChan w' = metricDefsChan w
    ∧ DataPointsCollected w' = DataPointsCollected w.
Proof.
  intros Hdis m. unfold StartCollecting. rewrite Hdis. cbn [negb].
  eexists. split; [reflexivity|]. by repeat split.
Qed.


(* ===================================================================== *)
(** ** Declaring definitions *)
(* ===================================================================== *)

Lemma remember_fresh declared mm needed id :
  needed_fresh declared needed →
  needed_fresh declared (remember declared mm needed id).
Proof.
  intros Hf id' Hin. unfold remember in Hin.
  destruct (declared !! id) eqn:Hd; [by apply Hf|].
  destruct (decide (id = id')) as [<-|Hne]; [done|].
  rewrite lookup_insert_ne in Hin by done. by apply Hf.
Qed.

Lemma foldl_remember_fresh declared mm ids needed :
  needed_fresh declared needed →
  needed_fresh declared (foldl (remember declared mm) needed ids).
Proof.
  revert needed. induction ids as [|id ids IH]; intros needed Hf; [done|].
  cbn [foldl]. by apply IH, remember_fresh.
Qed.

Section Declaring.

Variable GetMetricUnits : string → MetricUnits * option string.
Variable conf : Config.
Variable osenv : gmap string string.
Variable theCollector : MetricsCollector.

Lemma collect_one_fresh declared cm st :
  needed_fresh declared (metricDefinitionsNeeded st) →
  needed_fresh declared
    (metricDefinitionsNeeded (collect_one conf osenv theCollector declared cm st).2)
  ∧ metricDefsChan (world (collect_one conf osenv theCollector declared cm st).2)
    = metricDefsChan (world st).
Proof.
  intros Hf. unfold collect_one.
  destruct (match_metric _ cm) as [mm|]; [|done].
  unfold collect_matched. destruct (strings.Contains _ "${"); cbn [fst snd].
  - split; [|done]. by apply foldl_remember_fresh.
  - split; [|done]. by apply remember_fresh.
Qed.

Lemma collect_loop_fresh declared cms st :
  needed_fresh declared (metricDefinitionsNeeded st) →
  needed_fresh declared
    (metricDefinitionsNeeded (collect_loop conf osenv theCollector declared cms st).2)
  ∧ metricDefsChan (world (collect_loop conf osenv theCollector declared cms st).2)
    = metricDefsChan (world st).
Proof.
  revert st. induction cms as [|cm cms IH]; intros st Hf; [done|].
  cbn [collect_loop].
  destruct (collect_one_fresh declared cm st Hf) as [Hf1 Hc1].
  destruct (collect_one conf osenv theCollector declared cm st) as [slot st1].
  cbn [fst snd] in Hf1, Hc1.
  destruct (IH st1 Hf1) as [Hf2 Hc2].
  destruct (collect_loop conf osenv theCollector declared cms st1) as [slots st2].
  cbn [fst snd] in *. split; [done | congruence].
Qed.

Lemma metricDefsChan_log_events es w :
  metricDefsChan (log_events es w) = metricDefsChan w.
Proof.
  revert w. induction es as [|e es IH]; intros w; [done|].
  unfold log_events in *. cbn [foldl]. by rewrite IH.
Qed.

(** What [createMetricDefinition] sends: one batch, with one definition
    for each needed id; it reports an error exactly when the details
    request failed. *)
Lemma createMetricDefinition_sends scrape needed w :
  size needed ≠ 0%nat →
  ∃ batch,
    metricDefsChan (createMetricDefinition GetMetricUnits conf osenv theCollector
                      scrape needed w).2
    = (metricDefsChan w ++ [batch])%list
    ∧ MetricDefinition.ID <$> batch = (map_to_list needed).*1
    ∧ (details_succeed scrape →
       (createMetricDefinition GetMetricUnits conf osenv theCollector
          scrape needed w).1 = None).
Proof.
  intros Hsz. unfold createMetricDefinition.
  destruct (Nat.eqb_spec (size needed) 0); [done|].
  destruct (CollectMetricDetails scrape _) as [err|details] eqn:Hd;
    cbn [fst snd send_metricDefs metricDefsChan];
    rewrite metricDefsChan_log_events; eexists; (split; [reflexivity|]).
  - split.
    + rewrite <- list_fmap_compose. by apply list_fmap_ext.
    + intros Hok. destruct (Hok (metricNamesArr needed)) as [ds Hds]. congruence.
  - split; [|done]. rewrite <- list_fmap_compose. by apply list_fmap_ext.
Qed.

Lemma elem_of_needed_ids (needed : gmap string MonitoredMetric.t) id :
  id ∈ (map_to_list needed).*1 ↔ is_Some (needed !! id).
Proof.
  rewrite list_elem_of_fmap. split.
  - intros [[k v] [-> H%elem_of_map_to_list]]. by exists v.
  - intros [v H]. exists (id, v). split; [done | by apply elem_of_map_to_list].
Qed.

(** One tick sends at most one batch of definitions; its ids are distinct
    and none of them is in the cache of declared definitions; the cache
    only grows, and it takes in the ids of the batch when the details
    request succeeded. *)
Lemma tick_defs scrape declared w :
  let st' := tick GetMetricUnits conf osenv theCollector scrape (declared, w) in
  (∀ id, is_Some (declared !! id) → is_Some (st'.1 !! id))
  ∧ ∃ batches,
      metricDefsChan st'.2 = (metricDefsChan w ++ batches)%list
      ∧ (length batches ≤ 1)%nat
      ∧ ∀ b, b ∈ batches →
          NoDup (MetricDefinition.ID <$> b)
          ∧ (∀ id, id ∈ MetricDefinition.ID <$> b → declared !! id = None)
          ∧ (details_succeed scrape →
             ∀ id, id ∈ MetricDefinition.ID <$> b → is_Some (st'.1 !! id)).
Proof.
  cbn zeta. unfold tick.
  destruct (CollectMetrics scrape) as [err|cms].
  { cbn [fst snd]. split; [done|]. exists []. rewrite app_nil_r.
    split; [done|]. split; [cbn; lia|]. intros b Hb. by apply elem_of_nil in Hb. }
  destruct (collect_loop_fresh declared cms (empty_cycle w)) as [Hf Hc].
  { intros id [? Hid]. cbn in Hid. by rewrite lookup_empty in Hid. }
  destruct (collect_loop conf osenv theCollector declared cms (empty_cycle w))
    as [slots cyc].
  cbn [fst snd empty_cycle world] in Hf, Hc.
  destruct (Nat.ltb_spec 0 (size (metricDefinitionsNeeded cyc))) as [Hpos|Hz].
  - destruct (createMetricDefinition_sends scrape (metricDefinitionsNeeded cyc)
                (send_metrics (remove_obsolete slots) (world cyc)))
      as (batch & Hchan & Hids & Hok); [lia|].
    destruct (createMetricDefinition _ _ _ _ _ _ _) as [err w2].
    cbn [fst snd] in Hchan, Hok.
    assert (metricDefsChan w2 = (metricDefsChan w ++ [batch])%list) as Hchan'
      by (rewrite Hchan; cbn; by rewrite Hc).
    assert (NoDup (MetricDefinition.ID <$> batch)) as Hnd
      by (rewrite Hids; apply NoDup_fst_map_to_list).
    assert (∀ id, id ∈ MetricDefinition.ID <$> batch → declared !! id = None)
      as Hnew.
    { intros id Hin. rewrite Hids in Hin. by apply Hf, elem_of_needed_ids. }
    destruct err as [e|]; cbn [fst snd].
    + split; [done|]. exists [batch]. split; [done|]. split; [cbn; lia|].
      intros b ->%list_elem_of_singleton. split; [done|]. split; [done|].
      intros Hs. by specialize (Hok Hs).
    + split.
      { intros id [v Hv]. exists v. apply lookup_union_Some_raw. right.
        split; [|done].
        destruct (metricDefinitionsNeeded cyc !! id) eqn:Hn; [|done].
        rewrite (Hf id) in Hv; [done | by eexists]. }
      exists [batch]. split; [done|]. split; [cbn; lia|].
      intros b ->%list_elem_of_singleton. split; [done|]. split; [done|].
      intros _ id Hin. rewrite Hids in Hin. apply elem_of_needed_ids in Hin.
      destruct Hin as [v Hv]. exists v. by apply lookup_union_Some_l.
  - cbn [fst snd]. split; [done|]. exists []. rewrite app_nil_r.
    split; [cbn; by rewrite Hc|]. split; [cbn; lia|].
    intros b Hb. by apply elem_of_nil in Hb.
Qed.

(** Over any number of further ticks the cache only grows and what is
    sent consists of ids that were not in the cache. *)
Lemma run_defs scrapes st :
  let st' := run GetMetricUnits conf osenv theCollector scrapes st in
  (∀ id, is_Some (st.1 !! id) → is_Some (st'.1 !! id))
  ∧ ∃ later,
      metricDefsChan st'.2 = (metricDefsChan st.2 ++ later)%list
      ∧ ∀ b, b ∈ later →
          ∀ id, id ∈ MetricDefinition.ID <$> b → st.1 !! id = None.
Proof.
  cbn zeta. revert st. induction scrapes as [|scrape scrapes IH]; intros st.
  { cbn. split; [done|]. exists []. rewrite app_nil_r. split; [done|].
    intros b Hb. by apply elem_of_nil in Hb. }
  unfold run in *. cbn [foldl]. destruct st as [declared w].
  destruct (tick_defs scrape declared w) as (Hmono & batches & Hchan & _ & Hb).
  destruct (IH (tick GetMetricUnits conf osenv theCollector scrape (declared, w)))
    as (Hmono' & later & Hchan' & Hl).
  cbn [fst snd] in *. split; [by auto|].
  exists (batches ++ later)%list. split.
  { by rewrite Hchan', Hchan, app_assoc. }
  intros b [Hin|Hin]%elem_of_app id Hid.
  - by apply (Hb b Hin).
  - specialize (Hl b Hin id Hid).
    destruct (declared !! id) eqn:Hd; [|done].
    destruct (Hmono id) as [v Hv]; [by eexists|]. congruence.
Qed.

End Declaring.

Lemma definition_ids_sent_app (w w' : World) batches :
  metricDefsChan w' = (metricDefsChan w ++ batches)%list →
  definition_ids_sent w'
  = (definition_ids_sent w ++ mjoin (fmap MetricDefinition.ID <$> batches))%list.
Proof.
  intros H. unfold definition_ids_sent. by rewrite H, fmap_app, join_app.
Qed.

Section Requests.

Variable GetMetricUnits : string → MetricUnits * option string.
Variable conf : Config.
Variable osenv : gmap string string.
Variable theCollector : MetricsCollector.

(** [createMetricDefinition] returns the error of the details request it
    made, and none when the request was answered. *)
Lemma createMetricDefinition_err scrape needed w :
  size needed ≠ 0%nat →
  (createMetricDefinition GetMetricUnits conf osenv theCollector scrape needed w).1
  = match CollectMetricDetails scrape (metricNamesArr needed) with
    | inl err => Some err
    | inr _ => None
    end.
Proof.
  intros Hsz. unfold createMetricDefinition.
  destruct (Nat.eqb_spec (size needed) 0); [done|].
  by destruct (CollectMetricDetails scrape _).
Qed.

(** A tick against the details request it makes.  Without a request
    nothing is sent and the cache stays.  With one, exactly one batch is
    sent, not empty, holding one definition for each needed id, all of them
    new to the cache; the cache takes the ids in when the request was
    answered and stays as it was when the request failed. *)
Lemma tick_request scrape declared w :
  let st' := tick GetMetricUnits conf osenv theCollector scrape (declared, w) in
  match details_request conf osenv theCollector scrape (declared, w) with
  | None => st'.1 = declared ∧ metricDefsChan st'.2 = metricDefsChan w
  | Some answer =>
      ∃ (needed : gmap string MonitoredMetric.t) (batch : list MetricDefinition.t),
        needed_fresh declared needed
        ∧ MetricDefinition.ID <$> batch = (map_to_list needed).*1
        ∧ (0 < length batch)%nat
        ∧ metricDefsChan st'.2 = (metricDefsChan w ++ [batch])%list
        ∧ st'.1 = match answer with
                  | inl _ => declared
                  | inr _ => needed ∪ declared
                  end
  end.
Proof.
  cbn zeta. unfold details_request, tick. cbn [fst snd].
  destruct (CollectMetrics scrape) as [err|cms]; [done|].
  destruct (collect_loop_fresh conf osenv theCollector declared cms (empty_cycle w))
    as [Hf Hc].
  { intros id [? Hid]. cbn in Hid. by rewrite lookup_empty in Hid. }
  destruct (collect_loop conf osenv theCollector declared cms (empty_cycle w))
    as [slots cyc].
  cbn [fst snd empty_cycle world] in Hf, Hc. cbn [snd].
  destruct (Nat.ltb_spec 0 (size (metricDefinitionsNeeded cyc))) as [Hpos|Hz].
  - destruct (createMetricDefinition_sends GetMetricUnits conf osenv theCollector
                scrape (metricDefinitionsNeeded cyc)
                (send_metrics (remove_obsolete slots) (world cyc)))
      as (batch & Hchan & Hids & _); [lia|].
    pose proof (createMetricDefinition_err scrape (metricDefinitionsNeeded cyc)
                  (send_metrics (remove_obsolete slots) (world cyc))) as Herr.
    destruct (createMetricDefinition _ _ _ _ _ _ _) as [err w2].
    cbn [fst snd] in Hchan, Herr.
    exists (metricDefinitionsNeeded cyc), batch.
    split; [exact Hf|]. split; [exact Hids|].
    split.
    { rewrite <- (length_fmap MetricDefinition.ID), Hids, length_fmap,
        length_map_to_list. exact Hpos. }
    specialize (Herr ltac:(lia)). subst err.
    destruct (CollectMetricDetails scrape _) as [e|details]; cbn [fst snd];
      (split; [|done]); cbn; rewrite Hchan; cbn; by rewrite Hc.
  - cbn [fst snd]. split; [done|]. cbn. by rewrite Hc.
Qed.

(** Over any number of ticks, each batch sent holds distinct ids, none of
    which was in the cache the run started from. *)
Lemma run_sent scrapes st :
  ∃ sent,
    metricDefsChan (run GetMetricUnits conf osenv theCollector scrapes st).2
    = (metricDefsChan st.2 ++ sent)%list
    ∧ Forall (λ b, NoDup (MetricDefinition.ID <$> b)) sent
    ∧ ∀ b, b ∈ sent → ∀ id, id ∈ MetricDefinition.ID <$> b → st.1 !! id = None.
Proof.
  revert st. induction scrapes as [|scrape scrapes IH]; intros st.
  { exists []. cbn. rewrite app_nil_r. split; [done|]. split; [constructor|].
    intros b Hb. by apply elem_of_nil in Hb. }
  unfold run in *. cbn [foldl]. destruct st as [declared w].
  destruct (tick_defs GetMetricUnits conf osenv theCollector scrape declared w)
    as (Hmono & batches & Hchan & _ & Hb).
  destruct (IH (tick GetMetricUnits conf osenv theCollector scrape (declared, w)))
    as (sent & Hchan' & Hnd & Hl).
  cbn [fst snd] in *.
  exists (batches ++ sent)%list. split.
  { by rewrite Hchan', Hchan, app_assoc. }
  split.
  { apply Forall_app. split; [|done]. apply Forall_forall. intros b Hin.
    by destruct (Hb b Hin). }
  intros b [Hin|Hin]%elem_of_app id Hid.
  - by apply (Hb b Hin).
  - specialize (Hl b Hin id Hid).
    destruct (declared !! id) eqn:Hd; [|done].
    destruct (Hmono id) as [v Hv]; [by eexists|]. congruence.
Qed.

Lemma tick_sent_once scrape st :
  ¬ request_failed conf osenv theCollector scrape st →
  sent_once st →
  sent_once (tick GetMetricUnits conf osenv theCollector scrape st).
Proof.
  intros Hok [Hnd Hin]. destruct st as [declared w].
  pose proof (tick_request scrape declared w) as Hreq. cbn zeta in Hreq.
  unfold request_failed in Hok. cbn [fst snd] in *.
  destruct (details_request conf osenv theCollector scrape (declared, w))
    as [[err|details]|].
  - exfalso. apply Hok. by exists err.
  - destruct Hreq as (needed & batch & Hf & Hids & _ & Hchan & Hcache).
    unfold sent_once. rewrite (definition_ids_sent_app _ _ _ Hchan), Hcache.
    cbn [fmap list_fmap mjoin list_join]. rewrite app_nil_r. split.
    + apply NoDup_app. split; [done|]. split.
      * intros id Hold Hid. destruct (Hin id Hold) as [v Hv].
        rewrite Hids in Hid. apply elem_of_needed_ids in Hid.
        rewrite (Hf id Hid) in Hv. done.
      * rewrite Hids. apply NoDup_fst_map_to_list.
    + intros id [Hold|Hid]%elem_of_app.
      * destruct (Hin id Hold) as [v Hv].
        destruct (needed !! id) as [v'|] eqn:Hn.
        -- exists v'. by apply lookup_union_Some_l.
        -- exists v. apply lookup_union_Some_raw. by right.
      * rewrite Hids in Hid. apply elem_of_needed_ids in Hid as [v Hv].
        exists v. by apply lookup_union_Some_l.
  - destruct Hreq as [Hcache Hchan]. unfold sent_once, definition_ids_sent.
    rewrite Hcache, Hchan. by split.
Qed.

Lemma run_sent_once scrapes st :
  no_request_fails GetMetricUnits conf osenv theCollector scrapes st →
  sent_once st →
  sent_once (run GetMetricUnits conf osenv theCollector scrapes st).
Proof.
  revert st. induction scrapes as [|scrape scrapes IH]; intros st Hall Hst;
    [done|].
  destruct Hall as [Hok Hrest]. unfold run in *. cbn [foldl].
  by apply IH, tick_sent_once.
Qed.

End Requests.

(** C5, as the code has it.  Within the life of one scheduler ([pre], then
    one cycle [scrape], then [post]): every cycle sends at most one batch
    and no batch holds an id twice; a final id sent in a cycle whose
    metric-details request did not fail is never sent on the channel again;
    so when no details request fails, each final id is sent at most once.
    When the details request of the cycle fails, the batch is sent all the
    same, and its ids are not recorded as declared. *)
Theorem C5_definitions_sent_once
    (GetMetricUnits : string → MetricUnits * option string)
    (conf : Config) (osenv : gmap string string) (theCollector : MetricsCollector)
    (pre post : list Scrape) (scrape : Scrape)
    (st0 : gmap string MonitoredMetric.t * World) :
  let s1 := run GetMetricUnits conf osenv theCollector pre st0 in
  let s2 := tick GetMetricUnits conf osenv theCollector scrape s1 in
  let s3 := run GetMetricUnits conf osenv theCollector post s2 in
  ∃ before batches later : list (list MetricDefinition.t),
    metricDefsChan s1.2 = (metricDefsChan st0.2 ++ before)%list
    ∧ metricDefsChan s2.2 = (metricDefsChan s1.2 ++ batches)%list
    ∧ metricDefsChan s3.2 = (metricDefsChan s2.2 ++ later)%list
    ∧ (length batches ≤ 1)%nat
    ∧ Forall (λ b, NoDup (MetricDefinition.ID <$> b))
             (before ++ batches ++ later)%list
    ∧ (¬ request_failed conf osenv theCollector scrape s1 →
       ∀ b, b ∈ batches →
         ∀ id, id ∈ MetricDefinition.ID <$> b →
           is_Some (s2.1 !! id)
           ∧ ∀ b', b' ∈ later → id ∉ MetricDefinition.ID <$> b')
    ∧ (request_failed conf osenv theCollector scrape s1 →
       ∃ b, batches = [b] ∧ b ≠ [] ∧ s2.1 = s1.1
            ∧ ∀ id, id ∈ MetricDefinition.ID <$> b → s2.1 !! id = None)
    ∧ (no_request_fails GetMetricUnits conf osenv theCollector
         (pre ++ scrape :: post)%list st0 →
       metricDefsChan st0.2 = [] →
       NoDup (definition_ids_sent s3.2)).
Proof.
  intros s1 s2 s3.
  destruct (run_sent GetMetricUnits conf osenv theCollector pre st0)
    as (before & Hbefore & Hndb & _).
  destruct (run_sent GetMetricUnits conf osenv theCollector post s2)
    as (later & Hlater & Hndl & Hl).
  fold s1 in Hbefore. fold s3 in Hlater.
  assert (s2 = tick GetMetricUnits conf osenv theCollector scrape (s1.1, s1.2))
    as Hs2 by (unfold s2; by destruct s1).
  pose proof (tick_request GetMetricUnits conf osenv theCollector scrape s1.1 s1.2)
    as Hreq.
  cbn zeta in Hreq. rewrite <- Hs2 in Hreq.
  assert (details_request conf osenv theCollector scrape (s1.1, s1.2)
          = details_request conf osenv theCollector scrape s1) as Hsame
    by (by destruct s1).
  rewrite Hsame in Hreq. unfold request_failed.
  assert (no_request_fails GetMetricUnits conf osenv theCollector
            (pre ++ scrape :: post)%list st0 →
          metricDefsChan st0.2 = [] →
          NoDup (definition_ids_sent s3.2)) as Honce.
  { intros Hall Hempty.
    assert (s3 = run GetMetricUnits conf osenv theCollector
                     (pre ++ scrape :: post)%list st0) as ->.
    { unfold s3, s2, s1, run. by rewrite foldl_app. }
    apply (run_sent_once GetMetricUnits conf osenv theCollector _ st0 Hall).
    unfold sent_once, definition_ids_sent. rewrite Hempty. cbn.
    split; [constructor|]. intros id Hid. by apply elem_of_nil in Hid. }
  destruct (details_request conf osenv theCollector scrape s1)
    as [answer|] eqn:Hanswer.
  - destruct Hreq as (needed & batch & Hf & Hids & Hlen & Hchan & Hcache).
    assert (NoDup (MetricDefinition.ID <$> batch)) as Hnd
      by (rewrite Hids; apply NoDup_fst_map_to_list).
    exists before, [batch], later.
    split; [exact Hbefore|]. split; [exact Hchan|]. split; [exact Hlater|].
    split; [cbn; lia|]. split.
    { apply Forall_app. split; [exact Hndb|]. by constructor. }
    split; [|split; [|exact Honce]].
    + intros Hok b ->%list_elem_of_singleton id Hid.
      destruct answer as [err|details]; [exfalso; apply Hok; by exists err|].
      rewrite Hids in Hid. apply elem_of_needed_ids in Hid as [v Hv].
      assert (is_Some (s2.1 !! id)) as Hin.
      { rewrite Hcache. exists v. by apply lookup_union_Some_l. }
      split; [exact Hin|]. intros b' Hb' Hid'.
      rewrite (Hl b' Hb' id Hid') in Hin. by destruct Hin.
    + intros [err Herr]. injection Herr as ->.
      exists batch. split; [done|]. split; [by destruct batch; [cbn in Hlen; lia|]|].
      split; [exact Hcache|]. intros id Hid. rewrite Hcache.
      rewrite Hids in Hid. by apply Hf, elem_of_needed_ids.
  - destruct Hreq as [Hcache Hchan].
    exists before, [], later.
    split; [exact Hbefore|]. split; [by rewrite app_nil_r|].
    split; [exact Hlater|]. split; [cbn; lia|]. split.
    { apply Forall_app. by split. }
    split; [|split; [|exact Honce]].
    + intros _ b Hb. by apply elem_of_nil in Hb.
    + intros [err Herr]. discriminate.
Qed.

(** The first scenarios of the specification. *)
Example scenario_1 :
  batch_ids <$> metricsChan (tick any_units ex_conf ex_os ex_c ex_scrape (∅, w_init)).2
  = [["bar{k=a}"; "bar{k=b}"]; ["foo"]].
Proof. vm_compute. reflexivity. Qed.

Example scenario_2 :
  batch_ids <$> metricsChan (tick any_units ex_conf ex_os
                                  (ex_collector "1s" true [ex_foo; ex_bar_k])
                                  ex_scrape (∅, w_init)).2
  = [["bar_a"; "bar_b"]; ["foo"]].
Proof. vm_compute. reflexivity. Qed.

Example scenario_4 :
  map (map env_tag)
      (metricDefsChan (tick any_units ex_conf ex_os ex_c ex_scrape (∅, w_init)).2)
  = [[("foo", Some "prod"); ("bar{k=a}", Some "prod"); ("bar{k=b}", Some "prod")]].
Proof. vm_compute. reflexivity. Qed.

Example scenario_5 :
  collectionInterval_of go_durations ex_conf ex_c = 30000000000.
Proof. vm_compute. reflexivity. Qed.

(* ===================================================================== *)
(** ** The theorems at the worked endpoint *)
(* ===================================================================== *)

Lemma C1_labelled_id_rewrite_witness :
  ∃ keys : list string,
    NoDup keys
    ∧ default_split_id "bar" [dp_a; dp_b]
      = "bar" +:+ "{"
        +:+ String.concat "," ((λ k, k +:+ "=${" +:+ k +:+ "}") <$> keys)
        +:+ "}".
Proof.
  destruct (C1_labelled_id_rewrite ex_conf ex_os ex_c ∅ ex_bar cm_bar
              (empty_cycle w_init))
    as (keys & _ & Hnd & _ & Hid & _).
  - vm_compute. reflexivity.
  - exists dp_a, "k". split; [left|]. exists "a". vm_compute. reflexivity.
  - exists keys. split; [exact Hnd | exact Hid].
Defined.

Lemma C2_split_per_datapoint_witness :
  ∃ splitMetrics : list MetricHeader.t,
    length splitMetrics = 2%nat
    ∧ splitMetrics !! 1%nat
      = Some (MetricHeader.mk "tenant" "gauge"
                (os.Expand "bar_${k}" (λ name, default "" (Datapoint.Tags dp_b !! name)))
                [dp_b]).
Proof.
  destruct (C2_split_per_datapoint ex_conf ex_os
              (ex_collector "1s" true [ex_foo; ex_bar_k]) ∅ ex_bar_k cm_bar
              (empty_cycle w_init))
    as (splitMetrics & needed & _ & Hlen & Hj & _).
  - vm_compute. reflexivity.
  - exists splitMetrics. split; [exact Hlen|]. exact (Hj 1%nat dp_b eq_refl).
Defined.

Lemma C3_matching_witness :
  collect_one ex_conf ex_os ex_c ∅ cm_baz (empty_cycle w_init)
  = (MetricHeader.set_ID "" cm_baz,
     mkCycle ∅ 0 (log_event (Warn_unexpected_metric "baz" (GetId ex_c)) w_init))
  ∧ collect_one ex_conf ex_os (ex_collector "1s" true []) ∅ cm_baz
                (empty_cycle w_init)
    = collect_matched ex_conf ex_os (ex_collector "1s" true []) ∅
        (MonitoredMetric.mk "baz" "baz" "gauge" "" "" ∅) cm_baz
        (empty_cycle w_init).
Proof.
  split.
  - destruct (C3_matching any_units ex_conf ex_os ex_c ∅) as [Hlisted _].
    destruct Hlisted as [Hdrop _]; [discriminate|].
    apply (Hdrop cm_baz (empty_cycle w_init)).
    apply (bool_decide_unpack _). vm_compute. exact I.
  - destruct (C3_matching any_units ex_conf ex_os (ex_collector "1s" true []) ∅)
      as [_ Hall].
    exact (Hall eq_refl cm_baz (empty_cycle w_init)).
Defined.

Lemma C4_tag_precedence_witness :
  MetricDefinition.Tags
    (metricDef_of any_units ex_conf ex_os ex_c [] "bar{k=a}" ex_bar) !! "env"
  = Some "prod".
Proof.
  destruct (C4_tag_precedence any_units ex_conf ex_os ex_c [] "bar{k=a}" ex_bar)
    as (Hall & _).
  apply (Hall "env" "test" "metric-level" "prod"); vm_compute; reflexivity.
Defined.

Lemma C5_definitions_sent_once_witness :
  NoDup (definition_ids_sent
           (run any_units ex_conf ex_os ex_c [ex_scrape; ex_scrape; ex_scrape]
                (∅, w_init)).2)
  ∧ ∃ b, metricDefsChan
           (tick any_units ex_conf ex_os ex_c ex_scrape_no_details (∅, w_init)).2
         = [b]
         ∧ (tick any_units ex_conf ex_os ex_c ex_scrape_no_details (∅, w_init)).1
           = ∅.
Proof.
  split.
  - destruct (C5_definitions_sent_once any_units ex_conf ex_os ex_c
                [ex_scrape] [ex_scrape] ex_scrape (∅, w_init))
      as (before & batches & later & _ & _ & _ & _ & _ & _ & _ & Honce).
    apply Honce; [|reflexivity].
    cbn [app no_request_fails].
    repeat split; intros [err Herr]; vm_compute in Herr; discriminate.
  - destruct (C5_definitions_sent_once any_units ex_conf ex_os ex_c
                [] [] ex_scrape_no_details (∅, w_init))
      as (before & batches & later & _ & Hchan & _ & _ & _ & _ & Hfailed & _).
    destruct Hfailed as (b & -> & _ & Hcache & _).
    { exists "connection refused". vm_compute. reflexivity. }
    exists b. split; [exact Hchan | exact Hcache].
Defined.


Lemma C7_failed_scrape_witness :
  StatusReport (tick any_units ex_conf ex_os ex_c ex_scrape_failed (∅, w_init)).2
  = [SetEndpoint (GetId ex_c)
       ("Failed to collect metrics from [" +:+ GetId ex_c +:+ "] at ["
        +:+ now ex_scrape_failed +:+ "]. err=connection refused")]
  ∧ metricsChan (tick any_units ex_conf ex_os ex_c ex_scrape_failed (∅, w_init)).2
    = [].
Proof.
  destruct (C7_failed_scrape any_units ex_conf ex_os ex_c ex_scrape_failed
              "connection refused" ∅ w_init eq_refl)
    as (Hstatus & _ & Hchan & _).
  split; [exact Hstatus | exact Hchan].
Defined.

Lemma C8_id_stability_witness :
  [dp_b; dp_a] ≡ₚ [dp_a; dp_b]
  ∧ default_split_id "bar" [dp_b; dp_a] = default_split_id "bar" [dp_a; dp_b].
Proof.
  assert ([dp_b; dp_a] ≡ₚ [dp_a; dp_b]) as Hp by apply perm_swap.
  split; [exact Hp|].
  exact (proj1 (C8_id_stability ex_os "bar" "tenant" "bar" "gauge" _ _ Hp)).
Defined.

Lemma C10_disabled_endpoint_witness :
  let running := mkManager {[GetId ex_c := 0%nat]} [mkTicker 30000000000 true]
                           [(0%nat, ex_c)] in
  ∃ w' : World,
    StartCollecting go_durations go_duration_string ex_conf
                    (ex_collector "1s" false [ex_foo; ex_bar]) (running, w_init)
    = Done (running, w').
Proof.
  intros running.
  destruct (C10_disabled_endpoint go_durations go_duration_string ex_conf
              (ex_collector "1s" false [ex_foo; ex_bar]) running w_init eq_refl)
    as (w' & Hstart & _).
  exists w'. exact Hstart.
Defined.

(* ===================================================================== *)
(** ** Where the code departs from the specification *)
(* ===================================================================== *)

(** C5 as stated fails: when the details request fails the definitions are
    sent all the same but not recorded as declared, and the next cycle sends
    the same id again. *)
Lemma C5_counterexample :
  metricDefsChan w_init = []
  ∧ definition_ids_sent
      (run any_units ex_conf ex_os ex_c
           [ex_scrape_no_details; ex_scrape_no_details] (∅, w_init)).2
    = ["foo"; "foo"]
  ∧ ¬ NoDup (definition_ids_sent
               (run any_units ex_conf ex_os ex_c
                    [ex_scrape_no_details; ex_scrape_no_details] (∅, w_init)).2).
Proof.
  assert (definition_ids_sent
            (run any_units ex_conf ex_os ex_c
                 [ex_scrape_no_details; ex_scrape_no_details] (∅, w_init)).2
          = ["foo"; "foo"]) as Hsent by (vm_compute; reflexivity).
  split; [reflexivity|]. split; [exact Hsent|].
  rewrite Hsent. intros Hnd. apply NoDup_cons in Hnd as [Hnotin _].
  apply Hnotin. left.
Qed.


(* ===================================================================== *)
(** ** The ticker table under [StopCollecting] and [StopCollectingAll] *)
(* ===================================================================== *)

Lemma StopCollecting_fst (collectorId : string) (mcm : MetricsCollectorManager)
    (w : World) :
  (StopCollecting collectorId (mcm, w)).1
  = match Tickers mcm !! collectorId with
    | Some ticker => stop_entry mcm (collectorId, ticker)
    | None => mcm
    end.
Proof. unfold StopCollecting. by destruct (Tickers mcm !! collectorId). Qed.

Lemma Ticker_Stop_lookup (t t' : nat) (ts : list Ticker) (tk' : Ticker) :
  Ticker_Stop t ts !! t' = Some tk' →
  ∃ tk, ts !! t' = Some tk ∧ period tk' = period tk
        ∧ (running tk' = true → running tk = true ∧ t' ≠ t).
Proof.
  unfold Ticker_Stop. rewrite list_lookup_alter. case_decide as Heq.
  - subst t'. destruct (ts !! t) as [tk|] eqn:Htk; [|done].
    intros [= <-]. exists tk. split; [done|]. split; [done|]. done.
  - intros Htk. exists tk'. split; [done|]. split; [done|]. done.
Qed.

Lemma stop_entry_ok (mcm : MetricsCollectorManager) (id : string) (t : nat) :
  manager_ok mcm → Tickers mcm !! id = Some t →
  manager_ok (stop_entry mcm (id, t)).
Proof.
  intros (Ha & Hb & Hc) Hid. unfold stop_entry. cbn [fst snd].
  split; [|split]; cbn [Tickers tickers goroutines].
  - intros id' t' [Hne Hid']%lookup_delete_Some.
    destruct (Ha id' t' Hid') as ([p Hp] & c & Hg & Hc').
    split; [|by eauto]. exists p. cbn [tickers]. unfold Ticker_Stop.
    rewrite list_lookup_alter_ne; [done|]. intros ->.
    destruct (Ha id t' Hid) as (_ & c2 & Hg2 & Hc2). congruence.
  - intros t' [p Hp]. cbn [tickers] in Hp.
    destruct (Ticker_Stop_lookup _ _ _ _ Hp) as (tk & Htk & Hper & Hrun).
    destruct (Hrun eq_refl) as [Hr Hne]. destruct tk as [p' r']. cbn in *. subst.
    destruct (Hb t') as [id' Hid']; [eexists; eassumption|].
    exists id'. rewrite lookup_delete_ne; [done|]. intros ->. congruence.
  - unfold Ticker_Stop. by rewrite length_alter.
Qed.

Lemma StopCollecting_ok (collectorId : string) (st : MetricsCollectorManager * World) :
  manager_ok st.1 → manager_ok (StopCollecting collectorId st).1.
Proof.
  destruct st as [mcm w]. intros Hok. rewrite StopCollecting_fst.
  destruct (Tickers mcm !! collectorId) as [t|] eqn:Hid; [|done].
  by apply stop_entry_ok.
Qed.

(** The table after the entries of [l] were stopped one after the other. *)
Lemma stop_entries_Tickers (l : list (string * nat)) (mcm : MetricsCollectorManager)
    (k : string) :
  Tickers (foldl stop_entry mcm l) !! k
  = if decide (k ∈ l.*1) then None else Tickers mcm !! k.
Proof.
  revert mcm. induction l as [|[id t] l IH]; intros mcm.
  - cbn. by rewrite decide_False by apply not_elem_of_nil.
  - cbn [foldl]. rewrite IH. rewrite fmap_cons. cbn [fst stop_entry Tickers].
    destruct (decide (k ∈ l.*1)) as [Hin|Hnin].
    + rewrite decide_True; [done | by right].
    + destruct (decide (k = id)) as [->|Hne].
      * rewrite decide_True by left. apply lookup_delete_eq.
      * rewrite decide_False; [by rewrite lookup_delete_ne|].
        by intros [?|?]%elem_of_cons.
Qed.

Lemma stop_entries_tickers (l : list (string * nat)) (mcm : MetricsCollectorManager)
    (t : nat) (tk' : Ticker) :
  tickers (foldl stop_entry mcm l) !! t = Some tk' →
  ∃ tk, tickers mcm !! t = Some tk ∧ period tk' = period tk
        ∧ (running tk' = true → running tk = true ∧ t ∉ l.*2).
Proof.
  revert mcm. induction l as [|[id t0] l IH]; intros mcm Htk.
  - exists tk'. split; [done|]. split; [done|]. intros Hr. split; [done|].
    apply not_elem_of_nil.
  - cbn [foldl] in Htk. destruct (IH _ Htk) as (tk1 & Htk1 & Hper1 & Hrun1).
    cbn [stop_entry tickers snd] in Htk1.
    destruct (Ticker_Stop_lookup _ _ _ _ Htk1) as (tk & Htk0 & Hper & Hrun).
    exists tk. split; [done|]. split; [congruence|].
    intros Hr. destruct (Hrun1 Hr) as [Hr1 Hnin]. destruct (Hrun Hr1) as [Hr0 Hne].
    split; [done|]. rewrite fmap_cons. cbn [snd]. by apply not_elem_of_cons.
Qed.

Lemma stop_entries_length (l : list (string * nat)) (mcm : MetricsCollectorManager) :
  length (tickers (foldl stop_entry mcm l)) = length (tickers mcm)
  ∧ goroutines (foldl stop_entry mcm l) = goroutines mcm.
Proof.
  revert mcm. induction l as [|e l IH]; intros mcm; [done|].
  cbn [foldl]. destruct (IH (stop_entry mcm e)) as [-> ->].
  unfold stop_entry, Ticker_Stop. cbn. by rewrite length_alter.
Qed.

Lemma StopCollectingAll_ok (st : MetricsCollectorManager * World) :
  manager_ok st.1 → manager_ok (StopCollectingAll st).1.
Proof.
  destruct st as [mcm w]. cbn [fst StopCollectingAll].
  assert (∀ l mcm0, NoDup l.*1 →
            (∀ id t, (id, t) ∈ l → Tickers mcm0 !! id = Some t) →
            manager_ok mcm0 → manager_ok (foldl stop_entry mcm0 l)) as Hfold.
  { induction l as [|[id t] l IH]; intros mcm0 Hnd Hl Hok; [done|].
    cbn [foldl]. rewrite fmap_cons in Hnd. apply NoDup_cons in Hnd as [Hnin Hnd].
    apply IH; [done| |].
    - intros id' t' Hin. cbn [stop_entry Tickers fst].
      rewrite lookup_delete_ne.
      + apply Hl. by right.
      + intros <-. apply Hnin. apply list_elem_of_fmap. by exists (id, t').
    - apply stop_entry_ok; [done|]. apply Hl. left. }
  apply Hfold.
  - apply NoDup_fst_map_to_list.
  - intros id t Hin. by apply elem_of_map_to_list.
Qed.

(** X1. [StopCollecting] is idempotent on the manager: a second call for the
    same id finds no ticker, leaves the table, the tickers and the
    goroutines as the first call left them, and only clears the status
    entry once more. *)
Theorem X1_StopCollecting_idempotent (collectorId : string)
    (st : MetricsCollectorManager * World) :
  let once := StopCollecting collectorId st in
  let twice := StopCollecting collectorId once in
  twice.1 = once.1
  ∧ Tickers once.1 !! collectorId = None
  ∧ StatusReport twice.2 = (StatusReport once.2 ++ [SetEndpoint collectorId ""])%list
  ∧ log twice.2 = log once.2
  ∧ metricsChan twice.2 = metricsChan st.2
  ∧ metricDefsChan twice.2 = metricDefsChan st.2.
Proof.
  destruct st as [mcm w]. cbn zeta.
  assert (Tickers (StopCollecting collectorId (mcm, w)).1 !! collectorId = None)
    as Hnone.
  { rewrite StopCollecting_fst.
    destruct (Tickers mcm !! collectorId) eqn:Hid; [|done].
    apply lookup_delete_eq. }
  destruct (StopCollecting collectorId (mcm, w)) as [mcm1 w1] eqn:Hs.
  cbn [fst snd] in *. unfold StopCollecting at 1 2 3 4 5.
  rewrite Hnone. cbn [fst snd]. split; [done|]. split; [done|].
  split; [done|]. split; [done|].
  unfold StopCollecting in Hs. destruct (Tickers mcm !! collectorId);
    injection Hs as <- <-; done.
Qed.

(** X2. [StopCollecting] touches one entry only: the id leaves the table,
    its ticker keeps its period and is no longer running, every other id
    keeps its ticker and every other ticker its state, and the goroutines
    are left alone.  For an id that has no ticker the manager is
    unchanged; the status entry is cleared in either case. *)
Theorem X2_StopCollecting_frame (collectorId : string)
    (mcm : MetricsCollectorManager) (w : World) :
  let st' := StopCollecting collectorId (mcm, w) in
  Tickers st'.1 = delete collectorId (Tickers mcm)
  ∧ goroutines st'.1 = goroutines mcm
  ∧ length (tickers st'.1) = length (tickers mcm)
  ∧ (∀ t tk, Tickers mcm !! collectorId = Some t → tickers mcm !! t = Some tk →
             tickers st'.1 !! t = Some (mkTicker (period tk) false))
  ∧ (∀ t', Tickers mcm !! collectorId ≠ Some t' →
           tickers st'.1 !! t' = tickers mcm !! t')
  ∧ (Tickers mcm !! collectorId = None → st'.1 = mcm)
  ∧ last (StatusReport st'.2) = Some (SetEndpoint collectorId "").
Proof.
  cbn zeta. rewrite StopCollecting_fst.
  assert (last (StatusReport (StopCollecting collectorId (mcm, w)).2)
          = Some (SetEndpoint collectorId "")) as Hlast.
  { unfold StopCollecting. destruct (Tickers mcm !! collectorId);
      cbn [snd status_call StatusReport]; apply last_snoc. }
  destruct (Tickers mcm !! collectorId) as [t|] eqn:Hid.
  - cbn [stop_entry fst snd Tickers tickers goroutines].
    split; [done|]. split; [done|].
    split; [unfold Ticker_Stop; by rewrite length_alter|].
    split.
    { intros t0 tk [= <-] Htk. unfold Ticker_Stop.
      by rewrite list_lookup_alter_eq, Htk. }
    split.
    { intros t' Hne. unfold Ticker_Stop. rewrite list_lookup_alter_ne; [done|].
      congruence. }
    split; [done | exact Hlast].
  - split; [by rewrite delete_id|]. split; [done|]. split; [done|].
    split; [done|]. split; [done|]. split; [done | exact Hlast].
Qed.

(** X3. [StopCollectingAll] empties the table and stops every ticker that
    was in it; no ticker is started, no period or goroutine changes, and
    the last call on the status report deletes all endpoints.  When the
    table and the tickers agreed before, no ticker is running afterwards. *)
Theorem X3_StopCollectingAll (mcm : MetricsCollectorManager) (w : World) :
  let st' := StopCollectingAll (mcm, w) in
  Tickers st'.1 = ∅
  ∧ (∀ id t, Tickers mcm !! id = Some t → ¬ is_running st'.1 t)
  ∧ (∀ t tk', tickers st'.1 !! t = Some tk' →
       ∃ tk, tickers mcm !! t = Some tk ∧ period tk' = period tk
             ∧ (running tk' = true → running tk = true))
  ∧ length (tickers st'.1) = length (tickers mcm)
  ∧ goroutines st'.1 = goroutines mcm
  ∧ last (StatusReport st'.2) = Some DeleteAllEndpoints
  ∧ (manager_ok mcm → ∀ t, ¬ is_running st'.1 t).
Proof.
  cbn zeta. cbn [StopCollectingAll fst snd].
  assert (Tickers (foldl stop_entry mcm (map_to_list (Tickers mcm))) = ∅) as Hempty.
  { apply map_eq. intros k. rewrite stop_entries_Tickers, lookup_empty.
    case_decide as Hin; [done|].
    destruct (Tickers mcm !! k) as [t|] eqn:Hk; [|done].
    exfalso. apply Hin. apply list_elem_of_fmap. exists (k, t).
    split; [done | by apply elem_of_map_to_list]. }
  split; [exact Hempty|]. split.
  { intros id t Hid [p Hp].
    destruct (stop_entries_tickers _ _ _ _ Hp) as (tk & _ & _ & Hrun).
    destruct (Hrun eq_refl) as [_ Hnin]. apply Hnin.
    apply list_elem_of_fmap. exists (id, t).
    split; [done | by apply elem_of_map_to_list]. }
  split.
  { intros t tk' Htk. destruct (stop_entries_tickers _ _ _ _ Htk)
      as (tk & ? & ? & Hrun). exists tk. split; [done|]. split; [done|].
    intros Hr. by destruct (Hrun Hr). }
  split; [apply stop_entries_length|]. split; [apply stop_entries_length|].
  split; [apply last_snoc|].
  intros Hok t Hrun.
  pose proof (StopCollectingAll_ok (mcm, w) Hok) as (_ & Hb & _).
  cbn [StopCollectingAll fst] in Hb. destruct (Hb t Hrun) as [id Hid].
  rewrite Hempty in Hid. by rewrite lookup_empty in Hid.
Qed.

(* ===================================================================== *)
(** ** The ticker table under [StartCollecting] *)
(* ===================================================================== *)

Section StartFacts.

Variable ParseDuration : string → option Duration.
Variable Duration_String : Duration → string.
Variable conf : Config.

Lemma StartCollecting_enabled theCollector mcm w :
  Endpoint.IsEnabled (GetEndpoint theCollector) = true →
  0 < collectionInterval_of ParseDuration conf theCollector →
  ∃ w', StartCollecting ParseDuration Duration_String conf theCollector (mcm, w)
        = Done (started ParseDuration conf theCollector (StopCollecting (GetId theCollector) (mcm, w)).1,
                w').
Proof.
  intros Hen Hpos. unfold StartCollecting. rewrite Hen. cbn [negb].
  destruct (StopCollecting (GetId theCollector) (mcm, w)) as [stopped w0].
  destruct (Z.leb_spec (collectionInterval_of ParseDuration conf theCollector) 0);
    [lia|]. by eexists.
Qed.

Lemma StartCollecting_Done_inv theCollector mcm w st' :
  StartCollecting ParseDuration Duration_String conf theCollector (mcm, w) = Done st' →
  (Endpoint.IsEnabled (GetEndpoint theCollector) = false ∧ st'.1 = mcm)
  ∨ (Endpoint.IsEnabled (GetEndpoint theCollector) = true
     ∧ 0 < collectionInterval_of ParseDuration conf theCollector
     ∧ st'.1 = started ParseDuration conf theCollector (StopCollecting (GetId theCollector) (mcm, w)).1).
Proof.
  unfold StartCollecting.
  destruct (Endpoint.IsEnabled (GetEndpoint theCollector)); cbn [negb].
  - destruct (StopCollecting (GetId theCollector) (mcm, w)) as [stopped w0].
    destruct (Z.leb_spec (collectionInterval_of ParseDuration conf theCollector) 0);
      [done|].
    intros [= <-]. right. by repeat split.
  - intros [= <-]. by left.
Qed.

Lemma started_ok theCollector stopped :
  manager_ok stopped →
  Tickers stopped !! GetId theCollector = None →
  manager_ok (started ParseDuration conf theCollector stopped).
Proof.
  intros (Ha & Hb & Hc) Hnone. unfold started.
  split; [|split]; cbn [Tickers tickers goroutines].
  - intros id' t' Hid'. apply lookup_insert_Some in Hid' as [[<- <-]|[Hne Hid']].
    + split.
      * eexists. cbn [tickers]. apply list_lookup_middle. done.
      * exists theCollector. split; [|done].
        rewrite <- Hc. apply list_lookup_middle. done.
    + destruct (Ha id' t' Hid') as ([p Hp] & c & Hg & Hid).
      split.
      * exists p. cbn [tickers]. by apply lookup_app_l_Some.
      * exists c. split; [by apply lookup_app_l_Some | done].
  - intros t' [p Hp]. cbn [tickers] in Hp.
    destruct (decide (t' < length (tickers stopped))%nat) as [Hlt|Hge].
    + rewrite lookup_app_l in Hp by done.
      destruct (Hb t') as [id' Hid']; [by exists p|].
      exists id'. rewrite lookup_insert_ne; [done|]. intros Heq.
      rewrite <- Heq in Hid'. congruence.
    + exists (GetId theCollector).
      assert (t' = length (tickers stopped)) as ->.
      { apply lookup_lt_Some in Hp. rewrite length_app in Hp. cbn in Hp. lia. }
      apply lookup_insert_eq.
  - rewrite !length_app. cbn. lia.
Qed.

Lemma StartCollecting_ok theCollector st st' :
  manager_ok st.1 →
  StartCollecting ParseDuration Duration_String conf theCollector st = Done st' →
  manager_ok st'.1.
Proof.
  destruct st as [mcm w]. intros Hok Hstart.
  apply StartCollecting_Done_inv in Hstart as [[_ ->]|(_ & _ & ->)]; [done|].
  apply started_ok.
  - by apply (StopCollecting_ok _ (mcm, w)).
  - rewrite StopCollecting_fst.
    destruct (Tickers mcm !! GetId theCollector) eqn:Hid; [|done].
    apply lookup_delete_eq.
Qed.

Lemma manager_step_ok st st' :
  manager_step ParseDuration Duration_String conf st st' →
  manager_ok st.1 → manager_ok st'.1.
Proof.
  intros Hstep Hok. destruct Hstep as [c st st' Hstart|id st|st].
  - by eapply StartCollecting_ok.
  - by apply StopCollecting_ok.
  - by apply StopCollectingAll_ok.
Qed.

Lemma collectionInterval_ge_min theCollector minimum :
  ParseDuration (Minimum_Collection_Interval (Collector conf)) = Some minimum →
  minimum ≤ collectionInterval_of ParseDuration conf theCollector.
Proof.
  intros Hmin. unfold collectionInterval_of, clamp_interval. rewrite Hmin.
  destruct (Z.ltb_spec (parsed_interval ParseDuration conf theCollector).1 minimum);
    cbn [fst]; lia.
Qed.

End StartFacts.

(** X4. Starting an enabled collector whose interval is positive replaces
    whatever ran under its id: the id is entered with a ticker made anew at
    the collector's interval, the ticker the id had before keeps its period
    and is stopped, every other id and every other ticker is untouched, and
    one goroutine is added, for the new ticker. *)
Theorem X4_StartCollecting_replaces
    (ParseDuration : string → option Duration)
    (Duration_String : Duration → string)
    (conf : Config) (theCollector : MetricsCollector)
    (mcm : MetricsCollectorManager) (w : World) :
  Endpoint.IsEnabled (GetEndpoint theCollector) = true →
  0 < collectionInterval_of ParseDuration conf theCollector →
  let id := GetId theCollector in
  let new := length (tickers mcm) in
  ∃ mcm' w',
    StartCollecting ParseDuration Duration_String conf theCollector (mcm, w)
    = Done (mcm', w')
    ∧ Tickers mcm' = <[id := new]> (Tickers mcm)
    ∧ tickers mcm' !! new
      = Some (mkTicker (collectionInterval_of ParseDuration conf theCollector) true)
    ∧ length (tickers mcm') = S (length (tickers mcm))
    ∧ (∀ old tk, Tickers mcm !! id = Some old → tickers mcm !! old = Some tk →
                 tickers mcm' !! old = Some (mkTicker (period tk) false))
    ∧ (∀ t, (t < new)%nat → Tickers mcm !! id ≠ Some t →
            tickers mcm' !! t = tickers mcm !! t)
    ∧ goroutines mcm' = (goroutines mcm ++ [(new, theCollector)])%list.
Proof.
  intros Hen Hpos id new.
  destruct (StartCollecting_enabled ParseDuration Duration_String conf
              theCollector mcm w Hen Hpos) as [w' Hstart].
  eexists _, w'. split; [exact Hstart|].
  rewrite StopCollecting_fst. fold id.
  destruct (Tickers mcm !! id) as [old|] eqn:Hid;
    unfold started; cbn [stop_entry fst snd Tickers tickers goroutines]; fold id.
  - assert (length (Ticker_Stop old (tickers mcm)) = new) as Hlen
      by (unfold Ticker_Stop; by rewrite length_alter).
    rewrite Hlen. split; [apply insert_delete_eq|].
    split; [apply list_lookup_middle; done|].
    split; [rewrite length_app, Hlen; cbn; lia|].
    split.
    { intros old' tk [= <-] Htk. apply lookup_app_l_Some. unfold Ticker_Stop.
      by rewrite list_lookup_alter_eq, Htk. }
    split; [|done].
    intros t Hlt Hne. rewrite lookup_app_l by lia. unfold Ticker_Stop.
    rewrite list_lookup_alter_ne; [done | congruence].
  - split; [done|]. split; [apply list_lookup_middle; done|].
    split; [rewrite length_app; cbn; lia|].
    split; [done|]. split; [|done].
    intros t Hlt _. by rewrite lookup_app_l.
Qed.

(** X5. Whatever sequence of [StartCollecting], [StopCollecting] and
    [StopCollectingAll] calls a new manager has gone through, its table and
    its tickers agree: the ids in the table are exactly the ids of the
    running tickers, each of them has its goroutine, and no two running
    tickers collect for the same id. *)
Theorem X5_one_running_ticker_per_id
    (ParseDuration : string → option Duration)
    (Duration_String : Duration → string)
    (conf : Config) (w : World) (st : MetricsCollectorManager * World) :
  rtc (manager_step ParseDuration Duration_String conf)
      (NewMetricsCollectorManager, w) st →
  manager_ok st.1
  ∧ ∀ t1 t2 c1 c2,
      is_running st.1 t1 → is_running st.1 t2 →
      goroutines st.1 !! t1 = Some (t1, c1) →
      goroutines st.1 !! t2 = Some (t2, c2) →
      GetId c1 = GetId c2 → t1 = t2.
Proof.
  intros Hrtc.
  assert (manager_ok st.1) as Hok.
  { assert (manager_ok (NewMetricsCollectorManager, w).1) as Hnew.
    { split; [|split]; [| |done].
      - intros id t Hid. cbn in Hid. by rewrite lookup_empty in Hid.
      - intros t [p Hp]. cbn in Hp. by rewrite lookup_nil in Hp. }
    revert Hnew. induction Hrtc as [|x y z Hstep _ IH]; [done|].
    intros Hx. apply IH. by eapply manager_step_ok. }
  split; [exact Hok|].
  destruct Hok as (Ha & Hb & _).
  intros t1 t2 c1 c2 Hr1 Hr2 Hg1 Hg2 Heq.
  destruct (Hb t1 Hr1) as [id1 Hid1]. destruct (Hb t2 Hr2) as [id2 Hid2].
  destruct (Ha id1 t1 Hid1) as (_ & c1' & Hg1' & <-).
  destruct (Ha id2 t2 Hid2) as (_ & c2' & Hg2' & <-).
  assert (c1' = c1) as -> by congruence.
  assert (c2' = c2) as -> by congruence.
  rewrite Heq in Hid1. congruence.
Qed.

(** X6. With a configured minimum that parses to a positive duration,
    [StartCollecting] on an enabled endpoint never panics, whatever the
    endpoint's and the default interval strings are: the ticker it makes
    runs at an interval that is at least the minimum. *)
Theorem X6_StartCollecting_no_panic
    (ParseDuration : string → option Duration)
    (Duration_String : Duration → string)
    (conf : Config) (theCollector : MetricsCollector)
    (mcm : MetricsCollectorManager) (w : World) (minimum : Duration) :
  Endpoint.IsEnabled (GetEndpoint theCollector) = true →
  ParseDuration (Minimum_Collection_Interval (Collector conf)) = Some minimum →
  0 < minimum →
  ∃ mcm' w' p,
    StartCollecting ParseDuration Duration_String conf theCollector (mcm, w)
    = Done (mcm', w')
    ∧ last (tickers mcm') = Some (mkTicker p true)
    ∧ minimum ≤ p.
Proof.
  intros Hen Hmin Hpos.
  pose proof (collectionInterval_ge_min ParseDuration conf theCollector minimum Hmin)
    as Hge.
  destruct (StartCollecting_enabled ParseDuration Duration_String conf
              theCollector mcm w Hen) as [w' Hstart]; [lia|].
  eexists _, w', _. split; [exact Hstart|].
  unfold started. cbn [tickers]. split; [apply last_snoc | exact Hge].
Qed.

(** X7. [StartCollecting] logs no warning about the interval exactly when
    the interval string in force (the endpoint's, or the default when the
    endpoint has none) and the minimum both parse and the interval is not
    below the minimum; the collector then runs at that very interval. *)
Theorem X7_quiet_interval
    (ParseDuration : string → option Duration)
    (conf : Config) (theCollector : MetricsCollector) :
  let own := Endpoint.Collection_Interval (GetEndpoint theCollector) in
  let in_force := if String.eqb own "" then Default_Collection_Interval (Collector conf)
                  else own in
  interval_warnings ParseDuration conf theCollector = []
  ↔ ∃ d minimum,
      ParseDuration in_force = Some d
      ∧ ParseDuration (Minimum_Collection_Interval (Collector conf)) = Some minimum
      ∧ minimum ≤ d
      ∧ collectionInterval_of ParseDuration conf theCollector = d.
Proof.
  intros own in_force.
  unfold interval_warnings, collectionInterval_of, clamp_interval, parsed_interval.
  fold own. fold in_force.
  destruct (ParseDuration in_force) as [d|] eqn:Hd; cbn [fst snd].
  - destruct (ParseDuration (Minimum_Collection_Interval (Collector conf)))
      as [minimum|] eqn:Hm.
    + destruct (Z.ltb_spec d minimum); cbn [fst snd app].
      * split; [done|]. intros (d' & m' & [= <-] & [= <-] & ? & _). lia.
      * split; [|done]. intros _. exists d, minimum. by repeat split.
    + cbn [fst snd app]. split; [done|]. by intros (? & ? & _ & ? & _).
  - split.
    + destruct (ParseDuration (Default_Collection_Interval (Collector conf)));
        cbn [fst snd]; done.
    + by intros (? & ? & ? & _).
Qed.

(* ===================================================================== *)
(** ** Matching, ids and splitting, beyond the rewrite *)
(* ===================================================================== *)

Lemma byName_from_last (l : list MonitoredMetric.t)
    (acc : gmap string MonitoredMetric.t) (n : string) :
  foldl (λ m mm, <[MonitoredMetric.Name mm := mm]> m) acc l !! n
  = match last (filter (λ mm, MonitoredMetric.Name mm = n) l) with
    | Some mm => Some mm
    | None => acc !! n
    end.
Proof.
  revert acc. induction l as [|mm l IH]; intros acc; [done|].
  cbn [foldl]. rewrite IH. rewrite filter_cons. case_decide as Hn.
  - rewrite last_cons.
    destruct (last (filter _ l)); [done|]. subst n. apply lookup_insert_eq.
  - destruct (last (filter _ l)); [done|]. by rewrite lookup_insert_ne.
Qed.

(** X8. When the endpoint lists metrics, a collected metric is processed
    under the last declaration that bears its name, and under none when no
    declaration does: of two declarations with one name the later one
    wins. *)
Theorem X8_last_declaration_wins (e : Endpoint.t) (collectedMetric : MetricHeader.t) :
  Endpoint.Metrics e ≠ [] →
  match_metric (monitoredMetricsByNameMap e) collectedMetric
  = last (filter (λ mm, MonitoredMetric.Name mm = MetricHeader.ID collectedMetric)
                 (Endpoint.Metrics e)).
Proof.
  intros Hne. unfold match_metric.
  rewrite (proj1 (byName_size_pos e) Hne).
  unfold monitoredMetricsByNameMap. rewrite byName_from_last, lookup_empty.
  by destruct (last _).
Qed.

Lemma expand_from_no_dollar (mapping : string → string) (s : string) :
  strings.Contains s "$" = false → os.expand_from mapping 0 s = s.
Proof.
  induction s as [|c s IH]; [done|].
  cbn [strings.Contains String.prefix]. intros H.
  apply orb_false_iff in H as [Hc Hs]. cbn [os.expand_from].
  destruct (Ascii.eqb_spec c "$") as [->|Hne].
  - exfalso. destruct (ascii_dec "$" "$"); [|done].
    by rewrite prefix_nil in Hc.
  - cbn [andb]. by rewrite (IH Hs).
Qed.

(** X9. An id template and a prefix without a dollar sign are taken as
    they are: the prefixed id is the prefix followed by the declared id,
    whatever the process environment and the additional environment
    hold. *)
Theorem X9_id_without_tokens
    (conf : Config) (osenv : gmap string string) (theCollector : MetricsCollector)
    (monitoredMetric : MonitoredMetric.t) :
  strings.Contains (Metric_ID_Prefix (Collector conf)) "$" = false →
  strings.Contains (MonitoredMetric.ID monitoredMetric) "$" = false →
  expanded_id conf osenv theCollector monitoredMetric
  = Metric_ID_Prefix (Collector conf) +:+ MonitoredMetric.ID monitoredMetric.
Proof.
  intros Hp Hi. unfold expanded_id, os.Expand.
  by rewrite (expand_from_no_dollar _ _ Hp), (expand_from_no_dollar _ _ Hi).
Qed.

(** X10. Splitting neither loses, repeats nor reorders datapoints: the
    datapoints of the series split out of a collected metric, taken series
    after series, are the datapoints of that metric, and every series has
    the tenant and the type of the metric. *)
Theorem X10_split_keeps_datapoints
    (osenv : gmap string string) (template : string)
    (collectedMetric : MetricHeader.t) :
  mjoin (MetricHeader.Data <$> splitMetrics_of osenv template collectedMetric)
  = MetricHeader.Data collectedMetric
  ∧ Forall (λ m, MetricHeader.Tenant m = MetricHeader.Tenant collectedMetric
                 ∧ MetricHeader.Type_ m = MetricHeader.Type_ collectedMetric
                 ∧ length (MetricHeader.Data m) = 1%nat)
           (splitMetrics_of osenv template collectedMetric).
Proof.
  unfold splitMetrics_of. split.
  - rewrite <- list_fmap_compose.
    induction (MetricHeader.Data collectedMetric) as [|dp data IH]; [done|].
    rewrite fmap_cons.
    change (mjoin (?x :: ?l)) with (x ++ mjoin l)%list.
    by rewrite IH.
  - apply Forall_fmap, Forall_forall. by intros dp _.
Qed.

Lemma keysMap_of_no_labels (data : list Datapoint.t) :
  Forall (λ datapt, Datapoint.Tags datapt = ∅) data → keysMap_of data = ∅.
Proof.
  intros Hall. apply set_eq. intros k. rewrite elem_of_keysMap_of.
  split; [|by intros ?%not_elem_of_empty].
  intros (dp & Hin & [v Hv]).
  rewrite (proj1 (Forall_forall _ _) Hall dp Hin), lookup_empty in Hv. done.
Qed.

(** X11. A collected metric whose prefixed id holds no token and whose
    datapoints have no labels is not split: nothing is sent for it inside
    the loop, it keeps its tenant, type and datapoints and gets the
    prefixed id, and a definition for that id is noted unless declared.  It
    stays in the batch of the cycle unless the id is the empty string, in
    which case it is removed from the batch although its definition is
    still noted. *)
Theorem X11_plain_metric_passes
    (conf : Config) (osenv : gmap string string) (theCollector : MetricsCollector)
    (declared : gmap string MonitoredMetric.t)
    (monitoredMetric : MonitoredMetric.t) (collectedMetric : MetricHeader.t)
    (st : Cycle) :
  let id1 := expanded_id conf osenv theCollector monitoredMetric in
  strings.Contains id1 "${" = false →
  Forall (λ datapt, Datapoint.Tags datapt = ∅) (MetricHeader.Data collectedMetric) →
  let r := collect_matched conf osenv theCollector declared monitoredMetric
                           collectedMetric st in
  r.1 = MetricHeader.mk (MetricHeader.Tenant collectedMetric)
                        (MetricHeader.Type_ collectedMetric) id1
                        (MetricHeader.Data collectedMetric)
  ∧ world r.2 = world st
  ∧ totalNumberOfMetricsCollected r.2 = totalNumberOfMetricsCollected st
  ∧ (declared !! id1 = None →
     metricDefinitionsNeeded r.2 = <[id1 := monitoredMetric]> (metricDefinitionsNeeded st))
  ∧ (is_Some (declared !! id1) →
     metricDefinitionsNeeded r.2 = metricDefinitionsNeeded st)
  ∧ remove_obsolete [r.1] = (if String.eqb id1 "" then [] else [r.1]).
Proof.
  intros id1 Hplain Hnolab r.
  assert (default_split_id id1 (MetricHeader.Data collectedMetric) = id1) as Hid.
  { unfold default_split_id. rewrite Hplain, (keysMap_of_no_labels _ Hnolab).
    cbn [negb]. by rewrite size_empty. }
  unfold r, collect_matched. fold id1. rewrite Hid, Hplain. cbn [fst snd].
  split; [done|]. split; [done|]. split; [done|]. unfold remember.
  split; [by intros ->|]. split; [by intros [v ->]|].
  unfold remove_obsolete, MetricHeader.set_ID. cbn [List.filter MetricHeader.ID].
  by destruct (String.eqb id1 "").
Qed.

(** X12. In the environment the tags of a definition are expanded in, a
    value of the collector's additional environment wins over the injected
    value of the same name; without such a value the four injected names
    are bound to the metric's name, id, units symbol and description, and
    no other name is bound. *)
Theorem X12_definition_environment
    (theCollector : MetricsCollector) (metricId name units description : string) :
  let env := definition_env theCollector metricId name units description in
  let additionalEnv := GetAdditionalEnvironment theCollector in
  (∀ k v, additionalEnv !! k = Some v → env !! k = Some v)
  ∧ (additionalEnv !! "METRIC:name" = None → env !! "METRIC:name" = Some name)
  ∧ (additionalEnv !! "METRIC:id" = None → env !! "METRIC:id" = Some metricId)
  ∧ (additionalEnv !! "METRIC:units" = None → env !! "METRIC:units" = Some units)
  ∧ (additionalEnv !! "METRIC:description" = None →
     env !! "METRIC:description" = Some description)
  ∧ (∀ k, additionalEnv !! k = None →
          k ∉ ["METRIC:name"; "METRIC:id"; "METRIC:units"; "METRIC:description"] →
          env !! k = None).
Proof.
  cbn zeta. unfold definition_env.
  split; [intros k v Hk; by apply lookup_union_Some_l|].
  split; [intros Hk; rewrite lookup_union_r by done; by simplify_map_eq|].
  split; [intros Hk; rewrite lookup_union_r by done; by simplify_map_eq|].
  split; [intros Hk; rewrite lookup_union_r by done; by simplify_map_eq|].
  split; [intros Hk; rewrite lookup_union_r by done; by simplify_map_eq|].
  intros k Hk Hnot. rewrite lookup_union_r by done.
  rewrite !not_elem_of_cons in Hnot. destruct Hnot as (?&?&?&?&_).
  by rewrite !lookup_insert_ne, lookup_empty.
Qed.

(* ===================================================================== *)
(** ** What one cycle sends, counts and reports *)
(* ===================================================================== *)

Lemma log_events_frame (es : list LogEvent) (w : World) :
  metricsChan (log_events es w) = metricsChan w
  ∧ DataPointsCollected (log_events es w) = DataPointsCollected w
  ∧ StatusReport (log_events es w) = StatusReport w.
Proof.
  revert w. induction es as [|e es IH]; intros w; [done|].
  unfold log_events in *. cbn [foldl].
  destruct (IH (log_event e w)) as (-> & -> & ->). done.
Qed.

Section Sending.

Variable GetMetricUnits : string → MetricUnits * option string.
Variable conf : Config.
Variable osenv : gmap string string.
Variable theCollector : MetricsCollector.

Lemma collect_one_sends declared cm st :
  ∃ batches,
    metricsChan (world (collect_one conf osenv theCollector declared cm st).2)
    = (metricsChan (world st) ++ batches)%list
    ∧ Forall (Forall single_datapoint) batches
    ∧ totalNumberOfMetricsCollected
        (collect_one conf osenv theCollector declared cm st).2
      = totalNumberOfMetricsCollected st + Z.of_nat (length (mjoin batches))
    ∧ DataPointsCollected (world (collect_one conf osenv theCollector declared cm st).2)
      = DataPointsCollected (world st)
    ∧ StatusReport (world (collect_one conf osenv theCollector declared cm st).2)
      = StatusReport (world st)
    ∧ slot_of (collect_one conf osenv theCollector declared cm st).1 cm.
Proof.
  unfold collect_one.
  destruct (match_metric _ cm) as [mm|]; cbn [fst snd].
  - unfold collect_matched.
    destruct (strings.Contains _ "${") eqn:Hc; cbn [fst snd world
      totalNumberOfMetricsCollected].
    + eexists [_]. split; [reflexivity|]. split.
      { constructor; [|constructor]. unfold splitMetrics_of.
        apply Forall_fmap, Forall_forall. by intros dp _. }
      split; [cbn [mjoin list_join]; by rewrite app_nil_r|]. by repeat split.
    + exists []. rewrite app_nil_r. split; [done|]. split; [constructor|].
      split; [cbn; lia|]. by repeat split.
  - exists []. rewrite app_nil_r. split; [done|]. split; [constructor|].
    split; [cbn; lia|]. by repeat split.
Qed.

Lemma collect_loop_sends declared cms st :
  ∃ batches,
    metricsChan (world (collect_loop conf osenv theCollector declared cms st).2)
    = (metricsChan (world st) ++ batches)%list
    ∧ Forall (Forall single_datapoint) batches
    ∧ totalNumberOfMetricsCollected
        (collect_loop conf osenv theCollector declared cms st).2
      = totalNumberOfMetricsCollected st + Z.of_nat (length (mjoin batches))
    ∧ DataPointsCollected (world (collect_loop conf osenv theCollector declared cms st).2)
      = DataPointsCollected (world st)
    ∧ StatusReport (world (collect_loop conf osenv theCollector declared cms st).2)
      = StatusReport (world st)
    ∧ Forall2 slot_of (collect_loop conf osenv theCollector declared cms st).1 cms.
Proof.
  revert st. induction cms as [|cm cms IH]; intros st.
  { exists []. rewrite app_nil_r. cbn. repeat split; try done; try constructor. lia. }
  cbn [collect_loop].
  destruct (collect_one_sends declared cm st)
    as (b1 & Hchan1 & Hone1 & Htot1 & Hcnt1 & Hst1 & Hslot1).
  destruct (collect_one conf osenv theCollector declared cm st) as [slot st1].
  cbn [fst snd] in *.
  destruct (IH st1) as (b2 & Hchan2 & Hone2 & Htot2 & Hcnt2 & Hst2 & Hslot2).
  destruct (collect_loop conf osenv theCollector declared cms st1) as [slots st2].
  cbn [fst snd] in *.
  exists (b1 ++ b2)%list. split; [by rewrite Hchan2, Hchan1, app_assoc|].
  split; [by apply Forall_app|].
  split; [rewrite Htot2, Htot1, join_app, length_app; lia|].
  split; [congruence|]. split; [congruence|]. by constructor.
Qed.

Lemma createMetricDefinition_frame scrape needed w :
  ∃ pre,
    metricsChan (createMetricDefinition GetMetricUnits conf osenv theCollector
                   scrape needed w).2 = metricsChan w
    ∧ DataPointsCollected (createMetricDefinition GetMetricUnits conf osenv
                             theCollector scrape needed w).2
      = DataPointsCollected w
    ∧ StatusReport (createMetricDefinition GetMetricUnits conf osenv theCollector
                      scrape needed w).2
      = (StatusReport w ++ pre)%list
    ∧ (pre = []
       ∨ pre = [SetEndpoint (GetId theCollector)
                  "Failed to obtain metric details - metric definitions may be incomplete. err=<nil>"])
    ∧ (details_succeed scrape → pre = []).
Proof.
  unfold createMetricDefinition.
  destruct (size needed =? 0)%nat.
  { exists []. rewrite app_nil_r. cbn. by repeat split; try left. }
  destruct (CollectMetricDetails scrape _) as [err|details] eqn:Hd;
    cbn [fst snd send_metricDefs metricsChan DataPointsCollected StatusReport].
  - eexists [_].
    match goal with |- context [log_events ?es ?w0] =>
      destruct (log_events_frame es w0) as (-> & -> & ->) end.
    cbn. split; [done|]. split; [done|]. split; [done|]. split; [by right|].
    intros Hok. destruct (Hok (metricNamesArr needed)) as [ds Hds]. congruence.
  - exists [].
    match goal with |- context [log_events ?es ?w0] =>
      destruct (log_events_frame es w0) as (-> & -> & ->) end.
    rewrite app_nil_r. by repeat split; try left.
Qed.

(** One successful cycle, as the later statements need it. *)
Lemma tick_scraped scrape cms declared w :
  CollectMetrics scrape = inr cms →
  ∃ splits final pre,
    metricsChan (tick GetMetricUnits conf osenv theCollector scrape (declared, w)).2
    = (metricsChan w ++ splits ++ [final])%list
    ∧ Forall (Forall single_datapoint) splits
    ∧ Forall (λ m, MetricHeader.ID m ≠ "" ∧ ∃ cm, cm ∈ cms ∧ slot_of m cm) final
    ∧ DataPointsCollected
        (tick GetMetricUnits conf osenv theCollector scrape (declared, w)).2
      = DataPointsCollected w + Z.of_nat (length (mjoin (splits ++ [final])%list))
    ∧ StatusReport (tick GetMetricUnits conf osenv theCollector scrape (declared, w)).2
      = (StatusReport w ++ pre
         ++ [SetEndpoint (GetId theCollector)
               ("OK. Last collection at [" +:+ now scrape +:+ "] gathered ["
                +:+ pretty (Z.of_nat (length (mjoin (splits ++ [final])%list)))
                +:+ "] metrics in [" +:+ timer scrape +:+ "]")])%list
    ∧ (pre = []
       ∨ pre = [SetEndpoint (GetId theCollector)
                  "Failed to obtain metric details - metric definitions may be incomplete. err=<nil>"])
    ∧ (details_succeed scrape → pre = []).
Proof.
  intros Hcms. unfold tick. rewrite Hcms.
  destruct (collect_loop_sends declared cms (empty_cycle w))
    as (splits & Hchan & Hone & Htot & Hcnt & Hst & Hslots).
  destruct (collect_loop conf osenv theCollector declared cms (empty_cycle w))
    as [slots cyc].
  cbn [fst snd empty_cycle world totalNumberOfMetricsCollected] in *.
  assert (Forall (λ m, MetricHeader.ID m ≠ "" ∧ ∃ cm, cm ∈ cms ∧ slot_of m cm)
                 (remove_obsolete slots)) as Hfinal.
  { apply Forall_forall. intros m Hin. unfold remove_obsolete in Hin.
    apply list_elem_of_In, filter_In in Hin as [Hin Hne].
    apply list_elem_of_In in Hin. split.
    - intros Heq. by rewrite Heq in Hne.
    - apply list_elem_of_lookup in Hin as [i Hi].
      destruct (Forall2_lookup_l _ _ _ _ _ Hslots Hi) as (cm & Hcm & Hs).
      exists cm. split; [by eapply list_elem_of_lookup_2 | done]. }
  assert (totalNumberOfMetricsCollected cyc + Z.of_nat (length (remove_obsolete slots))
          = Z.of_nat (length (mjoin (splits ++ [remove_obsolete slots])%list))) as Hn.
  { rewrite Htot, join_app, length_app. cbn [mjoin list_join].
    rewrite app_nil_r. lia. }
  rewrite Hn.
  exists splits, (remove_obsolete slots).
  destruct (0 <? size (metricDefinitionsNeeded cyc))%nat.
  - destruct (createMetricDefinition_frame scrape (metricDefinitionsNeeded cyc)
                (send_metrics (remove_obsolete slots) (world cyc)))
      as (pre & Hm & Hc & Hs & Hpre & Hok).
    destruct (createMetricDefinition _ _ _ _ _ _ _) as [[e|] w2];
      cbn [fst snd] in *; exists pre;
      cbn [status_call DataPointsCollected_Add metricsChan DataPointsCollected
           StatusReport];
      rewrite Hm, Hc, Hs; cbn [send_metrics metricsChan DataPointsCollected
                               StatusReport];
      rewrite Hchan, Hcnt, Hst, <- !app_assoc; by repeat split.
  - exists []. cbn [fst snd status_call DataPointsCollected_Add send_metrics
                   metricsChan DataPointsCollected StatusReport].
    rewrite Hchan, Hcnt, Hst, <- !app_assoc. cbn [app].
    by repeat split; try left.
Qed.

Lemma tick_failed scrape err declared w :
  CollectMetrics scrape = inl err →
  (tick GetMetricUnits conf osenv theCollector scrape (declared, w)).1 = declared
  ∧ same_sink (tick GetMetricUnits conf osenv theCollector scrape (declared, w)).2 w.
Proof. intros Herr. unfold tick. rewrite Herr. by repeat split. Qed.

Lemma omap_cons_option_list {A B : Type} (f : A → option B) (x : A) (l : list A) :
  omap f (x :: l) = (option_list (f x) ++ omap f l)%list.
Proof. cbn. by destruct (f x). Qed.

(** What the visit of one collected metric sends and what it leaves in
    the slice. *)
Lemma collect_one_exact declared cm st slots :
  metricsChan (world (collect_one conf osenv theCollector declared cm st).2)
  = (metricsChan (world st)
     ++ option_list (split_batch_of conf osenv theCollector cm))%list
  ∧ remove_obsolete ((collect_one conf osenv theCollector declared cm st).1 :: slots)
    = (option_list (kept_of conf osenv theCollector cm) ++ remove_obsolete slots)%list.
Proof.
  unfold collect_one, split_batch_of, kept_of.
  destruct (match_metric _ cm) as [mm|]; cbn [fst snd world].
  - unfold collect_matched.
    destruct (strings.Contains _ "${"); cbn [fst snd world send_metrics metricsChan].
    + done.
    + rewrite app_nil_r. split; [done|].
      unfold remove_obsolete. cbn [List.filter MetricHeader.set_ID MetricHeader.ID].
      by destruct (String.eqb _ "").
  - by rewrite app_nil_r.
Qed.

Lemma collect_loop_exact declared cms st :
  metricsChan (world (collect_loop conf osenv theCollector declared cms st).2)
  = (metricsChan (world st) ++ omap (split_batch_of conf osenv theCollector) cms)%list
  ∧ remove_obsolete (collect_loop conf osenv theCollector declared cms st).1
    = omap (kept_of conf osenv theCollector) cms.
Proof.
  revert st. induction cms as [|cm cms IH]; intros st.
  { cbn. by rewrite app_nil_r. }
  cbn [collect_loop]. rewrite !omap_cons_option_list.
  destruct (IH (collect_one conf osenv theCollector declared cm st).2) as [Hchan Hkept].
  pose proof (collect_one_exact declared cm st
                (collect_loop conf osenv theCollector declared cms
                   (collect_one conf osenv theCollector declared cm st).2).1)
    as [Hchan1 Hkept1].
  destruct (collect_one conf osenv theCollector declared cm st) as [slot st1].
  cbn [fst snd] in *.
  destruct (collect_loop conf osenv theCollector declared cms st1) as [slots st2].
  cbn [fst snd] in *.
  split; [by rewrite Hchan, Hchan1, app_assoc | by rewrite Hkept1, Hkept].
Qed.

(** The batches of one successful cycle, exactly. *)
Lemma tick_batches scrape cms declared w :
  CollectMetrics scrape = inr cms →
  metricsChan (tick GetMetricUnits conf osenv theCollector scrape (declared, w)).2
  = (metricsChan w ++ omap (split_batch_of conf osenv theCollector) cms
     ++ [omap (kept_of conf osenv theCollector) cms])%list.
Proof.
  intros Hcms. unfold tick. rewrite Hcms.
  destruct (collect_loop_exact declared cms (empty_cycle w)) as [Hchan Hkept].
  destruct (collect_loop conf osenv theCollector declared cms (empty_cycle w))
    as [slots cyc].
  cbn [fst snd empty_cycle world] in *.
  destruct (0 <? size (metricDefinitionsNeeded cyc))%nat.
  - destruct (createMetricDefinition_frame scrape (metricDefinitionsNeeded cyc)
                (send_metrics (remove_obsolete slots) (world cyc)))
      as (pre & Hm & _).
    destruct (createMetricDefinition _ _ _ _ _ _ _) as [[e|] w2];
      cbn [fst snd] in *;
      cbn [status_call DataPointsCollected_Add metricsChan];
      rewrite Hm; cbn [send_metrics metricsChan];
      by rewrite Hchan, Hkept, <- app_assoc.
  - cbn [fst snd status_call DataPointsCollected_Add send_metrics metricsChan].
    by rewrite Hchan, Hkept, <- app_assoc.
Qed.

(** What [createMetricDefinition] reports to the status registry: the
    failure message exactly when it made a details request that failed. *)
Lemma createMetricDefinition_status scrape needed w :
  StatusReport (createMetricDefinition GetMetricUnits conf osenv theCollector
                  scrape needed w).2
  = (StatusReport w
     ++ if (size needed =? 0)%nat then []
        else match CollectMetricDetails scrape (metricNamesArr needed) with
             | inl _ =>
                 [SetEndpoint (GetId theCollector)
                    "Failed to obtain metric details - metric definitions may be incomplete. err=<nil>"]
             | inr _ => []
             end)%list.
Proof.
  unfold createMetricDefinition.
  destruct (size needed =? 0)%nat.
  { cbn. by rewrite app_nil_r. }
  destruct (CollectMetricDetails scrape _) as [err|details];
    cbn [fst snd send_metricDefs StatusReport];
    match goal with |- context [log_events ?es ?w0] =>
      destruct (log_events_frame es w0) as (_ & _ & ->) end.
  - done.
  - by rewrite app_nil_r.
Qed.

(** The status calls of one successful cycle, exactly. *)
Lemma tick_status scrape cms declared w :
  CollectMetrics scrape = inr cms →
  ∃ n : Z,
    StatusReport (tick GetMetricUnits conf osenv theCollector scrape (declared, w)).2
    = (StatusReport w
       ++ match details_request conf osenv theCollector scrape (declared, w) with
          | Some (inl _) =>
              [SetEndpoint (GetId theCollector)
                 "Failed to obtain metric details - metric definitions may be incomplete. err=<nil>"]
          | _ => []
          end
       ++ [SetEndpoint (GetId theCollector)
             ("OK. Last collection at [" +:+ now scrape +:+ "] gathered ["
              +:+ pretty n +:+ "] metrics in [" +:+ timer scrape +:+ "]")])%list.
Proof.
  intros Hcms. unfold tick, details_request. rewrite Hcms. cbn [fst snd].
  destruct (collect_loop_sends declared cms (empty_cycle w))
    as (splits & _ & _ & _ & _ & Hst & _).
  destruct (collect_loop conf osenv theCollector declared cms (empty_cycle w))
    as [slots cyc].
  cbn [fst snd empty_cycle world] in *.
  destruct (Nat.ltb_spec 0 (size (metricDefinitionsNeeded cyc))) as [Hpos|Hz].
  - pose proof (createMetricDefinition_status scrape (metricDefinitionsNeeded cyc)
                  (send_metrics (remove_obsolete slots) (world cyc))) as Hs.
    destruct (Nat.eqb_spec (size (metricDefinitionsNeeded cyc)) 0); [lia|].
    destruct (createMetricDefinition _ _ _ _ _ _ _) as [[e|] w2];
      cbn [fst snd] in *; eexists;
      cbn [status_call DataPointsCollected_Add StatusReport];
      rewrite Hs; cbn [send_metrics StatusReport]; rewrite Hst;
      by rewrite <- !app_assoc.
  - eexists. cbn [fst snd status_call DataPointsCollected_Add send_metrics
                  StatusReport].
    by rewrite Hst.
Qed.

End Sending.

(** X13. A cycle whose scrape succeeded sends, in this order, exactly one
    batch for each collected metric it splits, in the order they were
    collected, and then exactly one last batch, sent even when empty.  The
    metrics it splits are those that are matched and whose id, after
    expansion and the label rewrite, holds a [${] token; the batch of such a
    metric has one series for each of its datapoints, with that datapoint
    alone.  The last batch holds, in the order collected, the other matched
    metrics whose id is not empty: a series of the last batch has an id
    that is not empty and holds no [${] token, and the tenant, type and
    datapoints of one of the collected metrics. *)
Theorem X13_cycle_batches
    (GetMetricUnits : string → MetricUnits * option string)
    (conf : Config) (osenv : gmap string string) (theCollector : MetricsCollector)
    (scrape : Scrape) (collectedMetrics : list MetricHeader.t)
    (declared : gmap string MonitoredMetric.t) (w : World) :
  CollectMetrics scrape = inr collectedMetrics →
  let splits := omap (split_batch_of conf osenv theCollector) collectedMetrics in
  let final := omap (kept_of conf osenv theCollector) collectedMetrics in
  metricsChan (tick GetMetricUnits conf osenv theCollector scrape (declared, w)).2
  = (metricsChan w ++ splits ++ [final])%list
  ∧ (∀ cm,
       is_Some (split_batch_of conf osenv theCollector cm)
       ↔ ∃ mm,
           match_metric (monitoredMetricsByNameMap (GetEndpoint theCollector)) cm
           = Some mm
           ∧ strings.Contains
               (default_split_id (expanded_id conf osenv theCollector mm)
                                 (MetricHeader.Data cm)) "${" = true)
  ∧ (∀ cm b,
       split_batch_of conf osenv theCollector cm = Some b →
       MetricHeader.Data <$> b = (λ dp, [dp]) <$> MetricHeader.Data cm)
  ∧ Forall (Forall (λ m, length (MetricHeader.Data m) = 1%nat)) splits
  ∧ Forall (λ m, MetricHeader.ID m ≠ ""
                 ∧ strings.Contains (MetricHeader.ID m) "${" = false
                 ∧ ∃ cm, cm ∈ collectedMetrics
                         ∧ MetricHeader.Tenant m = MetricHeader.Tenant cm
                         ∧ MetricHeader.Type_ m = MetricHeader.Type_ cm
                         ∧ MetricHeader.Data m = MetricHeader.Data cm)
           final.
Proof.
  intros Hcms splits final.
  pose proof (tick_batches GetMetricUnits conf osenv theCollector scrape
                collectedMetrics declared w Hcms) as Hexact.
  fold splits in Hexact. fold final in Hexact.
  destruct (tick_scraped GetMetricUnits conf osenv theCollector scrape
              collectedMetrics declared w Hcms)
    as (splits' & final' & pre & Hchan & Hone & Hfinal & _).
  rewrite Hexact in Hchan. apply app_inv_head in Hchan.
  apply app_inj_tail in Hchan as [-> ->].
  split; [exact Hexact|]. split.
  { intros cm. unfold split_batch_of.
    destruct (match_metric _ cm) as [mm|].
    - destruct (strings.Contains _ "${") eqn:Hc.
      + split; [|by eexists]. intros _. by exists mm.
      + split; [by intros [? ?]|]. intros (mm' & [= <-] & Hc'). congruence.
    - split; [by intros [? ?]|]. by intros (mm' & ? & _). }
  split.
  { intros cm b. unfold split_batch_of.
    destruct (match_metric _ cm) as [mm|]; [|done].
    destruct (strings.Contains _ "${"); [|done].
    intros [= <-]. unfold splitMetrics_of.
    rewrite <- list_fmap_compose. by apply list_fmap_ext. }
  split; [exact Hone|].
  eapply Forall_impl; [exact Hfinal|].
  intros m (Hne & cm & Hin & Hc & Ht & Hty & Hd). split; [done|]. split; [done|].
  by exists cm.
Qed.

Lemma tick_counter GetMetricUnits conf osenv theCollector scrape st :
  DataPointsCollected (tick GetMetricUnits conf osenv theCollector scrape st).2
  - series_sent (tick GetMetricUnits conf osenv theCollector scrape st).2
  = DataPointsCollected st.2 - series_sent st.2.
Proof.
  destruct st as [declared w]. cbn [snd].
  destruct (CollectMetrics scrape) as [err|cms] eqn:Hc.
  - destruct (tick_failed GetMetricUnits conf osenv theCollector scrape err
                declared w Hc) as (_ & Hm & _ & Hd).
    unfold series_sent. by rewrite Hm, Hd.
  - destruct (tick_scraped GetMetricUnits conf osenv theCollector scrape cms
                declared w Hc) as (splits & final & pre & Hchan & _ & _ & Hcnt & _).
    unfold series_sent. rewrite Hchan, Hcnt, !join_app, !length_app. lia.
Qed.

(** X14. The agent's datapoint counter keeps step with the datapoint
    channel: over any sequence of cycles of a scheduler, failed scrapes
    included, the counter grows by exactly the number of series sent on the
    channel. *)
Theorem X14_counter_counts_series
    (GetMetricUnits : string → MetricUnits * option string)
    (conf : Config) (osenv : gmap string string) (theCollector : MetricsCollector)
    (scrapes : list Scrape) (st : gmap string MonitoredMetric.t * World) :
  let st' := run GetMetricUnits conf osenv theCollector scrapes st in
  DataPointsCollected st'.2 - DataPointsCollected st.2
  = series_sent st'.2 - series_sent st.2.
Proof.
  cbn zeta.
  assert (DataPointsCollected (run GetMetricUnits conf osenv theCollector scrapes st).2
          - series_sent (run GetMetricUnits conf osenv theCollector scrapes st).2
          = DataPointsCollected st.2 - series_sent st.2) as H; [|lia].
  revert st. induction scrapes as [|scrape scrapes IH]; intros st; [done|].
  unfold run in *. cbn [foldl]. rewrite IH. apply tick_counter.
Qed.

(** X15. After a cycle whose scrape succeeded, the endpoint's status is the
    OK message with the number of series the cycle sent, also when the
    metric-details request failed: then, and only then, the details
    failure message is reported first, and the OK message right after it.
    A cycle that makes no details request, or whose request is answered,
    reports the OK message alone. *)
Theorem X15_status_after_cycle
    (GetMetricUnits : string → MetricUnits * option string)
    (conf : Config) (osenv : gmap string string) (theCollector : MetricsCollector)
    (scrape : Scrape) (collectedMetrics : list MetricHeader.t)
    (declared : gmap string MonitoredMetric.t) (w : World) :
  CollectMetrics scrape = inr collectedMetrics →
  let w' := (tick GetMetricUnits conf osenv theCollector scrape (declared, w)).2 in
  let pre :=
    match details_request conf osenv theCollector scrape (declared, w) with
    | Some (inl _) =>
        [SetEndpoint (GetId theCollector)
           "Failed to obtain metric details - metric definitions may be incomplete. err=<nil>"]
    | _ => []
    end in
  ∃ n : Z,
    StatusReport w'
    = (StatusReport w ++ pre
       ++ [SetEndpoint (GetId theCollector)
             ("OK. Last collection at [" +:+ now scrape +:+ "] gathered ["
              +:+ pretty n +:+ "] metrics in [" +:+ timer scrape +:+ "]")])%list
    ∧ series_sent w' = series_sent w + n.
Proof.
  intros Hcms w' pre.
  destruct (tick_scraped GetMetricUnits conf osenv theCollector scrape
              collectedMetrics declared w Hcms)
    as (splits & final & pre' & Hchan & _ & _ & _ & Hst & _).
  destruct (tick_status GetMetricUnits conf osenv theCollector scrape
              collectedMetrics declared w Hcms) as [n' Hexact].
  fold pre in Hexact. fold w' in Hexact, Hst, Hchan.
  exists (Z.of_nat (length (mjoin (splits ++ [final])%list))).
  split.
  - rewrite Hst in Hexact. apply app_inv_head in Hexact.
    apply app_inj_tail in Hexact as [-> _]. exact Hst.
  - unfold series_sent. rewrite Hchan, !join_app, !length_app. lia.
Qed.

(* ===================================================================== *)
(** ** Failed scrapes and the sink *)
(* ===================================================================== *)

Lemma same_sink_refl w : same_sink w w.
Proof. by repeat split. Qed.

Lemma same_sink_log_events es1 es2 w1 w2 :
  same_sink w1 w2 → same_sink (log_events es1 w1) (log_events es2 w2).
Proof.
  intros (H1 & H2 & H3).
  destruct (log_events_frame es1 w1) as (Ha & Hb & _).
  destruct (log_events_frame es2 w2) as (Hc & Hd & _).
  split; [congruence|]. split; [|congruence].
  by rewrite !metricDefsChan_log_events.
Qed.

Section Sink.

Variable GetMetricUnits : string → MetricUnits * option string.
Variable conf : Config.
Variable osenv : gmap string string.
Variable theCollector : MetricsCollector.

Lemma collect_one_sink declared cm st1 st2 :
  same_sink_cycle st1 st2 →
  (collect_one conf osenv theCollector declared cm st1).1
  = (collect_one conf osenv theCollector declared cm st2).1
  ∧ same_sink_cycle (collect_one conf osenv theCollector declared cm st1).2
                    (collect_one conf osenv theCollector declared cm st2).2.
Proof.
  intros (Hn & Ht & Hm & Hd & Hc). unfold collect_one.
  destruct (match_metric _ cm) as [mm|]; cbn [fst snd].
  - unfold collect_matched. destruct (strings.Contains _ "${"); cbn [fst snd];
      (split; [done|]); (split; [cbn; congruence|]); (split; [cbn; congruence|]);
      repeat split; cbn; congruence.
  - split; [done|]. by repeat split.
Qed.

Lemma collect_loop_sink declared cms st1 st2 :
  same_sink_cycle st1 st2 →
  (collect_loop conf osenv theCollector declared cms st1).1
  = (collect_loop conf osenv theCollector declared cms st2).1
  ∧ same_sink_cycle (collect_loop conf osenv theCollector declared cms st1).2
                    (collect_loop conf osenv theCollector declared cms st2).2.
Proof.
  revert st1 st2. induction cms as [|cm cms IH]; intros st1 st2 Hs; [done|].
  cbn [collect_loop].
  destruct (collect_one_sink declared cm st1 st2 Hs) as [Hslot Hs'].
  destruct (collect_one conf osenv theCollector declared cm st1) as [s1 c1].
  destruct (collect_one conf osenv theCollector declared cm st2) as [s2 c2].
  cbn [fst snd] in Hslot, Hs'. subst s2. specialize (IH c1 c2 Hs').
  destruct (collect_loop conf osenv theCollector declared cms c1) as [ss1 d1].
  destruct (collect_loop conf osenv theCollector declared cms c2) as [ss2 d2].
  cbn [fst snd] in *. destruct IH as [-> IH]. done.
Qed.

Lemma createMetricDefinition_sink scrape needed w1 w2 :
  same_sink w1 w2 →
  (createMetricDefinition GetMetricUnits conf osenv theCollector scrape needed w1).1
  = (createMetricDefinition GetMetricUnits conf osenv theCollector scrape needed w2).1
  ∧ same_sink
      (createMetricDefinition GetMetricUnits conf osenv theCollector scrape needed w1).2
      (createMetricDefinition GetMetricUnits conf osenv theCollector scrape needed w2).2.
Proof.
  intros Hw. unfold createMetricDefinition.
  destruct (size needed =? 0)%nat; [done|].
  destruct (CollectMetricDetails scrape _) as [err|details]; cbn [fst snd];
    (split; [done|]).
  - match goal with
    | |- same_sink (send_metricDefs ?b (log_events ?es ?u1))
                   (send_metricDefs ?b (log_events ?es ?u2)) =>
        assert (same_sink (log_events es u1) (log_events es u2)) as (H1 & H2 & H3)
    end.
    { apply same_sink_log_events. destruct Hw as (?&?&?). by repeat split. }
    repeat split; cbn; congruence.
  - match goal with
    | |- same_sink (send_metricDefs ?b (log_events ?es ?u1))
                   (send_metricDefs ?b (log_events ?es ?u2)) =>
        assert (same_sink (log_events es u1) (log_events es u2)) as (H1 & H2 & H3)
          by (by apply same_sink_log_events)
    end.
    repeat split; cbn; congruence.
Qed.

Lemma tick_sink scrape declared w1 w2 :
  same_sink w1 w2 →
  (tick GetMetricUnits conf osenv theCollector scrape (declared, w1)).1
  = (tick GetMetricUnits conf osenv theCollector scrape (declared, w2)).1
  ∧ same_sink (tick GetMetricUnits conf osenv theCollector scrape (declared, w1)).2
              (tick GetMetricUnits conf osenv theCollector scrape (declared, w2)).2.
Proof.
  intros Hw. unfold tick.
  destruct (CollectMetrics scrape) as [err|cms]; cbn [fst snd].
  { split; [done|]. destruct Hw as (?&?&?). by repeat split. }
  destruct (collect_loop_sink declared cms (empty_cycle w1) (empty_cycle w2))
    as [Hslots (Hn & Ht & Hs)]; [split; [done|]; split; [done|]; exact Hw|].
  destruct (collect_loop conf osenv theCollector declared cms (empty_cycle w1))
    as [ss1 c1].
  destruct (collect_loop conf osenv theCollector declared cms (empty_cycle w2))
    as [ss2 c2].
  cbn [fst snd] in *. subst ss2. rewrite Hn, Ht.
  assert (same_sink (send_metrics (remove_obsolete ss1) (world c1))
                    (send_metrics (remove_obsolete ss1) (world c2))) as Hs1.
  { destruct Hs as (?&?&?). repeat split; cbn; congruence. }
  destruct (0 <? size (metricDefinitionsNeeded c2))%nat.
  - destruct (createMetricDefinition_sink scrape (metricDefinitionsNeeded c2) _ _ Hs1)
      as [He (H1 & H2 & H3)].
    destruct (createMetricDefinition _ _ _ _ _ _ (send_metrics _ (world c1)))
      as [e1 u1].
    destruct (createMetricDefinition _ _ _ _ _ _ (send_metrics _ (world c2)))
      as [e2 u2].
    cbn [fst snd] in *. subst e2.
    destruct e1; cbn [fst snd]; (split; [done|]); repeat split; cbn; congruence.
  - cbn [fst snd]. split; [done|]. destruct Hs as (?&?&?).
    repeat split; cbn; congruence.
Qed.

End Sink.

(** X16. A failed scrape is invisible to the sink and to later cycles: a
    sequence of cycles sends the same batches on both channels, leaves the
    same cache of declared definitions and the same counter as the sequence
    without its failed scrapes. *)
Theorem X16_failed_scrapes_leave_no_trace
    (GetMetricUnits : string → MetricUnits * option string)
    (conf : Config) (osenv : gmap string string) (theCollector : MetricsCollector)
    (scrapes : list Scrape) (st : gmap string MonitoredMetric.t * World) :
  let all := run GetMetricUnits conf osenv theCollector scrapes st in
  let good := run GetMetricUnits conf osenv theCollector
                  (List.filter scraped scrapes) st in
  all.1 = good.1
  ∧ metricsChan all.2 = metricsChan good.2
  ∧ metricDefsChan all.2 = metricDefsChan good.2
  ∧ DataPointsCollected all.2 = DataPointsCollected good.2.
Proof.
  cbn zeta.
  assert (∀ st1 st2, st1.1 = st2.1 → same_sink st1.2 st2.2 →
            (run GetMetricUnits conf osenv theCollector scrapes st1).1
            = (run GetMetricUnits conf osenv theCollector
                   (List.filter scraped scrapes) st2).1
            ∧ same_sink
                (run GetMetricUnits conf osenv theCollector scrapes st1).2
                (run GetMetricUnits conf osenv theCollector
                     (List.filter scraped scrapes) st2).2) as H.
  { induction scrapes as [|scrape scrapes IH]; intros [d1 w1] [d2 w2] Hd Hw;
      [done|].
    cbn [fst snd] in Hd, Hw. subst d2. cbn [List.filter]. unfold run in *.
    cbn [foldl]. destruct (scraped scrape) eqn:Hsc; unfold scraped in Hsc;
      destruct (CollectMetrics scrape) as [err|cms] eqn:Hc; try discriminate.
    - cbn [foldl].
      destruct (tick_sink GetMetricUnits conf osenv theCollector scrape
                  d1 w1 w2 Hw).
      by apply IH.
    - apply IH.
      + by destruct (tick_failed GetMetricUnits conf osenv theCollector scrape
                       err d1 w1 Hc).
      + destruct (tick_failed GetMetricUnits conf osenv theCollector scrape
                    err d1 w1 Hc) as (_ & H1 & H2 & H3).
        destruct Hw as (?&?&?). cbn [snd]. repeat split; congruence. }
  destruct (H st st eq_refl (same_sink_refl _)) as (? & ? & ? & ?). done.
Qed.

(* ===================================================================== *)
(** ** The cache of declared definitions and the definition batches *)
(* ===================================================================== *)

Lemma tick_cache_sent GetMetricUnits conf osenv theCollector scrape st :
  cache_sent st →
  cache_sent (tick GetMetricUnits conf osenv theCollector scrape st).
Proof.
  destruct st as [declared w]. intros Hcs.
  destruct (tick_defs GetMetricUnits conf osenv theCollector scrape declared w)
    as (_ & batches & Hchan & _ & _).
  pose proof (definition_ids_sent_app _ _ _ Hchan) as Hsent.
  intros id Hid. rewrite Hsent. apply elem_of_app.
  revert Hid Hchan. unfold tick.
  destruct (CollectMetrics scrape) as [err|cms]; cbn [fst snd].
  { intros Hid _. left. by apply Hcs. }
  destruct (collect_loop conf osenv theCollector declared cms (empty_cycle w))
    as [slots cyc] eqn:Hloop.
  pose proof (collect_loop_fresh conf osenv theCollector declared cms (empty_cycle w))
    as Hfresh.
  rewrite Hloop in Hfresh. cbn [fst snd empty_cycle world] in Hfresh.
  destruct Hfresh as [_ Hc].
  { intros id' [? Hid']. cbn in Hid'. by rewrite lookup_empty in Hid'. }
  destruct (Nat.ltb_spec 0 (size (metricDefinitionsNeeded cyc))) as [Hpos|Hz].
  - destruct (createMetricDefinition_sends GetMetricUnits conf osenv theCollector
                scrape (metricDefinitionsNeeded cyc)
                (send_metrics (remove_obsolete slots) (world cyc)))
      as (batch & Hb & Hids & _); [lia|].
    destruct (createMetricDefinition _ _ _ _ _ _ _) as [[e|] w2];
      cbn [fst snd] in *.
    + intros Hid _. left. by apply Hcs.
    + intros Hid Hchan.
      assert (batches = [batch]) as ->.
      { cbn in Hchan, Hb. rewrite Hb, Hc in Hchan.
        by apply app_inv_head in Hchan. }
      destruct Hid as [v Hv]. apply lookup_union_Some_raw in Hv as [Hv|[_ Hv]].
      * right. cbn [fmap list_fmap mjoin list_join]. rewrite app_nil_r.
        change (list_fmap _ _ MetricDefinition.ID batch)
          with (MetricDefinition.ID <$> batch).
        rewrite Hids. apply elem_of_needed_ids. by eexists.
      * left. apply Hcs. by eexists.
  - intros Hid _. left. by apply Hcs.
Qed.

(** X17. The cache of declared definitions never forgets an id, and it
    holds only ids whose definition was sent: after any sequence of cycles
    of a scheduler that began with an empty cache, every cached id is among
    the ids sent on the definition channel. *)
Theorem X17_cache_within_sent
    (GetMetricUnits : string → MetricUnits * option string)
    (conf : Config) (osenv : gmap string string) (theCollector : MetricsCollector)
    (scrapes more : list Scrape) (w : World) :
  let st := run GetMetricUnits conf osenv theCollector scrapes (∅, w) in
  let st' := run GetMetricUnits conf osenv theCollector more st in
  (∀ id, is_Some (st.1 !! id) → id ∈ definition_ids_sent st.2)
  ∧ (∀ id, is_Some (st.1 !! id) → is_Some (st'.1 !! id)).
Proof.
  cbn zeta. split.
  - assert (∀ st0, cache_sent st0 →
              cache_sent (run GetMetricUnits conf osenv theCollector scrapes st0))
      as H.
    { induction scrapes as [|scrape scrapes' IH]; intros st0 Hst0; [done|].
      unfold run in *. cbn [foldl]. by apply IH, tick_cache_sent. }
    apply H. intros id [v Hv]. cbn in Hv. by rewrite lookup_empty in Hv.
  - by destruct (run_defs GetMetricUnits conf osenv theCollector more
                   (run GetMetricUnits conf osenv theCollector scrapes (∅, w))).
Qed.

Lemma metricType_of_not_empty monitoredMetric metricDetail :
  metricType_of monitoredMetric metricDetail ≠ "".
Proof.
  unfold metricType_of.
  destruct (String.eqb_spec (MonitoredMetric.Type_ monitoredMetric) ""); [|done].
  destruct (String.eqb_spec (MetricDetails.MetricType_ metricDetail) ""); done.
Qed.

(** X18. Whenever [createMetricDefinition] is given ids to declare, it
    sends exactly one batch, with exactly one definition for each of them,
    whether or not the metric-details request succeeds; each definition
    has the endpoint's tenant and a type that is never empty: the declared
    type when there is one, else the type of the details, else gauge.  An
    error is returned exactly when the details request failed. *)
Theorem X18_definition_batch
    (GetMetricUnits : string → MetricUnits * option string)
    (conf : Config) (osenv : gmap string string) (theCollector : MetricsCollector)
    (scrape : Scrape) (metricDefsNeeded : gmap string MonitoredMetric.t)
    (w : World) :
  metricDefsNeeded ≠ ∅ →
  let r := createMetricDefinition GetMetricUnits conf osenv theCollector scrape
                                  metricDefsNeeded w in
  ∃ batch : list MetricDefinition.t,
    metricDefsChan r.2 = (metricDefsChan w ++ [batch])%list
    ∧ NoDup (MetricDefinition.ID <$> batch)
    ∧ (∀ id, id ∈ MetricDefinition.ID <$> batch ↔ is_Some (metricDefsNeeded !! id))
    ∧ length batch = size metricDefsNeeded
    ∧ Forall (λ d,
                MetricDefinition.Tenant d = Endpoint.Tenant (GetEndpoint theCollector)
                ∧ MetricDefinition.Type_ d ≠ ""
                ∧ ∃ mm, metricDefsNeeded !! MetricDefinition.ID d = Some mm
                        ∧ (MonitoredMetric.Type_ mm ≠ "" →
                           MetricDefinition.Type_ d = MonitoredMetric.Type_ mm))
             batch
    ∧ (r.1 = None ↔
       ∃ details, CollectMetricDetails scrape (metricNamesArr metricDefsNeeded)
                  = inr details).
Proof.
  intros Hne r. unfold r, createMetricDefinition.
  destruct (Nat.eqb_spec (size metricDefsNeeded) 0) as [Hz|_].
  { by apply map_size_empty_iff in Hz. }
  assert (∀ details,
            let batch := (λ kv, metricDef_of GetMetricUnits conf osenv theCollector
                                  details kv.1 kv.2) <$> map_to_list metricDefsNeeded in
            NoDup (MetricDefinition.ID <$> batch)
            ∧ (∀ id, id ∈ MetricDefinition.ID <$> batch
                     ↔ is_Some (metricDefsNeeded !! id))
            ∧ length batch = size metricDefsNeeded
            ∧ Forall (λ d,
                MetricDefinition.Tenant d = Endpoint.Tenant (GetEndpoint theCollector)
                ∧ MetricDefinition.Type_ d ≠ ""
                ∧ ∃ mm, metricDefsNeeded !! MetricDefinition.ID d = Some mm
                        ∧ (MonitoredMetric.Type_ mm ≠ "" →
                           MetricDefinition.Type_ d = MonitoredMetric.Type_ mm))
                batch) as Hbatch.
  { intros details batch.
    assert (MetricDefinition.ID <$> batch = (map_to_list metricDefsNeeded).*1) as Hids.
    { unfold batch. rewrite <- list_fmap_compose. by apply list_fmap_ext. }
    split; [rewrite Hids; apply NoDup_fst_map_to_list|].
    split; [intros id; rewrite Hids; apply elem_of_needed_ids|].
    split; [unfold batch; by rewrite length_fmap, length_map_to_list|].
    unfold batch. apply Forall_fmap, Forall_forall.
    intros [id mm] Hin%elem_of_map_to_list. cbn [compose fst snd].
    unfold metricDef_of. cbn [MetricDefinition.Tenant MetricDefinition.Type_
                              MetricDefinition.ID].
    split; [done|]. split; [apply metricType_of_not_empty|].
    exists mm. split; [done|]. intros Hty. unfold metricType_of.
    by destruct (String.eqb_spec (MonitoredMetric.Type_ mm) ""). }
  destruct (CollectMetricDetails scrape _) as [err|details] eqn:Hd;
    cbn [fst snd send_metricDefs metricDefsChan];
    rewrite metricDefsChan_log_events; eexists; (split; [reflexivity|]).
  - destruct (Hbatch []) as (H1 & H2 & H3 & H4).
    split; [done|]. split; [done|]. split; [done|]. split; [done|].
    split; [done | by intros [? ?]].
  - destruct (Hbatch details) as (H1 & H2 & H3 & H4).
    split; [done|]. split; [done|]. split; [done|]. split; [done|].
    split; [by eexists | done].
Qed.

(* ===================================================================== *)
(** ** A cycle that collects nothing it was told to collect *)
(* ===================================================================== *)

Lemma collect_loop_unexpected conf osenv theCollector declared cms st :
  Endpoint.Metrics (GetEndpoint theCollector) ≠ [] →
  Forall (λ cm, expected (GetEndpoint theCollector) cm = false) cms →
  collect_loop conf osenv theCollector declared cms st
  = (MetricHeader.set_ID "" <$> cms,
     mkCycle (metricDefinitionsNeeded st) (totalNumberOfMetricsCollected st)
             (log_events
                ((λ cm, Warn_unexpected_metric (MetricHeader.ID cm)
                                               (GetId theCollector)) <$> cms)
                (world st))).
Proof.
  intros Hne Hall. revert st. induction Hall as [|cm cms Hcm _ IH]; intros st.
  - by destruct st.
  - cbn [collect_loop].
    rewrite (collect_one_unexpected conf osenv theCollector declared cm st Hne Hcm).
    rewrite IH. reflexivity.
Qed.

Lemma remove_obsolete_cleared (cms : list MetricHeader.t) :
  remove_obsolete (MetricHeader.set_ID "" <$> cms) = [].
Proof.
  unfold remove_obsolete. induction cms as [|cm cms IH]; [done|].
  rewrite fmap_cons. cbn [List.filter MetricHeader.set_ID MetricHeader.ID
                           String.eqb negb].
  exact IH.
Qed.

(** X19. When the endpoint lists metrics and none of the collected metrics
    is listed (in particular when nothing was collected), the cycle still
    sends one batch on the datapoint channel, an empty one, sends no
    definition, leaves the cache and the counter as they were, logs one
    warning for each collected metric, in order, and reports OK with a
    count of 0. *)
Theorem X19_nothing_expected
    (GetMetricUnits : string → MetricUnits * option string)
    (conf : Config) (osenv : gmap string string) (theCollector : MetricsCollector)
    (scrape : Scrape) (collectedMetrics : list MetricHeader.t)
    (declared : gmap string MonitoredMetric.t) (w : World) :
  Endpoint.Metrics (GetEndpoint theCollector) ≠ [] →
  CollectMetrics scrape = inr collectedMetrics →
  Forall (λ cm, MetricHeader.ID cm ∉ declared_names (GetEndpoint theCollector))
         collectedMetrics →
  let st' := tick GetMetricUnits conf osenv theCollector scrape (declared, w) in
  st'.1 = declared
  ∧ metricsChan st'.2 = (metricsChan w ++ [[]])%list
  ∧ metricDefsChan st'.2 = metricDefsChan w
  ∧ DataPointsCollected st'.2 = DataPointsCollected w
  ∧ log st'.2
    = log (log_events
             ((λ cm, Warn_unexpected_metric (MetricHeader.ID cm) (GetId theCollector))
                <$> collectedMetrics) w)
  ∧ StatusReport st'.2
    = (StatusReport w
       ++ [SetEndpoint (GetId theCollector)
             ("OK. Last collection at [" +:+ now scrape
              +:+ "] gathered [0] metrics in [" +:+ timer scrape +:+ "]")])%list.
Proof.
  intros Hne Hcms Hall st'. unfold st', tick. rewrite Hcms.
  rewrite (collect_loop_unexpected conf osenv theCollector declared
             collectedMetrics (empty_cycle w) Hne).
  2: { eapply Forall_impl; [exact Hall|]. intros cm Hcm.
       by apply bool_decide_eq_false. }
  rewrite remove_obsolete_cleared.
  cbn [empty_cycle metricDefinitionsNeeded totalNumberOfMetricsCollected world].
  rewrite map_size_empty. cbn [Nat.ltb Nat.leb fst snd].
  match goal with |- context [log_events ?es w] =>
    destruct (log_events_frame es w) as (Hm & Hd & Hs);
    pose proof (metricDefsChan_log_events es w) as Hdefs end.
  cbn [status_call DataPointsCollected_Add send_metrics metricsChan metricDefsChan
       DataPointsCollected StatusReport log length].
  rewrite Hm, Hd, Hs, Hdefs. split; [done|]. split; [done|]. split; [done|].
  split; [lia|]. split; [done|]. reflexivity.
Qed.

(* ===================================================================== *)
(** ** What [StartCollecting] reports *)
(* ===================================================================== *)

(** X20. Starting an enabled collector whose interval is positive reports,
    in this order: the STOP log line when a collector was running under the
    id, the clearing of the id's status, the START log line with the
    interval, and the status STARTING, which is the id's status until the
    first cycle reports; nothing is sent to the sink and the counter is not
    touched. *)
Theorem X20_StartCollecting_reports
    (ParseDuration : string → option Duration)
    (Duration_String : Duration → string)
    (conf : Config) (theCollector : MetricsCollector)
    (mcm : MetricsCollectorManager) (w : World) :
  Endpoint.IsEnabled (GetEndpoint theCollector) = true →
  0 < collectionInterval_of ParseDuration conf theCollector →
  let id := GetId theCollector in
  ∃ mcm' w',
    StartCollecting ParseDuration Duration_String conf theCollector (mcm, w)
    = Done (mcm', w')
    ∧ StatusReport w'
      = (StatusReport w
         ++ match Tickers mcm !! id with
            | Some _ => [AddLogMessage ("STOP collection: " +:+ id)]
            | None => []
            end
         ++ [SetEndpoint id "";
             AddLogMessage
               ("START collection: " +:+ id +:+ " (interval="
                +:+ Duration_String (collectionInterval_of ParseDuration conf theCollector)
                +:+ ")");
             SetEndpoint id "STARTING"])%list
    ∧ last (StatusReport w') = Some (SetEndpoint id "STARTING")
    ∧ metricsChan w' = metricsChan w
    ∧ metricDefsChan w' = metricDefsChan w
    ∧ DataPointsCollected w' = DataPointsCollected w.
Proof.
  intros Hen Hpos id. unfold StartCollecting. rewrite Hen. cbn [negb].
  unfold StopCollecting. fold id.
  destruct (Z.leb_spec (collectionInterval_of ParseDuration conf theCollector) 0);
    [lia|].
  destruct (Tickers mcm !! id) as [t|]; eexists _, _; (split; [reflexivity|]);
    cbn [status_call log_event StatusReport metricsChan metricDefsChan
         DataPointsCollected];
    match goal with |- context [log_events ?es ?w0] =>
      destruct (log_events_frame es w0) as (-> & -> & ->);
      rewrite (metricDefsChan_log_events es w0) end;
    cbn [status_call log_event StatusReport metricsChan metricDefsChan
         DataPointsCollected];
    rewrite <- ?app_assoc; cbn [app];
    (split; [reflexivity|]); (split; [|done]).
  - by rewrite last_app.
  - by rewrite last_app.
Qed.

(* ===================================================================== *)
(** ** The further properties at the worked endpoint *)
(* ===================================================================== *)

Lemma X4_StartCollecting_replaces_witness :
  ∃ mcm' w',
    StartCollecting go_durations go_duration_string ex_conf ex_c
                    (mcm_running, w_init) = Done (mcm', w')
    ∧ tickers mcm' !! 0%nat = Some (mkTicker 30000000000 false)
    ∧ tickers mcm' !! 1%nat = Some (mkTicker 30000000000 true).
Proof.
  destruct (X4_StartCollecting_replaces go_durations go_duration_string ex_conf
              ex_c mcm_running w_init eq_refl)
    as (mcm' & w' & Hstart & _ & Hnew & _ & Hold & _).
  - vm_compute. reflexivity.
  - exists mcm', w'. split; [exact Hstart|]. split.
    + apply (Hold 0%nat (mkTicker 30000000000 true)); vm_compute; reflexivity.
    + exact Hnew.
Defined.

Lemma X5_one_running_ticker_per_id_witness :
  ∃ st,
    StartCollecting go_durations go_duration_string ex_conf ex_c
                    (NewMetricsCollectorManager, w_init) = Done st
    ∧ manager_ok (StopCollectingAll (StopCollecting "other" st)).1.
Proof.
  destruct (StartCollecting go_durations go_duration_string ex_conf ex_c
              (NewMetricsCollectorManager, w_init)) as [st|msg] eqn:Hstart.
  - exists st. split; [reflexivity|].
    apply (X5_one_running_ticker_per_id go_durations go_duration_string ex_conf
             w_init).
    eapply rtc_l; [eapply step_start; exact Hstart|].
    eapply rtc_l; [apply step_stop|].
    apply rtc_once, step_stop_all.
  - vm_compute in Hstart. discriminate.
Defined.

Lemma X6_StartCollecting_no_panic_witness :
  ∃ mcm' w' p,
    StartCollecting go_durations go_duration_string ex_conf
                    (ex_collector "60" true [ex_foo]) (mcm_init, w_init)
    = Done (mcm', w')
    ∧ last (tickers mcm') = Some (mkTicker p true)
    ∧ 30000000000 ≤ p.
Proof.
  apply (X6_StartCollecting_no_panic go_durations go_duration_string ex_conf
           (ex_collector "60" true [ex_foo]) mcm_init w_init 30000000000);
    reflexivity.
Defined.

Lemma X8_last_declaration_wins_witness :
  match_metric
    (monitoredMetricsByNameMap (ex_endpoint "1s" true [ex_foo; ex_bar; ex_foo_late]))
    cm_foo
  = Some ex_foo_late.
Proof.
  etrans; [apply X8_last_declaration_wins; discriminate|].
  vm_compute. reflexivity.
Defined.

Lemma X9_id_without_tokens_witness :
  expanded_id ex_conf ex_os ex_c ex_foo = "" +:+ "foo".
Proof.
  apply (X9_id_without_tokens ex_conf ex_os ex_c ex_foo); reflexivity.
Defined.

Lemma X11_plain_metric_passes_witness :
  (collect_matched ex_conf ex_os ex_c ∅ ex_foo cm_foo (empty_cycle w_init)).1
  = MetricHeader.mk "tenant" "gauge" (expanded_id ex_conf ex_os ex_c ex_foo)
                    [Datapoint.mk 0 1 ∅].
Proof.
  apply (X11_plain_metric_passes ex_conf ex_os ex_c ∅ ex_foo cm_foo
           (empty_cycle w_init)).
  - vm_compute. reflexivity.
  - constructor; [reflexivity | constructor].
Defined.

Lemma X13_cycle_batches_witness :
  batch_ids <$> metricsChan (tick any_units ex_conf ex_os ex_c ex_scrape (∅, w_init)).2
  = batch_ids
    <$> [splitMetrics_of ex_os "bar{k=${k}}" cm_bar; [MetricHeader.set_ID "foo" cm_foo]].
Proof.
  destruct (X13_cycle_batches any_units ex_conf ex_os ex_c ex_scrape
              [cm_foo; cm_bar] ∅ w_init eq_refl)
    as (Hchan & _).
  rewrite Hchan. vm_compute. reflexivity.
Defined.

Lemma X15_status_after_cycle_witness :
  ∃ n : Z,
    StatusReport (tick any_units ex_conf ex_os ex_c ex_scrape_no_details
                       (∅, w_init)).2
    = [SetEndpoint (GetId ex_c)
         "Failed to obtain metric details - metric definitions may be incomplete. err=<nil>";
       SetEndpoint (GetId ex_c)
         ("OK. Last collection at [" +:+ now ex_scrape_no_details
          +:+ "] gathered [" +:+ pretty n +:+ "] metrics in ["
          +:+ timer ex_scrape_no_details +:+ "]")].
Proof.
  destruct (X15_status_after_cycle any_units ex_conf ex_os ex_c
              ex_scrape_no_details [cm_foo] ∅ w_init eq_refl)
    as (n & Hst & _).
  exists n. exact Hst.
Defined.

Lemma X18_definition_batch_witness :
  ∃ batch : list MetricDefinition.t,
    metricDefsChan
      (createMetricDefinition any_units ex_conf ex_os ex_c ex_scrape_no_details
                              {["foo" := ex_foo]} w_init).2
    = ([] ++ [batch])%list
    ∧ length batch = 1%nat.
Proof.
  destruct (X18_definition_batch any_units ex_conf ex_os ex_c ex_scrape_no_details
              {["foo" := ex_foo]} w_init)
    as (batch & Hchan & _ & _ & Hlen & _).
  - apply insert_non_empty.
  - exists batch. split; [exact Hchan|]. rewrite Hlen. apply map_size_singleton.
Defined.

Lemma X19_nothing_expected_witness :
  metricsChan (tick any_units ex_conf ex_os ex_c ex_scrape_baz (∅, w_init)).2
  = ([] ++ [[]])%list
  ∧ metricDefsChan (tick any_units ex_conf ex_os ex_c ex_scrape_baz (∅, w_init)).2
    = [].
Proof.
  destruct (X19_nothing_expected any_units ex_conf ex_os ex_c ex_scrape_baz
              [cm_baz] ∅ w_init)
    as (_ & Hm & Hd & _).
  - discriminate.
  - reflexivity.
  - constructor; [|constructor].
    apply (bool_decide_unpack _). vm_compute. exact I.
  - split; [exact Hm | exact Hd].
Defined.

Lemma X20_StartCollecting_reports_witness :
  ∃ mcm' w',
    StartCollecting go_durations go_duration_string ex_conf ex_c
                    (mcm_running, w_init) = Done (mcm', w')
    ∧ last (StatusReport w') = Some (SetEndpoint (GetId ex_c) "STARTING").
Proof.
  destruct (X20_StartCollecting_reports go_durations go_duration_string ex_conf
              ex_c mcm_running w_init eq_refl)
    as (mcm' & w' & Hstart & _ & Hlast & _).
  - vm_compute. reflexivity.
  - exists mcm', w'. split; [exact Hstart | exact Hlast].
Defined.
